(** * HAINDY: core data models, command-line driver and execution engine

    A shallow embedding of [src/core/types.py], [src/main.py] and
    [src/config/agent_prompts.py].  Python [int] is [Z], [float] is the
    kernel's binary64 [float], [str] is [string], [Optional[T]] is
    [option T], [List[T]] is [list T].  Each pydantic model lives in a
    module of its own name, with its fields under the names the source
    gives them and an [init] function for the validating constructor. *)

From Stdlib Require Import ZArith NArith List String Ascii Bool Lia Floats.
Import ListNotations.

#[local] Open Scope string_scope.
#[local] Open Scope Z_scope.

(** ** pydantic validation

    A model constructor either returns the instance or raises
    [ValidationError], which lists the fields that were refused. *)

Inductive validated (A : Type) : Type :=
| Valid (a : A)
| ValidationError (fields : list string).

Arguments Valid {A} a.
Arguments ValidationError {A} fields.

(** [Field(default, ...)]: the default stands in for an argument that
    was not passed. *)
Definition field_default {A : Type} (default : A) (given : option A) : A :=
  match given with
  | Some a => a
  | None => default
  end.

(** [Field(..., ge=0.0, le=1.0)] on a float: both comparisons are the
    IEEE ones, so a NaN is refused. *)
Definition ge_le_unit (x : float) : bool :=
  (PrimFloat.leb 0%float x && PrimFloat.leb x 1%float)%bool.

(** The names of the fields whose check failed, in declaration order. *)
Definition refused_fields (checks : list (string * bool)) : list string :=
  map fst (filter (fun c => negb (snd c)) checks).

(** ** Python values, exceptions and calls

    The values [json.load] returns, and that the code passes around as
    [Dict[str, Any]]: a [dict] is the list of its items, and of two items
    with one key the later one counts. *)

#[warnings="-register-all"]
Inductive json : Type :=
| JNull
| JBool (b : bool)
| JInt (z : Z)
| JFloat (x : float)
| JString (s : string)
| JArray (items : list json)
| JObject (members : list (string * json)).

(** Calls into code that is not part of this file either return or
    raise; the [except] clauses of [src/main.py] tell four kinds of
    exception apart. *)
Inductive exn : Type :=
| TimeoutError                    (* asyncio.TimeoutError *)
| KeyboardInterrupt
| Exception (name : string)       (* any other subclass of Exception *)
| BaseException (name : string).  (* CancelledError, SystemExit: no Exception *)

Inductive outcome (A : Type) : Type :=
| Ok (a : A)
| Raise (e : exn).

Arguments Ok {A} a.
Arguments Raise {A} e.

Definition returns {A : Type} (o : outcome A) : Prop :=
  match o with
  | Ok _ => True
  | Raise _ => False
  end.

(** [except Exception] catches these, and lets a [KeyboardInterrupt] and
    the other exceptions that are no [Exception] pass. *)
Definition is_Exception (e : exn) : bool :=
  match e with
  | TimeoutError | Exception _ => true
  | KeyboardInterrupt | BaseException _ => false
  end.

(** [needle in haystack] on two [str]: substring search. *)
Fixpoint str_contains (needle haystack : string) : bool :=
  if String.prefix needle haystack then true
  else match haystack with
       | EmptyString => false
       | String _ rest => str_contains needle rest
       end.

Definition json_eq_str (f : string) (v : json) : bool :=
  match v with
  | JString s => String.eqb f s
  | _ => false
  end.

(** [f in scenario] for a [str] [f]: key lookup on a dict, element
    comparison on a list, substring on a str, and [TypeError] (here
    [None]) on the values that are not containers. *)
Definition py_in (f : string) (scenario : json) : option bool :=
  match scenario with
  | JObject members => Some (existsb (fun kv => String.eqb f (fst kv)) members)
  | JArray items => Some (existsb (json_eq_str f) items)
  | JString s => Some (str_contains f s)
  | JNull | JBool _ | JInt _ | JFloat _ => None
  end.

(** [needle in obj] as an expression that can raise. *)
Definition py_contains (needle : string) (obj : json) : outcome bool :=
  match py_in needle obj with
  | Some b => Ok b
  | None => Raise (Exception "TypeError")
  end.

Fixpoint dict_get (key : string) (members : list (string * json)) : option json :=
  match members with
  | [] => None
  | (k, v) :: rest =>
      match dict_get key rest with
      | Some later => Some later
      | None => if String.eqb key k then Some v else None
      end
  end.

(** [d[key] = v]. *)
Definition dict_set (key : string) (v : json) (members : list (string * json))
  : list (string * json) :=
  members ++ [(key, v)].

(** [d.get(key, default)]. *)
Definition dict_get_default (key : string) (default : json)
    (members : list (string * json)) : json :=
  match dict_get key members with
  | Some v => v
  | None => default
  end.

(** [obj[key]] for a [str] key: the item of a dict, [KeyError] without
    one, [TypeError] on everything that is not a dict. *)
Definition py_getitem (obj : json) (key : string) : outcome json :=
  match obj with
  | JObject members =>
      match dict_get key members with
      | Some v => Ok v
      | None => Raise (Exception "KeyError")
      end
  | _ => Raise (Exception "TypeError")
  end.

(** [obj.get(key, default)]: only a dict has the method. *)
Definition py_get (obj : json) (key : string) (default : json) : outcome json :=
  match obj with
  | JObject members => Ok (dict_get_default key default members)
  | _ => Raise (Exception "AttributeError")
  end.

(** [bool(v)]: what [if v] and [not v] test. *)
Definition py_truthy (v : json) : bool :=
  match v with
  | JNull => false
  | JBool b => b
  | JInt z => negb (z =? 0)
  | JFloat x => negb (PrimFloat.eqb x 0%float)
  | JString s => negb (String.eqb s "")
  | JArray items => match items with [] => false | _ => true end
  | JObject members => match members with [] => false | _ => true end
  end.

(** ** The console

    [console.print] renders its text as rich markup.  A line of fixed
    text, or one that only interpolates a number or a timestamp, is
    printed, and so is the progress display, whose text is fixed; a line that interpolates data of the caller or of a
    collaborator (a URL, requirements, a path, the text of an exception,
    a field of a response) is a call that can raise, as rich does on a
    closing tag that closes nothing.  Such a print is recorded as
    attempted, and then returns or raises as the collaborators say. *)

(** A computation that records events of type [L] and returns or
    raises. *)
Definition traced (L A : Type) : Type := list L * outcome A.

Definition tret {L A : Type} (a : A) : traced L A := ([], Ok a).

Definition tbind {L A B : Type} (m : traced L A) (k : A -> traced L B)
  : traced L B :=
  match m with
  | (lines, Ok a) => let (more, o) := k a in ((lines ++ more)%list, o)
  | (lines, Raise e) => (lines, Raise e)
  end.

(** A print of fixed text. *)
Definition tsay {L : Type} (l : L) : traced L unit := ([l], Ok tt).

(** A call, or a print of data: the event, then what the call does. *)
Definition tcall {L A : Type} (l : L) (o : outcome A) : traced L A := ([l], o).

Definition tlift {L A : Type} (o : outcome A) : traced L A := ([], o).

(** [try: m except Exception as e: h e]. *)
Definition tcatch {L A : Type} (m : traced L A) (h : exn -> traced L A)
  : traced L A :=
  match m with
  | (lines, Raise e) =>
      if is_Exception e
      then let (more, o) := h e in ((lines ++ more)%list, o)
      else (lines, Raise e)
  | done => done
  end.

Declare Scope traced_scope.
Delimit Scope traced_scope with traced.
Notation "x <- m ;; k" := (tbind m (fun x => k))
  (at level 61, m at next level, right associativity) : traced_scope.
Notation "m ;; k" := (tbind m (fun _ => k))
  (at level 61, right associativity) : traced_scope.

(** ** src/core/types.py *)

Definition UUID : Type := N.

Inductive TestStatus : Type :=
| PENDING | IN_PROGRESS | COMPLETED | FAILED | SKIPPED | BLOCKED.

(** [TestStatus] is a [str] enum: a member compares equal to its value. *)
Definition TestStatus_value (s : TestStatus) : string :=
  match s with
  | PENDING => "pending"
  | IN_PROGRESS => "in_progress"
  | COMPLETED => "completed"
  | FAILED => "failed"
  | SKIPPED => "skipped"
  | BLOCKED => "blocked"
  end.

Inductive ActionType : Type :=
| CLICK | TYPE | SCROLL | NAVIGATE | WAIT | SCREENSHOT | ASSERT | KEY_PRESS
| SCROLL_TO_ELEMENT | SCROLL_BY_PIXELS | SCROLL_TO_TOP | SCROLL_TO_BOTTOM
| SCROLL_HORIZONTAL.

Module GridCoordinate.

Record t : Type := make {
  cell : string;
  offset_x : float;
  offset_y : float;
  confidence : float;
  refined : bool
}.

(** [GridCoordinate(cell=..., offset_x=..., offset_y=..., confidence=...,
    refined=...)]: [cell] and [confidence] are required ([Field(...)]),
    the offsets default to [0.5] and [refined] to [False]; the offsets
    and the confidence carry [ge=0.0, le=1.0]. *)
Definition init (cell : string) (offset_x offset_y : option float)
    (confidence : float) (refined : option bool) : validated t :=
  let ox := field_default 0.5%float offset_x in
  let oy := field_default 0.5%float offset_y in
  match refused_fields [("offset_x", ge_le_unit ox);
                        ("offset_y", ge_le_unit oy);
                        ("confidence", ge_le_unit confidence)] with
  | [] => Valid (make cell ox oy confidence (field_default false refined))
  | errs => ValidationError errs
  end.

End GridCoordinate.

Module ActionInstruction.

Record t : Type := make {
  action_type : ActionType;
  description : string;
  target : option string;
  value : option string;
  expected_outcome : string;
  timeout : Z
}.

End ActionInstruction.

Module TestStep.

Record t : Type := make {
  step_id : UUID;
  step_number : Z;
  description : string;
  action_instruction : ActionInstruction.t;
  dependencies : list UUID;
  optional : bool;
  max_retries : Z
}.

End TestStep.

Module TestPlan.

Record t : Type := make {
  plan_id : UUID;
  name : string;
  description : string;
  requirements : string;
  steps : list TestStep.t;
  estimated_duration_seconds : option Z;
  tags : list string
}.

End TestPlan.

Module TestState.

Record t : Type := make {
  test_plan : TestPlan.t;
  current_step : option TestStep.t;
  completed_steps : list UUID;
  failed_steps : list UUID;
  skipped_steps : list UUID;
  status : TestStatus;
  error_count : Z;
  warning_count : Z;
  context : list (string * json)
}.

(** [TestState(test_plan=plan)]: every other field takes its default. *)
Definition init (plan : TestPlan.t) : t :=
  make plan None [] [] [] PENDING 0 0 [].

End TestState.

Inductive ScrollDirection : Type := UP | DOWN | LEFT | RIGHT.

Inductive VisibilityStatus : Type :=
| FULLY_VISIBLE | PARTIALLY_VISIBLE | NOT_VISIBLE.

Module ScrollParameters.

Record t : Type := make {
  direction : option ScrollDirection;
  pixels : option Z;
  target_element : option string;
  max_attempts : Z
}.

(** Every field is optional; [max_attempts] is [Field(15, ...)]. *)
Definition init (direction : option ScrollDirection) (pixels : option Z)
    (target_element : option string) (max_attempts : option Z) : t :=
  make direction pixels target_element (field_default 15 max_attempts).

End ScrollParameters.

Module VisibilityResult.

Record t : Type := make {
  status : VisibilityStatus;
  coordinates : option GridCoordinate.t;
  visible_percentage : option Z;
  suggested_direction : option ScrollDirection;
  direction_confidence : float;
  notes : string
}.

End VisibilityResult.

Module ScrollAction.

Record t : Type := make {
  direction : ScrollDirection;
  distance : Z;
  is_correction : bool;
  executed_at : option Z
}.

End ScrollAction.

Module ScrollState.

Record t : Type := make {
  target_element : string;
  attempts : Z;
  max_attempts : Z;
  scroll_history : list ScrollAction.t;
  last_direction : option ScrollDirection;
  overshoot_detected : bool;
  element_partially_visible : bool;
  last_screenshot_hash : option string
}.

(** [target_element] is the only required field: [attempts: int = 0],
    [max_attempts: int = 15], an empty history, no last direction, both
    flags [False], no screenshot hash. *)
Definition init (target_element : string) (attempts max_attempts : option Z)
    (scroll_history : option (list ScrollAction.t))
    (last_direction : option ScrollDirection)
    (overshoot_detected element_partially_visible : option bool)
    (last_screenshot_hash : option string) : t :=
  make target_element
       (field_default 0 attempts)
       (field_default 15 max_attempts)
       (field_default [] scroll_history)
       last_direction
       (field_default false overshoot_detected)
       (field_default false element_partially_visible)
       last_screenshot_hash.

End ScrollState.

Module ScrollResult.

Record t : Type := make {
  success : bool;
  action_type : string;
  coordinates : option GridCoordinate.t;
  confidence : option float;
  attempts : option Z;
  total_scroll_distance : option Z;
  error : option string;
  scroll_history : option (list (list (string * json)))
}.

End ScrollResult.

(** The enums by value, and the other models with a bounded
    confidence. *)

Inductive ConfidenceLevel : Type :=
| VERY_HIGH | HIGH | MEDIUM | LOW | VERY_LOW.

Definition ConfidenceLevel_value (c : ConfidenceLevel) : string :=
  match c with
  | VERY_HIGH => "very_high"
  | HIGH => "high"
  | MEDIUM => "medium"
  | LOW => "low"
  | VERY_LOW => "very_low"
  end.

Definition ActionType_value (a : ActionType) : string :=
  match a with
  | CLICK => "click"
  | TYPE => "type"
  | SCROLL => "scroll"
  | NAVIGATE => "navigate"
  | WAIT => "wait"
  | SCREENSHOT => "screenshot"
  | ASSERT => "assert"
  | KEY_PRESS => "key_press"
  | SCROLL_TO_ELEMENT => "scroll_to_element"
  | SCROLL_BY_PIXELS => "scroll_by_pixels"
  | SCROLL_TO_TOP => "scroll_to_top"
  | SCROLL_TO_BOTTOM => "scroll_to_bottom"
  | SCROLL_HORIZONTAL => "scroll_horizontal"
  end.

Definition ScrollDirection_value (d : ScrollDirection) : string :=
  match d with
  | UP => "up"
  | DOWN => "down"
  | LEFT => "left"
  | RIGHT => "right"
  end.

Definition VisibilityStatus_value (v : VisibilityStatus) : string :=
  match v with
  | FULLY_VISIBLE => "fully_visible"
  | PARTIALLY_VISIBLE => "partially_visible"
  | NOT_VISIBLE => "not_visible"
  end.

(** The members of each enum, in the order of the class body. *)
Definition TestStatus_members : list TestStatus :=
  [PENDING; IN_PROGRESS; COMPLETED; FAILED; SKIPPED; BLOCKED].

Definition ActionType_members : list ActionType :=
  [CLICK; TYPE; SCROLL; NAVIGATE; WAIT; SCREENSHOT; ASSERT; KEY_PRESS;
   SCROLL_TO_ELEMENT; SCROLL_BY_PIXELS; SCROLL_TO_TOP; SCROLL_TO_BOTTOM;
   SCROLL_HORIZONTAL].

Definition ConfidenceLevel_members : list ConfidenceLevel :=
  [VERY_HIGH; HIGH; MEDIUM; LOW; VERY_LOW].

Definition ScrollDirection_members : list ScrollDirection := [UP; DOWN; LEFT; RIGHT].

Definition VisibilityStatus_members : list VisibilityStatus :=
  [FULLY_VISIBLE; PARTIALLY_VISIBLE; NOT_VISIBLE].

(** [EnumClass(value)]: the first member, in definition order, that has
    the value (a later member with the same value would be an alias of
    it); [None] stands for the [ValueError] of a value no member has. *)
Definition enum_by_value {E : Type} (members : list E) (value : E -> string)
    (s : string) : option E :=
  find (fun m => String.eqb (value m) s) members.

(** A single float field with [ge=0.0, le=1.0]. *)
Definition check_confidence {A : Type} (field : string) (x : float) (a : A)
  : validated A :=
  match refused_fields [(field, ge_le_unit x)] with
  | [] => Valid a
  | errs => ValidationError errs
  end.

Module GridAction.

Record t : Type := make {
  instruction : ActionInstruction.t;
  coordinate : GridCoordinate.t;
  screenshot_before : option string;
  fallback_strategy : option string
}.

End GridAction.

Module ActionResult.

Record t : Type := make {
  action_id : UUID;
  success : bool;
  action : GridAction.t;
  screenshot_after : option string;
  execution_time_ms : Z;
  error_message : option string;
  confidence : float;
  timestamp : Z
}.

(** [uuid4] and [now] are what the two default factories produce when
    [action_id] and [timestamp] are not passed. *)
Definition init (uuid4 : UUID) (now : Z) (action_id : option UUID) (success : bool)
    (action : GridAction.t) (screenshot_after : option string)
    (execution_time_ms : Z) (error_message : option string) (confidence : float)
    (timestamp : option Z) : validated t :=
  check_confidence "confidence" confidence
    (make (field_default uuid4 action_id) success action screenshot_after
          execution_time_ms error_message confidence
          (field_default now timestamp)).

End ActionResult.

Module EvaluationResult.

Record t : Type := make {
  step_id : UUID;
  success : bool;
  confidence : float;
  expected_outcome : string;
  actual_outcome : string;
  deviations : list string;
  suggestions : list string;
  screenshot_analysis : option (list (string * json))
}.

Definition init (step_id : UUID) (success : bool) (confidence : float)
    (expected_outcome actual_outcome : string)
    (deviations suggestions : option (list string))
    (screenshot_analysis : option (list (string * json))) : validated t :=
  check_confidence "confidence" confidence
    (make step_id success confidence expected_outcome actual_outcome
          (field_default [] deviations) (field_default [] suggestions)
          screenshot_analysis).

End EvaluationResult.

Module ExecutionJournal.

Record t : Type := make {
  timestamp : Z;
  test_scenario : string;
  step_reference : string;
  action_taken : string;
  grid_coordinates : list (string * json);
  expected_result : string;
  actual_result : string;
  agent_confidence : float;
  screenshot_before : option string;
  screenshot_after : option string;
  execution_time_ms : Z;
  success : bool;
  playwright_command : option string
}.

Definition init (now : Z) (timestamp : option Z)
    (test_scenario step_reference action_taken : string)
    (grid_coordinates : list (string * json))
    (expected_result actual_result : string) (agent_confidence : float)
    (screenshot_before screenshot_after : option string) (execution_time_ms : Z)
    (success : bool) (playwright_command : option string) : validated t :=
  check_confidence "agent_confidence" agent_confidence
    (make (field_default now timestamp) test_scenario step_reference action_taken
          grid_coordinates expected_result actual_result agent_confidence
          screenshot_before screenshot_after execution_time_ms success
          playwright_command).

End ExecutionJournal.

(** [VisibilityResult(status=..., ...)]: only [status] is required;
    [direction_confidence] is [Field(0.0, ge=0.0, le=1.0)], [notes] is
    [Field("")]. *)
Definition VisibilityResult_init (status : VisibilityStatus)
    (coordinates : option GridCoordinate.t) (visible_percentage : option Z)
    (suggested_direction : option ScrollDirection)
    (direction_confidence : option float) (notes : option string)
  : validated VisibilityResult.t :=
  check_confidence "direction_confidence"
    (field_default 0%float direction_confidence)
    (VisibilityResult.make status coordinates visible_percentage
       suggested_direction (field_default 0%float direction_confidence)
       (field_default "" notes)).

(** ** src/config/agent_prompts.py *)

Module PromptTemplates.

(** [action_identification(instruction, confidence_threshold: float = 0.8)]:
    the default of the threshold under which refinement is recommended.
    The literal is the binary64 value Python reads [0.8] as. *)
Definition default_confidence_threshold : float := 0x1.999999999999ap-1%float.

End PromptTemplates.

Definition newline : string := String "010"%char EmptyString.

Definition test_plan_refinement (current_plan feedback : string) : string :=
  "Current test plan:" ++ newline ++ current_plan ++ newline ++ newline
  ++ "Feedback/Additional Requirements:" ++ newline ++ feedback ++ newline
  ++ newline
  ++ "Please provide an updated test plan that addresses the feedback while maintaining the same JSON format.".

Definition result_evaluation (expected_outcome : string) : string :=
  "Expected Outcome: " ++ expected_outcome ++ newline ++ newline
  ++ "Analyze the screenshot and evaluate:" ++ newline
  ++ "1. Whether the expected outcome is achieved" ++ newline
  ++ "2. Any unexpected elements or issues" ++ newline
  ++ "3. Confidence in the evaluation (0.0-1.0)" ++ newline
  ++ "4. Detailed observations" ++ newline ++ newline
  ++ "Provide response in JSON format.".

(** The heading that separates the plan from the feedback in
    [test_plan_refinement], with the blank line before it. *)
Definition feedback_heading : string :=
  newline ++ newline ++ "Feedback/Additional Requirements:" ++ newline.

(** ** src/main.py: [load_scenario] *)

(** [open(scenario_path, "r")] followed by [json.load(f)].  Two of the
    handlers print the path, or an exception whose text holds it: there
    the file comes with what that print does. *)
Inductive scenario_file : Type :=
| Missing (path_printed : outcome unit)      (* open raises FileNotFoundError *)
| Unreadable (error_printed : outcome unit)  (* open or read raises another
                                                exception, an OSError say *)
| Malformed               (* json.load raises JSONDecodeError *)
| Document (v : json).

Inductive load_exception : Type :=
| FileNotFoundError
| JSONDecodeError
| OSError
| TypeError
| ValueError (missing_fields : list string).

(** The three [console.print] lines of the handlers. *)
Inductive load_message : Type :=
| ScenarioFileNotFound
| InvalidJSON
| ErrorLoadingScenario (e : load_exception).

(** [load_scenario] returns the scenario, or ends in [sys.exit], or is
    left by the exception that printing a handler's line raised. *)
Inductive load_result : Type :=
| Scenario (scenario : json)
| SysExit (code : Z) (printed : load_message)
| Uncaught (e : exn).

Definition required_fields : list string := ["name"; "requirements"; "url"].

(** [[f for f in required_fields if f not in scenario]]. *)
Fixpoint missing_fields (fields : list string) (scenario : json)
  : option (list string) :=
  match fields with
  | [] => Some []
  | f :: rest =>
      match py_in f scenario with
      | None => None
      | Some present =>
          match missing_fields rest scenario with
          | None => None
          | Some more => Some (if present then more else f :: more)
          end
      end
  end.

(** The [try] block of [load_scenario]. *)
Definition load_scenario_try (file : scenario_file) : json + load_exception :=
  match file with
  | Missing _ => inr FileNotFoundError
  | Unreadable _ => inr OSError
  | Malformed => inr JSONDecodeError
  | Document scenario =>
      match missing_fields required_fields scenario with
      | None => inr TypeError
      | Some [] => inl scenario
      | Some missing => inr (ValueError missing)
      end
  end.

(** The line of the handler that catches [e]. *)
Definition load_message_of (e : load_exception) : load_message :=
  match e with
  | FileNotFoundError => ScenarioFileNotFound
  | JSONDecodeError => InvalidJSON
  | _ => ErrorLoadingScenario e
  end.

(** What printing that line does.  The text of a [JSONDecodeError], of
    the [TypeError] of [in] and of the [ValueError] that lists the
    missing fields holds no data of the file in markup position: these
    lines are printed. *)
Definition handler_print (file : scenario_file) : outcome unit :=
  match file with
  | Missing printed | Unreadable printed => printed
  | Malformed | Document _ => Ok tt
  end.

(** [load_scenario]: every handler prints its line and then calls
    [sys.exit(1)]. *)
Definition load_scenario (file : scenario_file) : load_result :=
  match load_scenario_try file with
  | inl scenario => Scenario scenario
  | inr e =>
      match handler_print file with
      | Ok _ => SysExit 1 (load_message_of e)
      | Raise raised => Uncaught raised
      end
  end.

(** A JSON record has the key [f]. *)
Definition has_field (f : string) (members : list (string * json)) : bool :=
  existsb (fun kv => String.eqb f (fst kv)) members.

(** ** src/main.py: [run_test]

    [run_test] is sequential code around calls into collaborators that
    are not part of this file (the browser controller, the workflow
    coordinator, the reporter, the loggers, the console).  A call either
    returns or raises. *)

(** An awaitable under [asyncio.wait_for]: the time it needs, in the unit
    of the timeout, and what it produces when it is left to finish. *)
Record awaited (A : Type) : Type := Awaited {
  elapsed : Z;
  result : outcome A
}.

Arguments Awaited {A} elapsed result.
Arguments elapsed {A} a.
Arguments result {A} a.

(** [asyncio.wait_for(aw, timeout=timeout)] on a coroutine: with a
    timeout that is not positive the coroutine is cancelled before it
    runs; otherwise it is cancelled once it has run for longer than
    [timeout]; both raise [TimeoutError]. *)
Definition wait_for {A : Type} (aw : awaited A) (timeout : Z) : outcome A :=
  if ((timeout <=? 0) || (timeout <? elapsed aw))%bool
  then Raise TimeoutError
  else result aw.

(** What [execute_test_from_requirements] hands back.  [run_test] reads
    it by attribute ([getattr] with defaults, [hasattr]), so each
    attribute is either there or not; an attribute that is there is given
    by the [str] it compares equal to. *)
Record test_state_obj : Type := TestStateObj {
  attr_status : option string;
  attr_test_status : option string
}.

(** The object a [TestState] of [core.types] is: [status] is there and,
    being a member of a [str] enum, compares equal to its value. *)
Definition of_TestState (s : TestState.t) : test_state_obj :=
  TestStateObj (Some (TestStatus_value (TestState.status s))) None.

(** The behaviour of every collaborator over one run, in the order of
    the calls.  The [print_] fields are the [console.print] calls that
    interpolate data: the URL, the plan's steps (with the attribute reads
    that build the table), the requirements, the status read off the
    returned state, the report format, the report path, the debug summary
    (with its subscripts) and, in the handler, the exception.
    [test_state_step_counts] stands for the [len(...)] of the step
    collections that the summary reads off the returned state;
    [output_dir_mkdir] for the read of [debug_logger.reports_dir] and the
    [mkdir]; [reporter_generate_report] for [TestReporter()] and its
    [generate_report]. *)
Record collaborators : Type := Collaborators {
  initialize_debug_logger : outcome unit;
  BrowserController_init : outcome unit;
  browser_controller_start : outcome unit;
  MessageBus_init : outcome unit;
  StateManager_init : outcome unit;
  WorkflowCoordinator_init : outcome unit;
  coordinator_initialize : outcome unit;
  print_navigating_to : outcome unit;
  browser_controller_navigate : outcome unit;
  coordinator_generate_test_plan : outcome TestPlan.t;
  print_plan_table : outcome unit;
  print_executing_test : outcome unit;
  coordinator_execute_test_from_requirements : awaited test_state_obj;
  print_summary_status : outcome unit;
  test_state_step_counts : outcome unit;
  output_dir_mkdir : outcome unit;
  print_generating_report : outcome unit;
  reporter_generate_report : outcome unit;
  print_report_saved : outcome unit;
  debug_logger_get_debug_summary : outcome unit;
  print_debug_information : outcome unit;
  print_error_during_execution : outcome unit;
  logger_exception : outcome unit;
  coordinator_cleanup : outcome unit;
  browser_controller_stop : outcome unit
}.

(** The parameters of [run_test]. *)
Record run_args : Type := RunArgs {
  requirements : string;
  url : string;
  plan_only : bool;
  headless : bool;
  output_dir : option string;
  report_format : string;
  timeout : Z;
  max_steps : Z;
  berserk : bool
}.

(** The observable trace: collaborator calls and console lines. *)
Inductive call : Type :=
| InitializeDebugLogger
| BrowserControllerInit (headless : bool)
| BrowserStart
| MessageBusInit
| StateManagerInit
| WorkflowCoordinatorInit (max_steps : Z)
| CoordinatorInitialize
| BrowserNavigate (url : string)
| GenerateTestPlan (requirements : string)
| ExecuteTest (requirements url : string) (timeout : Z)
| ReadStepCounts
| OutputDirMkdir
| GenerateReport (format : string)
| GetDebugSummary
| LoggerException
| CoordinatorCleanup
| BrowserStop.

Inductive console_line : Type :=
| DebugLoggingInitialized
| Banner
| BerserkModeActivated
| NavigatingTo (url : string)
| GeneratingTestPlan
| PlanTable (rows : nat)
| ExecutingTest (requirements : string)
| SummaryHeading
| SummaryStatus (status_color : string)
| SummaryCounts
| GeneratingReport (format : string)
| ReportSaved
| DebugInformation
| TimedOutAfter (timeout : Z)
| InterruptedByUser
| ErrorDuringExecution (e : exn).

Inductive event : Type :=
| Called (c : call)
| Printed (l : console_line).

(** The two local variables the [finally] block reads; [None] until the
    constructor has returned. *)
Definition object : Type := unit.

Record locals : Type := Locals {
  browser_controller : option object;
  coordinator : option object
}.

(** [if obj:] on a variable that holds [None] or an instance. *)
Definition truthy (o : option object) : bool :=
  match o with
  | Some _ => true
  | None => false
  end.

Record frame : Type := Frame {
  vars : locals;
  log : list event
}.

(** Statements: a frame goes in, the frame after the statement comes out,
    with the value or the exception that left it. *)
Definition stmt (A : Type) : Type := frame -> frame * outcome A.

Definition ret {A : Type} (a : A) : stmt A := fun fr => (fr, Ok a).

Definition bind {A B : Type} (m : stmt A) (k : A -> stmt B) : stmt B :=
  fun fr =>
    match m fr with
    | (fr', Ok a) => k a fr'
    | (fr', Raise e) => (fr', Raise e)
    end.

Declare Scope stmt_scope.
Delimit Scope stmt_scope with stmt.
Notation "x <- m ;; k" := (bind m (fun x => k))
  (at level 61, m at next level, right associativity) : stmt_scope.
Notation "m ;; k" := (bind m (fun _ => k))
  (at level 61, right associativity) : stmt_scope.
#[local] Open Scope stmt_scope.

Definition emit (e : event) : stmt unit :=
  fun fr => (Frame (vars fr) (log fr ++ [e]), Ok tt).

(** A print of fixed text. *)
Definition print (l : console_line) : stmt unit := emit (Printed l).

(** A print of data: it is recorded, then returns or raises. *)
Definition print_data (l : console_line) (o : outcome unit) : stmt unit :=
  emit (Printed l) ;; (fun fr => (fr, o)).

(** A call into a collaborator: it is recorded, then returns or raises. *)
Definition invoke {A : Type} (c : call) (o : outcome A) : stmt A :=
  emit (Called c) ;; (fun fr => (fr, o)).

Definition set_browser_controller (o : object) : stmt unit :=
  fun fr => (Frame (Locals (Some o) (coordinator (vars fr))) (log fr), Ok tt).

Definition set_coordinator (o : object) : stmt unit :=
  fun fr => (Frame (Locals (browser_controller (vars fr)) (Some o)) (log fr), Ok tt).

Definition when (b : bool) (m : stmt unit) : stmt unit :=
  if b then m else ret tt.

Definition raise {A : Type} (e : exn) : stmt A := fun fr => (fr, Raise e).

(** [getattr(test_state, 'status', getattr(test_state, 'test_status',
    'unknown'))]. *)
Definition status_text (test_state : test_state_obj) : string :=
  match attr_status test_state with
  | Some s => s
  | None =>
      match attr_test_status test_state with
      | Some s => s
      | None => "unknown"
      end
  end.

(** ["green" if ... == "completed" else "red"]. *)
Definition status_color (test_state : test_state_obj) : string :=
  if String.eqb (status_text test_state) "completed" then "green" else "red".

(** The body of the [try] statement, up to its two [return]s. *)
Definition try_block (a : run_args) (w : collaborators) : stmt Z :=
  invoke InitializeDebugLogger (initialize_debug_logger w) ;;
  print DebugLoggingInitialized ;;
  print Banner ;;
  when (berserk a) (print BerserkModeActivated) ;;
  invoke (BrowserControllerInit (headless a)) (BrowserController_init w) ;;
  set_browser_controller tt ;;
  invoke BrowserStart (browser_controller_start w) ;;
  invoke MessageBusInit (MessageBus_init w) ;;
  invoke StateManagerInit (StateManager_init w) ;;
  invoke (WorkflowCoordinatorInit (max_steps a)) (WorkflowCoordinator_init w) ;;
  set_coordinator tt ;;
  invoke CoordinatorInitialize (coordinator_initialize w) ;;
  print_data (NavigatingTo (url a)) (print_navigating_to w) ;;
  invoke (BrowserNavigate (url a)) (browser_controller_navigate w) ;;
  if plan_only a then
    print GeneratingTestPlan ;;
    test_plan <- invoke (GenerateTestPlan (requirements a))
                        (coordinator_generate_test_plan w) ;;
    print_data (PlanTable (List.length (TestPlan.steps test_plan)))
               (print_plan_table w) ;;
    ret 0
  else
    print_data (ExecutingTest (requirements a)) (print_executing_test w) ;;
    test_state <- invoke (ExecuteTest (requirements a) (url a) (timeout a))
                         (wait_for (coordinator_execute_test_from_requirements w)
                                   (timeout a)) ;;
    print SummaryHeading ;;
    print_data (SummaryStatus (status_color test_state)) (print_summary_status w) ;;
    invoke ReadStepCounts (test_state_step_counts w) ;;
    print SummaryCounts ;;
    invoke OutputDirMkdir (output_dir_mkdir w) ;;
    print_data (GeneratingReport (report_format a)) (print_generating_report w) ;;
    invoke (GenerateReport (report_format a)) (reporter_generate_report w) ;;
    print_data ReportSaved (print_report_saved w) ;;
    invoke GetDebugSummary (debug_logger_get_debug_summary w) ;;
    print_data DebugInformation (print_debug_information w) ;;
    match attr_status test_state with
    | None => raise (Exception "AttributeError")
    | Some s => ret (if String.eqb s "completed" then 0 else 1)
    end.

(** The three [except] clauses, in the order of the source; an exception
    that is no [Exception] passes through all of them, and so does one
    that a handler raises. *)
Definition except_clauses (a : run_args) (w : collaborators) (e : exn) : stmt Z :=
  match e with
  | TimeoutError => print (TimedOutAfter (timeout a)) ;; ret 2
  | KeyboardInterrupt => print InterruptedByUser ;; ret 130
  | Exception _ =>
      print_data (ErrorDuringExecution e) (print_error_during_execution w) ;;
      invoke LoggerException (logger_exception w) ;;
      ret 1
  | BaseException _ => raise e
  end.

Definition try_except (a : run_args) (w : collaborators) : stmt Z :=
  fun fr =>
    match try_block a w fr with
    | (fr', Ok code) => (fr', Ok code)
    | (fr', Raise e) => except_clauses a w e fr'
    end.

(** The [finally] block: two guarded awaits, one after the other. *)
Definition finally_block (w : collaborators) : stmt unit :=
  (fun fr => when (truthy (coordinator (vars fr)))
                  (invoke CoordinatorCleanup (coordinator_cleanup w)) fr) ;;
  (fun fr => when (truthy (browser_controller (vars fr)))
                  (invoke BrowserStop (browser_controller_stop w)) fr).

(** [try: body finally: fin]: [fin] always runs; an exception it raises
    replaces whatever [body] returned or raised. *)
Definition try_finally {A : Type} (body : stmt A) (fin : stmt unit) : stmt A :=
  fun fr =>
    let (fr1, o) := body fr in
    match fin fr1 with
    | (fr2, Ok _) => (fr2, o)
    | (fr2, Raise e) => (fr2, Raise e)
    end.

(** The frame [run_test] starts in. *)
Definition start : frame := Frame (Locals None None) [].

(** [run_test]: the trace of the run and the exit code returned, or the
    exception that leaves the function. *)
Definition run_test (a : run_args) (w : collaborators) : list event * outcome Z :=
  let (fr, o) := try_finally (try_except a w) (finally_block w) start in
  (log fr, o).

(** The outcome of the [try] block alone, before any handler runs. *)
Definition try_outcome (a : run_args) (w : collaborators) : outcome Z :=
  snd (try_block a w start).

(** The outcome of the [try] statement with its handlers, before the
    [finally] block runs. *)
Definition handled_outcome (a : run_args) (w : collaborators) : outcome Z :=
  snd (try_except a w start).

(** A run in which every collaborator returns and the test finishes
    after [elapsed] with the state object [ts]. *)
Definition smooth_run (elapsed : Z) (ts : test_state_obj) : collaborators :=
  let plan := TestPlan.make 1%N "plan" "" "reqs" [] None [] in
  Collaborators (Ok tt) (Ok tt) (Ok tt) (Ok tt) (Ok tt) (Ok tt) (Ok tt) (Ok tt)
                (Ok tt) (Ok plan) (Ok tt) (Ok tt) (Awaited elapsed (Ok ts))
                (Ok tt) (Ok tt) (Ok tt) (Ok tt) (Ok tt) (Ok tt) (Ok tt) (Ok tt)
                (Ok tt) (Ok tt) (Ok tt) (Ok tt).

Definition default_args (requirements url : string) : run_args :=
  RunArgs requirements url false true None "html" 300 50 false.

Definition completed_state : test_state_obj := TestStateObj (Some "completed") None.

(** ** Vocabulary for the properties of [run_test] *)

(** Everything before the plan-only test returns: the debug logger, the
    browser controller and its start, the message bus, the state manager,
    the coordinator and its initialisation, the line that shows the URL,
    the navigation. *)
Definition setup_succeeds (w : collaborators) : Prop :=
  returns (initialize_debug_logger w)
  /\ returns (BrowserController_init w)
  /\ returns (browser_controller_start w)
  /\ returns (MessageBus_init w)
  /\ returns (StateManager_init w)
  /\ returns (WorkflowCoordinator_init w)
  /\ returns (coordinator_initialize w)
  /\ returns (print_navigating_to w)
  /\ returns (browser_controller_navigate w).

(** Plan-only mode got its plan and showed it. *)
Definition plan_generated (a : run_args) (w : collaborators) : Prop :=
  plan_only a = true /\ setup_succeeds w
  /\ returns (coordinator_generate_test_plan w)
  /\ returns (print_plan_table w).

(** The test was announced, executed and finished within the timeout,
    with the state object [ts]. *)
Definition execution_finishes (a : run_args) (w : collaborators)
    (ts : test_state_obj) : Prop :=
  plan_only a = false /\ setup_succeeds w
  /\ returns (print_executing_test w)
  /\ wait_for (coordinator_execute_test_from_requirements w) (timeout a) = Ok ts.

(** The test was started and ran for longer than the timeout. *)
Definition execution_times_out (a : run_args) (w : collaborators) : Prop :=
  plan_only a = false /\ setup_succeeds w
  /\ returns (print_executing_test w)
  /\ timeout a < elapsed (coordinator_execute_test_from_requirements w).

(** The summary, the report and the debug summary were produced and
    shown. *)
Definition reporting_succeeds (w : collaborators) : Prop :=
  returns (print_summary_status w)
  /\ returns (test_state_step_counts w)
  /\ returns (output_dir_mkdir w)
  /\ returns (print_generating_report w)
  /\ returns (reporter_generate_report w)
  /\ returns (print_report_saved w)
  /\ returns (debug_logger_get_debug_summary w)
  /\ returns (print_debug_information w).

(** Events that present a test result: the summary and the report. *)
Definition reports_result (ev : event) : bool :=
  match ev with
  | Printed SummaryHeading
  | Printed (SummaryStatus _) | Printed SummaryCounts
  | Printed (GeneratingReport _)
  | Printed ReportSaved | Called (GenerateReport _) => true
  | _ => false
  end.

Definition is_browser_stop (ev : event) : bool :=
  match ev with
  | Called BrowserStop => true
  | _ => false
  end.

Definition is_coordinator_cleanup (ev : event) : bool :=
  match ev with
  | Called CoordinatorCleanup => true
  | _ => false
  end.


(** How often the browser session was released, and the coordinator
    cleaned up, in a trace. *)
Definition releases (trace : list event) : nat :=
  List.length (filter is_browser_stop trace).

Definition cleanups (trace : list event) : nat :=
  List.length (filter is_coordinator_cleanup trace).

(** [browser_controller] holds an instance: the debug logger and the
    constructor returned. *)
Definition controller_constructed (w : collaborators) : Prop :=
  returns (initialize_debug_logger w) /\ returns (BrowserController_init w).

(** [coordinator] holds an instance: everything up to its constructor
    returned. *)
Definition coordinator_constructed (w : collaborators) : Prop :=
  controller_constructed w
  /\ returns (browser_controller_start w)
  /\ returns (MessageBus_init w)
  /\ returns (StateManager_init w)
  /\ returns (WorkflowCoordinator_init w).

(** The second await of the [finally] block is reached. *)
Definition stop_reached (w : collaborators) : Prop :=
  controller_constructed w
  /\ (coordinator_constructed w -> returns (coordinator_cleanup w)).

Definition is_release (ev : event) : bool :=
  (is_coordinator_cleanup ev || is_browser_stop ev)%bool.



(** The exit code [run_test] derives from the status of a [TestState]. *)
Definition code_of_status (s : TestStatus) : Z :=
  match s with
  | COMPLETED => 0
  | _ => 1
  end.

(** The handler of [except Exception] runs to its [return]: the error
    line is printed and logged. *)
Definition error_reported (w : collaborators) : Prop :=
  returns (print_error_during_execution w) /\ returns (logger_exception w).

(** What the handler of [except Exception] raises, if it raises: the
    exception of its print, or else that of [logger.exception]. *)
Definition handler_raises (w : collaborators) (e : exn) : Prop :=
  print_error_during_execution w = Raise e
  \/ (returns (print_error_during_execution w) /\ logger_exception w = Raise e).

(** A run in which the test finishes in time and [cleanup] then raises. *)
Definition cleanup_raises : collaborators :=
  let plan := TestPlan.make 1%N "plan" "" "reqs" [] None [] in
  Collaborators (Ok tt) (Ok tt) (Ok tt) (Ok tt) (Ok tt) (Ok tt) (Ok tt) (Ok tt)
                (Ok tt) (Ok plan) (Ok tt) (Ok tt) (Awaited 10 (Ok completed_state))
                (Ok tt) (Ok tt) (Ok tt) (Ok tt) (Ok tt) (Ok tt) (Ok tt) (Ok tt)
                (Ok tt) (Ok tt) (Raise (Exception "RuntimeError")) (Ok tt).

(** A run in which the test is still running when the timeout of 300
    expires, and [cleanup] then raises. *)
Definition timeout_then_cleanup_raises : collaborators :=
  let plan := TestPlan.make 1%N "plan" "" "reqs" [] None [] in
  Collaborators (Ok tt) (Ok tt) (Ok tt) (Ok tt) (Ok tt) (Ok tt) (Ok tt) (Ok tt)
                (Ok tt) (Ok plan) (Ok tt) (Ok tt) (Awaited 301 (Ok completed_state))
                (Ok tt) (Ok tt) (Ok tt) (Ok tt) (Ok tt) (Ok tt) (Ok tt) (Ok tt)
                (Ok tt) (Ok tt) (Raise (Exception "RuntimeError")) (Ok tt).


(** The three parts of a run: the frame the [try] block leaves; what the
    handler does that catches its exception, if it raised one; and what
    the [finally] block does with the variables the [try] block left. *)
Definition try_frame (a : run_args) (w : collaborators) : frame :=
  fst (try_block a w start).

Definition handler (a : run_args) (w : collaborators) : frame * outcome Z :=
  match try_outcome a w with
  | Ok code => (start, Ok code)
  | Raise e => except_clauses a w e start
  end.

Definition release (a : run_args) (w : collaborators) : frame * outcome unit :=
  finally_block w (Frame (vars (try_frame a w)) []).

(** ** src/main.py: [test_api_connection]

    The calls that can fail are the import, the constructor of the
    client, the call of the API, and the three prints that show data: the
    model and the token count of the response, and the exception in the
    handler.  The progress display around the call shows fixed text. *)

Record api_collaborators : Type := ApiCollaborators {
  import_OpenAIClient : outcome unit;
  OpenAIClient_init : outcome unit;
  client_call : outcome json;
  print_model : outcome unit;
  print_usage : outcome unit;
  print_api_test_failed : outcome unit
}.

Inductive api_line : Type :=
| TestingConnection
| ConnectionSuccessful
| ModelLine (model : json)
| UsageLine (total_tokens : json)
| UnexpectedResponse
| ApiTestFailed (e : exn)
| PleaseCheck.

Definition api_marker : string := "API test successful".

(** The body of the [try] statement. *)
Definition test_api_try (w : api_collaborators) : traced api_line Z :=
  (tlift (import_OpenAIClient w) ;;
   tlift (OpenAIClient_init w) ;;
   response <- tlift (client_call w) ;;
   content <- tlift (py_getitem response "content") ;;
   found <- tlift (py_contains api_marker content) ;;
   if (found : bool) then
     tsay ConnectionSuccessful ;;
     model <- tlift (py_getitem response "model") ;;
     tcall (ModelLine model) (print_model w) ;;
     usage <- tlift (py_getitem response "usage") ;;
     total_tokens <- tlift (py_getitem usage "total_tokens") ;;
     tcall (UsageLine total_tokens) (print_usage w) ;;
     tret 0
   else
     tsay UnexpectedResponse ;;
     tret 1)%traced.

(** The handler of [except Exception as e]. *)
Definition api_test_failed (w : api_collaborators) (e : exn) : traced api_line Z :=
  (tcall (ApiTestFailed e) (print_api_test_failed w) ;;
   tsay PleaseCheck ;;
   tret 1)%traced.

Definition test_api_connection (w : api_collaborators) : traced api_line Z :=
  (tsay TestingConnection ;;
   tcatch (test_api_try w) (api_test_failed w))%traced.

(** The client was imported and constructed, and its call returned
    [response]. *)
Definition api_responds (w : api_collaborators) (response : json) : Prop :=
  returns (import_OpenAIClient w) /\ returns (OpenAIClient_init w)
  /\ client_call w = Ok response.

(** The call reached the API, the response has everything the success
    branch reads, and the two lines that show it were printed. *)
Definition api_answers_well (w : api_collaborators) : Prop :=
  returns (print_model w) /\ returns (print_usage w)
  /\ exists response content model usage total_tokens,
      api_responds w response
      /\ py_getitem response "content" = Ok content
      /\ py_contains api_marker content = Ok true
      /\ py_getitem response "model" = Ok model
      /\ py_getitem response "usage" = Ok usage
      /\ py_getitem usage "total_tokens" = Ok total_tokens.

(** A response that says the right thing and names no model. *)
Definition response_without_model : json :=
  JObject [("content", JString "API test successful");
           ("usage", JObject [("total_tokens", JInt 12)])].

Definition full_response : json :=
  JObject [("content", JString "API test successful");
           ("model", JString "gpt-4o-mini");
           ("usage", JObject [("total_tokens", JInt 12)])].

(** An API that answers with [response], and a console that prints. *)
Definition answering (response : json) : api_collaborators :=
  ApiCollaborators (Ok tt) (Ok tt) (Ok response) (Ok tt) (Ok tt) (Ok tt).

(** ** src/main.py: [get_interactive_requirements]

    A [string] stands for a Python [str] whose characters are below
    U+0100; the character with code [n] is the code point [n]. *)

(** How a function of the command line ends: it returns, an exception
    leaves it, or [sys.exit(code)] was called. *)
Inductive ending (A : Type) : Type :=
| Returns (a : A)
| Raises (e : exn)
| Exits (code : Z).

Arguments Returns {A} a.
Arguments Raises {A} e.
Arguments Exits {A} code.

(** What one call of [input()] does: it returns a line (without its
    newline) or raises, [EOFError] at the end of the input and
    [KeyboardInterrupt] on Ctrl-C. *)
Definition keyboard : Type := outcome string.

Definition EndOfFile : keyboard := Raise (Exception "EOFError").
Definition Interrupted : keyboard := Raise KeyboardInterrupt.

(** [except (EOFError, KeyboardInterrupt)]. *)
Definition ends_input (e : exn) : bool :=
  match e with
  | KeyboardInterrupt => true
  | Exception name => String.eqb name "EOFError"
  | _ => false
  end.

(** The [while True] loop: [empty_count] and [lines] are its two
    variables; input that has run out is at its end.  The loop ends with
    the lines collected, and with the exception of [input()] that its
    [except] clause does not catch, if there was one. *)
Fixpoint input_loop (stdin : list keyboard) (empty_count : nat)
    (lines : list string) : list string * option exn :=
  match stdin with
  | [] => (lines, None)
  | Raise e :: _ => (lines, if ends_input e then None else Some e)
  | Ok line :: rest =>
      if String.eqb line ""
      then if (2 <=? S empty_count)%nat
           then (lines, None)
           else input_loop rest (S empty_count) (lines ++ [line])
      else input_loop rest 0 (lines ++ [line])
  end.

(** The value of [lines] when the loop is over. *)
Definition read_lines (stdin : list keyboard) (empty_count : nat)
    (lines : list string) : list string :=
  fst (input_loop stdin empty_count lines).

(** [str.isspace] of one character below U+0100: tab to carriage return,
    the four separators U+001C to U+001F, the space, NEL and the
    no-break space. *)
Definition isspace (c : ascii) : bool :=
  let n := nat_of_ascii c in
  ((9 <=? n) && (n <=? 13) || (28 <=? n) && (n <=? 32)
   || (n =? 133) || (n =? 160))%nat%bool.

Fixpoint lstrip (s : string) : string :=
  match s with
  | EmptyString => EmptyString
  | String c rest => if isspace c then lstrip rest else s
  end.

Fixpoint rstrip (s : string) : string :=
  match s with
  | EmptyString => EmptyString
  | String c rest =>
      match rstrip rest with
      | EmptyString => if isspace c then EmptyString else String c EmptyString
      | kept => String c kept
      end
  end.

(** [s.strip()]. *)
Definition py_strip (s : string) : string := rstrip (lstrip s).

(** [get_interactive_requirements]: [prompt_url] is what [Prompt.ask]
    does when it is asked for the URL.  The lines it prints are fixed
    text. *)
Definition get_interactive_requirements (stdin : list keyboard)
    (prompt_url : outcome string) : ending (string * string) :=
  match input_loop stdin 0 [] with
  | (_, Some e) => Raises e
  | (lines, None) =>
      let requirements := py_strip (String.concat newline lines) in
      if String.eqb requirements ""
      then Exits 1
      else match prompt_url with
           | Ok url => Returns (requirements, url)
           | Raise e => Raises e
           end
  end.

(** The lines typed before [input()] first raises. *)
Fixpoint typed_lines (stdin : list keyboard) : list string :=
  match stdin with
  | Ok line :: rest => line :: typed_lines rest
  | _ => []
  end.

(** Two blank lines in a row somewhere in a list of lines. *)
Fixpoint has_blank_pair (lines : list string) : bool :=
  match lines with
  | a :: (b :: _) as rest =>
      (String.eqb a "" && String.eqb b "" || has_blank_pair rest)%bool
  | _ => false
  end.

(** Every character of a string is white space. *)
Fixpoint all_space (s : string) : bool :=
  match s with
  | EmptyString => true
  | String c rest => (isspace c && all_space rest)%bool
  end.

(** The loop without its accumulator: the lines still to be collected. *)
Fixpoint lines_from (stdin : list keyboard) (empty_count : nat) : list string :=
  match stdin with
  | Ok line :: rest =>
      if String.eqb line ""
      then if (2 <=? S empty_count)%nat then []
           else line :: lines_from rest (S empty_count)
      else line :: lines_from rest 0
  | _ => []
  end.

(** ** src/main.py: [process_plan_file] *)

(** The keyword arguments of a call of [run_test].  The requirements and
    the URL are whatever the caller found in a scenario: they need not be
    [str]. *)
Record run_request : Type := RunRequest {
  rr_requirements : json;
  rr_url : json;
  rr_plan_only : bool;
  rr_headless : bool;
  rr_output_dir : option string;
  rr_report_format : string;
  rr_timeout : Z;
  rr_max_steps : Z;
  rr_berserk : bool
}.

(** The call in terms of [run_args], when both are [str]. *)
Definition as_run_args (r : run_request) : option run_args :=
  match rr_requirements r, rr_url r with
  | JString requirements, JString url =>
      Some (RunArgs requirements url (rr_plan_only r) (rr_headless r)
                    (rr_output_dir r) (rr_report_format r) (rr_timeout r)
                    (rr_max_steps r) (rr_berserk r))
  | _, _ => None
  end.

(** The collaborators of [process_plan_file], in the order of their
    calls.  [file_exists] is [file_path.exists()].  [search_and_load]
    stands for [re.search] with the brace pattern on the response's
    content followed by [json.loads] on the match: the pattern only
    matches text that opens with a brace, so what is loaded is a dict.
    The five [print_] fields are the prints that show the path of the
    plan file, the path of the scenario written, or the text of an
    exception that a collaborator raised.  The line for a response that
    could not be parsed shows the text of an exception of [re], [json]
    or Python itself, which is printed, as are the lines of fixed
    text. *)
Record plan_collaborators : Type := PlanCollaborators {
  file_exists : outcome bool;
  print_file_not_found : outcome unit;
  print_processing : outcome unit;
  import_TestPlannerAgent : outcome unit;
  TestPlannerAgent_init : outcome unit;
  read_document : outcome string;
  print_error_reading : outcome unit;
  get_completion : outcome json;
  search_and_load : string -> outcome (list (string * json));
  ask_url : outcome string;
  generated_at : string;
  scenarios_dir_mkdir : outcome unit;
  write_scenario : outcome unit;
  print_generated : outcome unit;
  ask_run_now : outcome string;
  print_error_processing : outcome unit
}.

Inductive plan_event : Type :=
| PlanFileNotFound
| ProcessingPlanFile
| ReadingDocument
| ErrorReadingFile (e : exn)
| CouldNotParse (e : exn)
| NoUrlInBerserkMode
| AskedUrl
| MadeScenariosDir
| WroteScenario (scenario : list (string * json))
| GeneratedScenario
| AskedRunNow
| RanTest (request : run_request)
| ErrorProcessing (e : exn).

(** The body of the parsing [try]: the content of the response, searched
    and loaded. *)
Definition extract_json (w : plan_collaborators) (response : json)
  : outcome (list (string * json)) :=
  match py_get response "content" (JString "") with
  | Raise e => Raise e
  | Ok (JString content) => search_and_load w content
  | Ok _ => Raise (Exception "TypeError")
  end.

(** [value.lower()] is there for a [str] only. *)
Definition has_lower (value : json) : outcome unit :=
  match value with
  | JString _ => Ok tt
  | _ => Raise (Exception "AttributeError")
  end.

(** The dict literal [scenario = {...}]. *)
Definition build_scenario (file_path generated : string)
    (extracted : list (string * json)) : outcome (list (string * json)) :=
  match py_getitem (JObject extracted) "url" with
  | Raise e => Raise e
  | Ok url =>
      match py_getitem (JObject extracted) "requirements" with
      | Raise e => Raise e
      | Ok requirements =>
          Ok [("name", dict_get_default "name" (JString "Extracted Test") extracted);
              ("description",
               dict_get_default "description"
                 (JString "Test extracted from document") extracted);
              ("url", url);
              ("requirements", requirements);
              ("expected_outcomes", JArray []);
              ("tags", JArray [JString "generated"; JString "from_document"]);
              ("timeout", JInt 300);
              ("source_document", JString file_path);
              ("generated_at", JString generated)]
      end
  end.

Section ProcessPlanFile.

(** [run_test], as a callee. *)
Variable run : run_request -> outcome Z.

(** From the URL test to the end of the function. *)
Definition after_extraction (file_path : string) (berserk : bool)
    (w : plan_collaborators) (extracted : list (string * json))
  : traced plan_event Z :=
  let with_url : traced plan_event (option (list (string * json))) :=
    if py_truthy (dict_get_default "url" JNull extracted)
    then tret (Some extracted)
    else if berserk
         then tbind (tsay NoUrlInBerserkMode) (fun _ => tret None)
         else tbind (tcall AskedUrl (ask_url w))
                    (fun answer =>
                       tret (Some (dict_set "url" (JString answer) extracted)))
  in
  (found <- with_url ;;
   match found with
   | None => tret 1
   | Some extracted =>
       tlift (has_lower (dict_get_default "name" (JString "extracted_test")
                                          extracted)) ;;
       tcall MadeScenariosDir (scenarios_dir_mkdir w) ;;
       scenario <- tlift (build_scenario file_path (generated_at w) extracted) ;;
       tcall (WroteScenario scenario) (write_scenario w) ;;
       tcall GeneratedScenario (print_generated w) ;;
       run_now <- (if berserk then tret true
                   else tbind (tcall AskedRunNow (ask_run_now w))
                              (fun answer => tret (String.eqb answer "y"))) ;;
       if (run_now : bool) then
         request <- tret (RunRequest (dict_get_default "requirements" JNull scenario)
                                     (dict_get_default "url" JNull scenario)
                                     false true None "html" 300 50 berserk) ;;
         tcall (RanTest request) (run request)
       else tret 0
   end)%traced.

(** A nested [try ... except Exception as e: print; return 1], where
    [printed] is what the print does. *)
Definition or_return_1 {A : Type} (o : outcome A) (line : exn -> plan_event)
    (printed : outcome unit) (k : A -> traced plan_event Z)
  : traced plan_event Z :=
  match o with
  | Ok a => k a
  | Raise e =>
      if is_Exception e
      then tbind (tcall (line e) printed) (fun _ => tret 1)
      else tlift (Raise e)
  end.

(** The body of the outer [try] statement. *)
Definition plan_try (file_path : string) (berserk : bool)
    (w : plan_collaborators) : traced plan_event Z :=
  (tlift (import_TestPlannerAgent w) ;;
   tlift (TestPlannerAgent_init w) ;;
   tsay ReadingDocument ;;
   or_return_1 (read_document w) ErrorReadingFile (print_error_reading w)
     (fun _ =>
        response <- tlift (get_completion w) ;;
        or_return_1 (extract_json w response) CouldNotParse (Ok tt)
          (after_extraction file_path berserk w)))%traced.

(** The handler of the outer [try] statement. *)
Definition plan_failed (w : plan_collaborators) (e : exn)
  : traced plan_event Z :=
  (tcall (ErrorProcessing e) (print_error_processing w) ;; tret 1)%traced.

Definition process_plan_file (file_path : string) (berserk : bool)
    (w : plan_collaborators) : traced plan_event Z :=
  (found <- tlift (file_exists w) ;;
   if negb found
   then tcall PlanFileNotFound (print_file_not_found w) ;; tret 1
   else
     tcall ProcessingPlanFile (print_processing w) ;;
     tcatch (plan_try file_path berserk w) (plan_failed w))%traced.

End ProcessPlanFile.

Definition is_prompt (ev : plan_event) : bool :=
  match ev with
  | AskedUrl | AskedRunNow => true
  | _ => false
  end.

Definition is_ran_test (ev : plan_event) : bool :=
  match ev with
  | RanTest _ => true
  | _ => false
  end.

Definition is_wrote_scenario (ev : plan_event) : bool :=
  match ev with
  | WroteScenario _ => true
  | _ => false
  end.

(** One of the five lines that report an error. *)
Definition is_error_line (ev : plan_event) : bool :=
  match ev with
  | PlanFileNotFound | ErrorReadingFile _ | CouldNotParse _
  | NoUrlInBerserkMode | ErrorProcessing _ => true
  | _ => false
  end.
(** ** src/main.py: [show_version], [async_main] and [main] *)

(** The [Namespace] that [parser.parse_args] returns.  [headless] is kept
    as [async_main] tests it, against [None]. *)
Record namespace : Type := Namespace {
  ns_requirements : bool;
  ns_plan : option string;
  ns_json_test_plan : option string;
  ns_test_api : bool;
  ns_version : bool;
  ns_url : option string;
  ns_berserk : bool;
  ns_plan_only : bool;
  ns_headless : option bool;
  ns_debug : bool;
  ns_output : option string;
  ns_format : string;
  ns_timeout : Z;
  ns_max_steps : Z
}.

(** What [create_parser] gives every option that is not on the command
    line: the flags are [store_true], so [False]; the paths and the URL
    are [None]; [--format] is html, [--timeout] 300, [--max-steps] 50. *)
Definition parser_defaults : namespace :=
  Namespace false None None false false None false false (Some false) false
            None "html" 300 50.

(** The settings object, as far as [async_main] reads and writes it. *)
Record settings : Type := Settings {
  debug_mode : bool;
  log_level : string;
  log_format : string;
  log_file : option string;
  browser_headless : bool
}.

Record main_collaborators : Type := MainCollaborators {
  get_settings : outcome settings;
  setup_logging : outcome unit;
  RateLimiter_init : outcome unit;
  DataSanitizer_init : outcome unit;
  api : api_collaborators;
  stdin : list keyboard;
  prompt_url : outcome string;
  plan_world : plan_collaborators;
  scenario_at_path : scenario_file;
  print_fatal_error : outcome unit
}.

Inductive main_event : Type :=
| ShowedVersion
| TestedApi (lines : list api_line)
| GotSettings
| SetUpLogging (level format : string) (file : option string)
| InitialisedRateLimiter
| InitialisedDataSanitizer
| ReadRequirements
| ProcessedPlanFile (path : string) (events : list plan_event)
| LoadedScenario (path : string)
| PrintedHelp
| CalledRunTest (request : run_request)
| FatalError (e : exn).

(** How the coroutine [async_main] ends.  An exception that leaves it comes
    with what printing its text does, which is what the handler of
    [main] goes on to do: for the exception of a collaborator that is
    the call [print_fatal_error]; the [TypeError] of a subscript has a
    fixed text, which is printed. *)
Inductive coroutine_end (A : Type) : Type :=
| Returned (a : A)
| Raised (e : exn) (text_printed : outcome unit)
| Exited (code : Z).

Arguments Returned {A} a.
Arguments Raised {A} e text_printed.
Arguments Exited {A} code.

(** A computation of [async_main]: its events and how it ends. *)
Definition mainly (A : Type) : Type := list main_event * coroutine_end A.

Definition mret {A : Type} (a : A) : mainly A := ([], Returned a).

Definition mbind {A B : Type} (m : mainly A) (k : A -> mainly B) : mainly B :=
  match m with
  | (events, Returned a) => let (more, o) := k a in ((events ++ more)%list, o)
  | (events, Raised e text_printed) => (events, Raised e text_printed)
  | (events, Exited code) => (events, Exited code)
  end.

(** What a call of a collaborator does, as an ending of the coroutine. *)
Definition ending_of {A : Type} (text_printed : outcome unit) (o : outcome A)
  : coroutine_end A :=
  match o with
  | Ok a => Returned a
  | Raise e => Raised e text_printed
  end.

(** A subscript [obj[key]] of [async_main] itself. *)
Definition subscript (obj : json) (key : string) : mainly json :=
  ([], ending_of (Ok tt) (py_getitem obj key)).

Declare Scope mainly_scope.
Delimit Scope mainly_scope with mainly.
Notation "x <- m ;; k" := (mbind m (fun x => k))
  (at level 61, m at next level, right associativity) : mainly_scope.
Notation "m ;; k" := (mbind m (fun _ => k))
  (at level 61, right associativity) : mainly_scope.

(** [show_version]: its lines, and 0. *)
Definition show_version : mainly Z := ([ShowedVersion], Returned 0).

(** The two assignments that override the settings. *)
Definition override_settings (ns : namespace) (s : settings) : settings :=
  let s1 := if ns_debug ns
            then Settings true "DEBUG" (log_format s) (log_file s)
                          (browser_headless s)
            else s in
  match ns_headless ns with
  | Some flag => Settings (debug_mode s1) (log_level s1) (log_format s1)
                          (log_file s1) flag
  | None => s1
  end.

Section AsyncMain.

(** [run_test], as a callee. *)
Variable run : run_request -> outcome Z.

(** A collaborator call: the event, then the value or the exception. *)
Definition mcall {A : Type} (w : main_collaborators) (ev : main_event)
    (o : outcome A) : mainly A :=
  ([ev], ending_of (print_fatal_error w) o).

(** The last statement: [run_test] with the requirements and the URL
    found, and everything else from the command line and the settings. *)
Definition call_run_test (ns : namespace) (w : main_collaborators)
    (s : settings) (requirements url : json) : mainly Z :=
  let request :=
    RunRequest requirements url (ns_plan_only ns) (browser_headless s)
               (ns_output ns) (ns_format ns) (ns_timeout ns) (ns_max_steps ns)
               (ns_berserk ns) in
  mcall w (CalledRunTest request) (run request).

Definition async_main (ns : namespace) (w : main_collaborators) : mainly Z :=
  if ns_version ns then show_version
  else if ns_test_api ns then
    let (lines, o) := test_api_connection (api w) in
    mcall w (TestedApi lines) o
  else
    (found <- mcall w GotSettings (get_settings w) ;;
     let s := override_settings ns found in
     mcall w (SetUpLogging (log_level s) (log_format s) (log_file s))
           (setup_logging w) ;;
     mcall w InitialisedRateLimiter (RateLimiter_init w) ;;
     mcall w InitialisedDataSanitizer (DataSanitizer_init w) ;;
     if ns_requirements ns then
       match get_interactive_requirements (stdin w) (prompt_url w) with
       | Returns (requirements, url) =>
           ([ReadRequirements], Returned tt) ;;
           call_run_test ns w s (JString requirements) (JString url)
       | Raises e => mcall w ReadRequirements (Raise e)
       | Exits code => ([ReadRequirements], Exited code)
       end
     else match ns_plan ns with
     | Some path =>
         let (events, o) :=
           process_plan_file run path (ns_berserk ns) (plan_world w) in
         mcall w (ProcessedPlanFile path events) o
     | None =>
         match ns_json_test_plan ns with
         | Some path =>
             match load_scenario (scenario_at_path w) with
             | SysExit code _ => ([LoadedScenario path], Exited code)
             | Uncaught e => mcall w (LoadedScenario path) (Raise e)
             | Scenario scenario =>
                 ([LoadedScenario path], Returned tt) ;;
                 requirements <- subscript scenario "requirements" ;;
                 url <- subscript scenario "url" ;;
                 call_run_test ns w s requirements url
             end
         | None => ([PrintedHelp], Returned 1)
         end
     end)%mainly.

(** [main]: an [Exception] out of [asyncio.run(async_main(args))] is
    printed in the fatal error line, and 1 is returned if the line could
    be printed; a [SystemExit] and the exceptions that are no [Exception]
    pass.  [asyncio.run] hands on what the coroutine returns and
    re-raises what leaves it; an interrupt that reaches the event loop
    from outside the coroutine while it awaits is not among the endings
    here, so that what is proved of [main] is proved of the runs without
    one. *)
Definition main (ns : namespace) (w : main_collaborators)
  : list main_event * ending Z :=
  match async_main ns w with
  | (events, Returned code) => (events, Returns code)
  | (events, Exited code) => (events, Exits code)
  | (events, Raised e text_printed) =>
      if is_Exception e
      then ((events ++ [FatalError e])%list,
            match text_printed with
            | Ok _ => Returns 1
            | Raise raised => Raises raised
            end)
      else (events, Raises e)
  end.

End AsyncMain.

Definition is_called_run_test (ev : main_event) : bool :=
  match ev with
  | CalledRunTest _ => true
  | _ => false
  end.

(** Two command lines that differ at most in the options [--plan] mode
    does not read. *)
Definition same_for_plan_mode (ns ns' : namespace) : Prop :=
  ns_requirements ns' = ns_requirements ns
  /\ ns_plan ns' = ns_plan ns
  /\ ns_test_api ns' = ns_test_api ns
  /\ ns_version ns' = ns_version ns
  /\ ns_berserk ns' = ns_berserk ns
  /\ ns_debug ns' = ns_debug ns.

(** Two command lines that differ at most in [--url]. *)
Definition same_but_url (ns ns' : namespace) : Prop :=
  ns' = Namespace (ns_requirements ns) (ns_plan ns) (ns_json_test_plan ns)
                  (ns_test_api ns) (ns_version ns) (ns_url ns') (ns_berserk ns)
                  (ns_plan_only ns) (ns_headless ns) (ns_debug ns)
                  (ns_output ns) (ns_format ns) (ns_timeout ns)
                  (ns_max_steps ns).

(** The calls before the input mode is looked at all return. *)
Definition startup_returns (w : main_collaborators) : Prop :=
  returns (get_settings w) /\ returns (setup_logging w)
  /\ returns (RateLimiter_init w) /\ returns (DataSanitizer_init w).

(** Neither [--version] nor [--test-api]. *)
Definition runs_tests (ns : namespace) : Prop :=
  ns_version ns = false /\ ns_test_api ns = false.

(** [--json-test-plan path] is the input mode. *)
Definition json_mode (ns : namespace) (path : string) : Prop :=
  runs_tests ns /\ ns_requirements ns = false /\ ns_plan ns = None
  /\ ns_json_test_plan ns = Some path.

(** No input mode at all. *)
Definition no_input_mode (ns : namespace) : Prop :=
  runs_tests ns /\ ns_requirements ns = false /\ ns_plan ns = None
  /\ ns_json_test_plan ns = None.

Definition is_record (v : json) : bool :=
  match v with
  | JObject _ => true
  | _ => false
  end.

(** [run_test] as the callee of [async_main] and [process_plan_file]: on
    [str] arguments it is [run_test] with the collaborators [rw]; what it
    does on other arguments is left to [otherwise]. *)
Definition run_test_callee (rw : collaborators)
    (otherwise : run_request -> outcome Z) (r : run_request) : outcome Z :=
  match as_run_args r with
  | Some a => snd (run_test a rw)
  | None => otherwise r
  end.

(** The requirements and the URL that [async_main] finds, as [str]: in
    interactive mode, or in a scenario record that holds both as
    strings. *)
Definition finds_input (ns : namespace) (w : main_collaborators)
    (requirements url : string) : Prop :=
  (ns_requirements ns = true
   /\ get_interactive_requirements (stdin w) (prompt_url w)
      = Returns (requirements, url))
  \/ (ns_requirements ns = false /\ ns_plan ns = None
      /\ exists path members,
          ns_json_test_plan ns = Some path
          /\ load_scenario (scenario_at_path w) = Scenario (JObject members)
          /\ dict_get "requirements" members = Some (JString requirements)
          /\ dict_get "url" members = Some (JString url)).

(** ** The Visual Locator (spec section 4.2)

    No source file holds the locator: this module follows the words of
    the spec, over the [GridCoordinate] of [core.types]. *)

Module VisualLocator.

(** What the visual-reasoning oracle can answer to one request. *)
Inductive oracle_response : Type :=
| Candidate (c : GridCoordinate.t)
| NoCandidate
| AmbiguousCandidates
| MalformedOutput.

(** The two requests the locator can issue: the initial one, and the
    re-examination of the region around a candidate cell. *)
Inductive request : Type :=
| InitialRequest (description screenshot_context : string)
| RefinementRequest (description : string) (around : GridCoordinate.t).

Inductive LocatorFailure : Type :=
| TargetNotFound
| OracleResponseInvalid.

Definition is_refinement (r : request) : bool :=
  match r with
  | RefinementRequest _ _ => true
  | InitialRequest _ _ => false
  end.

(** The number of refinement requests among the requests issued. *)
Definition refinements (issued : list request) : nat :=
  List.length (filter is_refinement issued).

Definition mark_refined (c : GridCoordinate.t) : GridCoordinate.t :=
  GridCoordinate.make (GridCoordinate.cell c) (GridCoordinate.offset_x c)
                      (GridCoordinate.offset_y c) (GridCoordinate.confidence c)
                      true.

(** A failure of the oracle, as the locator reports it. *)
Definition failure_of (r : oracle_response) : LocatorFailure :=
  match r with
  | MalformedOutput => OracleResponseInvalid
  | _ => TargetNotFound
  end.

Section Locate.

(** The configured confidence threshold, the way a refined answer is
    merged into the initial one (the spec leaves it open), and the
    oracle. *)
Variable confidence_threshold : float.
Variable merge : GridCoordinate.t -> GridCoordinate.t -> GridCoordinate.t.
Variable oracle : request -> oracle_response.

(** Modelled from the spec: the module that holds [locate] is not among
    the source files.  Section 4.2: the oracle is asked once for an
    initial candidate; zero or ambiguous candidates fail with
    [TargetNotFound] (malformed output with [OracleResponseInvalid],
    section 6); when the confidence is below the threshold and the
    candidate is not already marked refined, one refinement request is
    issued, its answer merged, and [refined] set; the result is returned
    whatever its confidence.  The requests issued come first in the
    pair. *)
Definition locate (description screenshot_context : string)
  : list request * (GridCoordinate.t + LocatorFailure) :=
  let first := InitialRequest description screenshot_context in
  match oracle first with
  | Candidate c =>
      if (PrimFloat.ltb (GridCoordinate.confidence c) confidence_threshold
          && negb (GridCoordinate.refined c))%bool
      then
        let second := RefinementRequest description c in
        match oracle second with
        | Candidate r => ([first; second], inl (mark_refined (merge c r)))
        | other => ([first; second], inr (failure_of other))
        end
      else ([first], inl c)
  | other => ([first], inr (failure_of other))
  end.

End Locate.

(** The default configuration: threshold [0.8]. *)
Definition default_threshold : float := PromptTemplates.default_confidence_threshold.

(** One way to merge: the refined answer replaces the initial one. *)
Definition take_refined (initial refined : GridCoordinate.t) : GridCoordinate.t :=
  refined.

End VisualLocator.

(** ** The Scroll Controller (spec section 4.3)

    No source file holds the controller: this module follows the words
    of the spec, over the scroll models of [core.types]. *)

Module ScrollController.

Inductive phase : Type := Searching | Correcting | Found | Exhausted.

Definition opposite (d : ScrollDirection) : ScrollDirection :=
  match d with
  | UP => DOWN
  | DOWN => UP
  | LEFT => RIGHT
  | RIGHT => LEFT
  end.

(** The sum of the distances of a history. *)
Definition total_distance (history : list ScrollAction.t) : Z :=
  fold_right (fun a acc => ScrollAction.distance a + acc) 0 history.

(** The non-terminal state a [ScrollState] is in. *)
Definition phase_of (st : ScrollState.t) : phase :=
  if ScrollState.overshoot_detected st then Correcting else Searching.

Section Scroll.

(** The visibility analysis of the viewport at each query (numbered from
    0), the pixel count the oracle suggests with it, if any, the
    direction-confidence threshold and the default step distance. *)
Variable visibility : nat -> VisibilityResult.t.
Variable suggested_pixels : nat -> option Z.
Variable direction_threshold : float.
Variable default_distance : Z.

(** Modelled from the spec: the controller's choice of direction is not
    in the source.  Rule 3: the oracle's direction when its confidence
    exceeds the threshold, else the last committed direction, else
    downward. *)
Definition pick_direction (v : VisibilityResult.t) (st : ScrollState.t)
  : ScrollDirection :=
  match VisibilityResult.suggested_direction v with
  | Some d =>
      if PrimFloat.ltb direction_threshold (VisibilityResult.direction_confidence v)
      then d
      else field_default DOWN (ScrollState.last_direction st)
  | None => field_default DOWN (ScrollState.last_direction st)
  end.

(** Modelled from the spec: the overshoot test is not in the source.
    Rule 4: after a scroll, the target was partially visible and is now
    not visible, or its visible percentage went down. *)
Definition overshoot (v : VisibilityResult.t) (st : ScrollState.t)
    (previous_percentage : option Z) : bool :=
  match ScrollState.last_direction st with
  | None => false
  | Some _ =>
      let vanished :=
        match VisibilityResult.status v with
        | NOT_VISIBLE => ScrollState.element_partially_visible st
        | _ => false
        end in
      let shrank :=
        match previous_percentage, VisibilityResult.visible_percentage v with
        | Some before, Some now => now <? before
        | _, _ => false
        end in
      (vanished || shrank)%bool
  end.

Definition is_partial (v : VisibilityResult.t) : bool :=
  match VisibilityResult.status v with
  | PARTIALLY_VISIBLE => true
  | _ => false
  end.

(** Modelled from the spec: the scroll step is not in the source.  Rules
    3 to 5 for one attempt that did not find the target: the action
    taken (reversed and marked a correction on overshoot) and the state
    after it, with the action appended and the attempt counted. *)
Definition scroll_once (query : nat) (v : VisibilityResult.t)
    (st : ScrollState.t) (previous_percentage : option Z)
  : ScrollAction.t * ScrollState.t :=
  let corrected := overshoot v st previous_percentage in
  let direction :=
    match corrected, ScrollState.last_direction st with
    | true, Some last => opposite last
    | _, _ => pick_direction v st
    end in
  let action :=
    ScrollAction.make direction
                      (field_default default_distance (suggested_pixels query))
                      corrected (Some (Z.of_nat query)) in
  (action,
   ScrollState.make (ScrollState.target_element st)
                    (ScrollState.attempts st + 1)
                    (ScrollState.max_attempts st)
                    (ScrollState.scroll_history st ++ [action])
                    (Some direction)
                    corrected
                    (is_partial v)
                    (ScrollState.last_screenshot_hash st)).

(** Modelled from the spec: how an action of the history is reported is
    not in the source, which only declares [scroll_history] of a
    [ScrollResult] a list of dicts.  One record per action, with the four
    fields of [ScrollAction]. *)
Definition action_record (a : ScrollAction.t) : list (string * json) :=
  [("direction", JString (ScrollDirection_value (ScrollAction.direction a)));
   ("distance", JInt (ScrollAction.distance a));
   ("is_correction", JBool (ScrollAction.is_correction a));
   ("executed_at", match ScrollAction.executed_at a with
                   | Some at_time => JInt at_time
                   | None => JNull
                   end)].

(** Modelled from the spec: the result reported in the two terminal
    states, which the source only declares the type of; it carries the
    attempt counter, the total distance and the history. *)
Definition found (v : VisibilityResult.t) (st : ScrollState.t) : ScrollResult.t :=
  ScrollResult.make true "scroll_to_element"
    (VisibilityResult.coordinates v)
    (option_map GridCoordinate.confidence (VisibilityResult.coordinates v))
    (Some (ScrollState.attempts st))
    (Some (total_distance (ScrollState.scroll_history st)))
    None
    (Some (map action_record (ScrollState.scroll_history st))).

Definition exhausted (st : ScrollState.t) : ScrollResult.t :=
  ScrollResult.make false "scroll_to_element" None None
    (Some (ScrollState.attempts st))
    (Some (total_distance (ScrollState.scroll_history st)))
    (Some "ScrollExhausted")
    (Some (map action_record (ScrollState.scroll_history st))).

(** Modelled from the spec: the scroll controller itself is not among the
    source files, only [ScrollState] and [ScrollResult] are.  Section
    4.3: while the attempt counter is under [max_attempts], query the
    visibility; fully visible ends in Found; otherwise scroll once (rules
    3 to 5) and count the attempt; the counter reaching [max_attempts]
    ends in Exhausted.  [remaining] is [max_attempts - attempts].  The
    scroll actions sent to the browser are returned beside the final
    phase and the result. *)
Fixpoint scroll_loop (remaining : nat) (query : nat) (st : ScrollState.t)
    (previous_percentage : option Z) (performed : list ScrollAction.t)
  : phase * list ScrollAction.t * ScrollResult.t :=
  match remaining with
  | O => (Exhausted, performed, exhausted st)
  | S remaining' =>
      let v := visibility query in
      match VisibilityResult.status v with
      | FULLY_VISIBLE => (Found, performed, found v st)
      | _ =>
          let (action, st') := scroll_once query v st previous_percentage in
          scroll_loop remaining' (S query) st'
                      (VisibilityResult.visible_percentage v)
                      (performed ++ [action])
      end
  end.

(** Modelled from the spec: the entry point of the controller is not in
    the source.  One scroll-to-element request: a fresh [ScrollState] for
    the target, with the maximum of the request's [ScrollParameters]. *)
Definition scroll_to_element (target : string) (params : ScrollParameters.t)
  : phase * list ScrollAction.t * ScrollResult.t :=
  let st := ScrollState.init target None
              (Some (ScrollParameters.max_attempts params))
              None None None None None in
  scroll_loop (Z.to_nat (ScrollState.max_attempts st - ScrollState.attempts st))
              0%nat st None [].

End Scroll.

End ScrollController.

(** ** The Step Scheduler and the Execution Coordinator
       (spec sections 4.1 and 4.4)

    No source file holds the scheduler or the coordinator: this module
    follows the words of the spec, over the [TestState] of [core.types]. *)

Module Coordinator.

(** Membership in one of the identity collections of a [TestState]. *)
Definition mem (id : UUID) (ids : list UUID) : bool := existsb (N.eqb id) ids.

(** The collections are used as sets: an identity is entered once. *)
Definition add (id : UUID) (ids : list UUID) : list UUID :=
  if mem id ids then ids else ids ++ [id].

Definition add_all (new ids : list UUID) : list UUID :=
  fold_left (fun acc id => add id acc) new ids.

(** A step is resolved once its identity is in one of the three
    collections. *)
Definition resolved (st : TestState.t) (id : UUID) : bool :=
  (mem id (TestState.completed_steps st)
   || mem id (TestState.failed_steps st)
   || mem id (TestState.skipped_steps st))%bool.

(** The number of collections that hold an identity. *)
Definition categories (st : TestState.t) (id : UUID) : nat :=
  (Nat.b2n (mem id (TestState.completed_steps st))
   + Nat.b2n (mem id (TestState.failed_steps st))
   + Nat.b2n (mem id (TestState.skipped_steps st)))%nat.

(** The category a resolved step has ended in.  A blocked step is
    entered in [skipped_steps] (section 4.1: blocked, then skipped). *)
Definition category (st : TestState.t) (id : UUID) : option TestStatus :=
  if mem id (TestState.completed_steps st) then Some COMPLETED
  else if mem id (TestState.failed_steps st) then Some FAILED
  else if mem id (TestState.skipped_steps st) then Some SKIPPED
  else None.

(** Modelled from the spec: the scheduler is not among the source files.
    Section 4.1: a step is runnable when its dependencies are all in
    [completed_steps] and it is not already completed, failed or
    skipped. *)
Definition runnable (st : TestState.t) (s : TestStep.t) : bool :=
  (forallb (fun d => mem d (TestState.completed_steps st)) (TestStep.dependencies s)
   && negb (resolved st (TestStep.step_id s)))%bool.

(** Modelled from the spec: the scheduler's order is not in the source.
    Section 4.1: among the runnable steps, the one of least step number;
    the earlier in plan order among equals. *)
Fixpoint least_numbered (candidates : list TestStep.t) : option TestStep.t :=
  match candidates with
  | [] => None
  | s :: rest =>
      match least_numbered rest with
      | None => Some s
      | Some s' =>
          if TestStep.step_number s' <? TestStep.step_number s
          then Some s' else Some s
      end
  end.

Definition next_runnable (st : TestState.t) : option TestStep.t :=
  least_numbered (filter (runnable st) (TestPlan.steps (TestState.test_plan st))).

(** A step has a dependency among [blocked]. *)
Definition depends_on_any (blocked : list UUID) (s : TestStep.t) : bool :=
  existsb (fun d => mem d blocked) (TestStep.dependencies s).

(** Modelled from the spec: the cascade is not in the source.  The
    identities reachable from [blocked] along dependency edges, in at
    most [rounds] rounds; [blocked] itself comes first. *)
Fixpoint blocked_closure (rounds : nat) (steps : list TestStep.t)
    (blocked : list UUID) : list UUID :=
  match rounds with
  | O => blocked
  | S rounds' =>
      let fresh :=
        filter (fun s => (depends_on_any blocked s
                          && negb (mem (TestStep.step_id s) blocked))%bool)
               steps in
      blocked_closure rounds' steps
                      (add_all (map TestStep.step_id fresh) blocked)
  end.

(** Modelled from the spec: the cascade is not in the source.  Section
    4.1: every step that depends on the failed one, directly or
    indirectly. *)
Definition transitive_dependents (plan : TestPlan.t) (failed : UUID) : list UUID :=
  filter (fun id => negb (N.eqb id failed))
         (blocked_closure (List.length (TestPlan.steps plan))
                          (TestPlan.steps plan) [failed]).

(** The state with its current step and its three collections replaced;
    the coordinator's other bookkeeping (status, counters, context) plays
    no part in what follows and is left as it is. *)
Definition with_sets (st : TestState.t) (current : option TestStep.t)
    (completed failed skipped : list UUID) : TestState.t :=
  TestState.make (TestState.test_plan st) current completed failed skipped
                 (TestState.status st) (TestState.error_count st)
                 (TestState.warning_count st) (TestState.context st).

Section Run.

(** The evaluation collaborator's verdict on attempt number [n] (from 0)
    of a step. *)
Variable evaluation : TestStep.t -> nat -> bool.

(** Modelled from the spec: section 4.4, steps 5 and 6.  A failed
    attempt is retried while [retries_used < max_retries]; [budget] is
    the number of retries left.  The result tells whether an attempt
    succeeded. *)
Fixpoint attempt (budget : nat) (s : TestStep.t) (retries_used : nat) : bool :=
  if evaluation s retries_used then true
  else match budget with
       | O => false
       | S budget' => attempt budget' s (S retries_used)
       end.

(** Modelled from the spec: the coordinator is not among the source
    files.  Section 4.4: on success the step is added to
    [completed_steps]; once the retries are exhausted it becomes failed;
    section 4.1: the failure of a required step marks every transitive
    dependent skipped, the failure of an optional one leaves the
    dependents alone. *)
Definition execute_step (st : TestState.t) (s : TestStep.t) : TestState.t :=
  let id := TestStep.step_id s in
  if attempt (Z.to_nat (TestStep.max_retries s)) s 0
  then with_sets st (Some s)
                 (add id (TestState.completed_steps st))
                 (TestState.failed_steps st)
                 (TestState.skipped_steps st)
  else with_sets st (Some s)
                 (TestState.completed_steps st)
                 (add id (TestState.failed_steps st))
                 (if TestStep.optional s
                  then TestState.skipped_steps st
                  else add_all (transitive_dependents (TestState.test_plan st) id)
                               (TestState.skipped_steps st)).

(** Modelled from the spec: the coordinator's loop is not in the source.
    Section 4.4, step 7: the coordinator takes the scheduler's next
    runnable step until there is none; [iterations] bounds the number of
    steps taken, so [run n] is the state after at most [n] steps. *)
Fixpoint run (iterations : nat) (st : TestState.t) : TestState.t :=
  match iterations with
  | O => st
  | S iterations' =>
      match next_runnable st with
      | None => st
      | Some s => run iterations' (execute_step st s)
      end
  end.

(** Modelled from the spec: what the coordinator has done in at most
    [iterations] steps, beside the state [run] gives: the steps it has
    executed, in order, each with the outcome it ended in (section 4.4,
    steps 5 and 6). *)
Fixpoint executed (iterations : nat) (st : TestState.t)
  : list (TestStep.t * bool) :=
  match iterations with
  | O => []
  | S iterations' =>
      match next_runnable st with
      | None => []
      | Some s =>
          (s, attempt (Z.to_nat (TestStep.max_retries s)) s 0)
          :: executed iterations' (execute_step st s)
      end
  end.

(** Modelled from the spec: a whole test run, in which every step of the
    plan can be taken. *)
Definition execute_plan (plan : TestPlan.t) : TestState.t :=
  run (List.length (TestPlan.steps plan)) (TestState.init plan).

End Run.

(** Two collections share no identity. *)
Definition disjoint (xs ys : list UUID) : Prop :=
  forall id, In id xs -> In id ys -> False.

Definition pairwise_disjoint (st : TestState.t) : Prop :=
  disjoint (TestState.completed_steps st) (TestState.failed_steps st)
  /\ disjoint (TestState.completed_steps st) (TestState.skipped_steps st)
  /\ disjoint (TestState.failed_steps st) (TestState.skipped_steps st).

(** Step identities are identities: no two steps of the plan share one. *)
Definition unique_ids (plan : TestPlan.t) : Prop :=
  NoDup (map TestStep.step_id (TestPlan.steps plan)).

End Coordinator.

(** ** Sample inputs *)

(** A scenario record as [process_plan_file] writes it: it has no list
    of steps. *)
Definition scenario_without_steps : list (string * json) :=
  [("name", JString "Login flow");
   ("description", JString "Test extracted from document");
   ("url", JString "https://example.test/login");
   ("requirements", JString "The user can log in");
   ("expected_outcomes", JArray []);
   ("tags", JArray [JString "generated"; JString "from_document"]);
   ("timeout", JInt 300)].

(** A number lies in the closed unit interval, by the IEEE comparisons. *)
Definition within_unit (x : float) : Prop :=
  PrimFloat.leb 0%float x = true /\ PrimFloat.leb x 1%float = true.

(** A coordinate within the bounds its constructor enforces. *)
Definition within_bounds (g : GridCoordinate.t) : Prop :=
  within_unit (GridCoordinate.offset_x g)
  /\ within_unit (GridCoordinate.offset_y g)
  /\ within_unit (GridCoordinate.confidence g).

(** ** Sample oracles *)

(** An oracle that is unsure at first (confidence 0.5) and answers the
    refinement with [refined_confidence]. *)
Definition unsure_oracle (refined_confidence : float)
    (r : VisualLocator.request) : VisualLocator.oracle_response :=
  match r with
  | VisualLocator.InitialRequest _ _ =>
      VisualLocator.Candidate
        (GridCoordinate.make "M23" 0.5%float 0.5%float 0.5%float false)
  | VisualLocator.RefinementRequest _ _ =>
      VisualLocator.Candidate
        (GridCoordinate.make "M23" 0.25%float 0.75%float refined_confidence false)
  end.

(** A viewport in which the target never shows. *)
Definition never_visible (query : nat) : VisibilityResult.t :=
  VisibilityResult.make NOT_VISIBLE None None None 0%float "".

(** Scenario B of the spec: the default maximum of 15 attempts and a
    target that is never reported visible. *)
Definition scenario_B : ScrollController.phase * list ScrollAction.t * ScrollResult.t :=
  ScrollController.scroll_to_element never_visible (fun _ => None) 0.5%float 300
    "Footer link" (ScrollParameters.init None None (Some "Footer link") None).

(** A request whose maximum is negative, which [max_attempts: int]
    admits, for a target that never shows. *)
Definition negative_maximum : ScrollController.phase * list ScrollAction.t * ScrollResult.t :=
  ScrollController.scroll_to_element never_visible (fun _ => None) 0.5%float 300
    "Footer link" (ScrollParameters.init None None (Some "Footer link") (Some (-1))).

(** ** The invariant of a test run *)

(** Every step of the plan that was executed (it is completed or failed)
    had all its dependencies completed. *)
Definition dependencies_completed (st : TestState.t) : Prop :=
  forall s, In s (TestPlan.steps (TestState.test_plan st)) ->
    In (TestStep.step_id s) (TestState.completed_steps st)
    \/ In (TestStep.step_id s) (TestState.failed_steps st) ->
    forall d, In d (TestStep.dependencies s) ->
      In d (TestState.completed_steps st).

Definition run_invariant (plan : TestPlan.t) (st : TestState.t) : Prop :=
  TestState.test_plan st = plan
  /\ Coordinator.pairwise_disjoint st
  /\ dependencies_completed st.

(** Scenario A of the spec: steps 1 and 2 without dependencies, step 3
    depending on both; every attempt of step 1 fails. *)
Definition click (what : string) : ActionInstruction.t :=
  ActionInstruction.make CLICK what (Some what) None "done" 5000.

Definition scenario_A : TestPlan.t :=
  TestPlan.make 100%N "Scenario A" "" "three steps"
    [TestStep.make 1%N 1 "first" (click "first") [] false 3;
     TestStep.make 2%N 2 "second" (click "second") [] false 3;
     TestStep.make 3%N 3 "third" (click "third") [1%N; 2%N] false 3]
    None [].

Definition step_1_fails (s : TestStep.t) (n : nat) : bool :=
  negb (N.eqb (TestStep.step_id s) 1%N).

(** A plan whose third step carries the identity of the first one and
    depends on the second one, which [step_id: UUID] admits; every
    attempt of the second step fails. *)
Definition shared_identity_plan : TestPlan.t :=
  TestPlan.make 101%N "Shared identity" "" "three steps"
    [TestStep.make 1%N 1 "first" (click "first") [] false 3;
     TestStep.make 2%N 2 "second" (click "second") [] false 3;
     TestStep.make 1%N 3 "third" (click "third") [2%N] false 3]
    None [].

Definition step_2_fails (s : TestStep.t) (n : nat) : bool :=
  negb (N.eqb (TestStep.step_id s) 2%N).

(** A [TestState] of [core.types] that ended failed. *)
Definition failed_core_state : TestState.t :=
  TestState.make scenario_A None [2%N] [1%N] [3%N] FAILED 1 0 [].

(** Sample collaborators for the command line. *)
Definition sample_plan_world : plan_collaborators :=
  PlanCollaborators (Ok true) (Ok tt) (Ok tt) (Ok tt) (Ok tt)
    (Ok "As a user I can log in") (Ok tt)
    (Ok (JObject [("content", JString "see below")]))
    (fun _ => Ok [("name", JString "Login"); ("requirements", JString "Log in")])
    (Ok "https://example.test") "2024-01-01T00:00:00" (Ok tt) (Ok tt) (Ok tt)
    (Ok "y") (Ok tt).

Definition sample_main_world (file : scenario_file) : main_collaborators :=
  MainCollaborators (Ok (Settings false "INFO" "json" None true)) (Ok tt) (Ok tt)
    (Ok tt) (answering full_response)
    [Ok "Log in"; Ok ""; Ok ""] (Ok "https://example.test")
    sample_plan_world file (Ok tt).

(** A scenario file that is not there, on a console that prints. *)
Definition missing_file : scenario_file := Missing (Ok tt).

(** Command lines: [--version] with every option that may accompany it
    (the three input modes, [--test-api] and [--version] exclude one
    another in [create_parser]), [--plan], the same with all the unread
    options, [--requirements], and [--json-test-plan]. *)
Definition version_and_more : namespace :=
  Namespace false None None false true (Some "https://example.test") true true
            (Some true) true (Some "out") "json" 5 1.

Definition plan_command : namespace :=
  Namespace false (Some "requirements.md") None false false None true false
            (Some false) false None "html" 300 50.

Definition plan_command_with_options : namespace :=
  Namespace false (Some "requirements.md") None false false
            (Some "https://ignored.test") true true (Some true) false
            (Some "out") "json" 5 1.

Definition interactive_command : namespace :=
  Namespace true None None false false None false false (Some false) false None
            "html" 300 50.

Definition json_command : namespace :=
  Namespace false None (Some "scenario.json") false false None false false
            (Some false) false None "html" 300 50.

(** The scenario [process_plan_file] writes in [sample_plan_world] for
    [requirements.md], after asking for the URL. *)
Definition sample_written_scenario : list (string * json) :=
  [("name", JString "Login");
   ("description", JString "Test extracted from document");
   ("url", JString "https://example.test");
   ("requirements", JString "Log in");
   ("expected_outcomes", JArray []);
   ("tags", JArray [JString "generated"; JString "from_document"]);
   ("timeout", JInt 300);
   ("source_document", JString "requirements.md");
   ("generated_at", JString "2024-01-01T00:00:00")].

Definition sample_run_request (berserk : bool) : run_request :=
  RunRequest (JString "Log in") (JString "https://example.test") false true None
             "html" 300 50 berserk.

(** * Properties *)

Lemma ge_le_unit_spec (x : float) : ge_le_unit x = true <-> within_unit x.
Proof.
  unfold ge_le_unit, within_unit. now rewrite andb_true_iff.
Qed.

Lemma refused_fields_nil (checks : list (string * bool)) :
  refused_fields checks = [] <-> forallb snd checks = true.
Proof.
  unfold refused_fields.
  induction checks as [|[name ok] checks IH]; simpl.
  - tauto.
  - destruct ok; simpl.
    + exact IH.
    + split; discriminate.
Qed.

(** ** Data models *)

(** C2: every [GridCoordinate] that the constructor returns has both
    offsets and the confidence within [0.0, 1.0], and the constructor
    refuses (with a non-empty list of refused fields) any call in which
    an offset or the confidence is outside that range. *)
Theorem GridCoordinate_init_bounds :
  forall (cell : string) (ox oy : option float) (conf : float) (r : option bool),
    (forall g, GridCoordinate.init cell ox oy conf r = Valid g ->
       within_unit (GridCoordinate.offset_x g)
       /\ within_unit (GridCoordinate.offset_y g)
       /\ within_unit (GridCoordinate.confidence g))
    /\ (~ (within_unit (field_default 0.5%float ox)
           /\ within_unit (field_default 0.5%float oy)
           /\ within_unit conf) ->
        exists errs, errs <> []
          /\ GridCoordinate.init cell ox oy conf r = ValidationError errs).
Proof.
  intros cell ox oy conf r.
  unfold GridCoordinate.init.
  set (checks := [("offset_x", ge_le_unit (field_default 0.5%float ox));
                  ("offset_y", ge_le_unit (field_default 0.5%float oy));
                  ("confidence", ge_le_unit conf)]).
  destruct (refused_fields checks) as [|e errs] eqn:E.
  - apply refused_fields_nil in E. simpl in E.
    rewrite !andb_true_iff in E. destruct E as (Hx & Hy & Hc & _).
    apply ge_le_unit_spec in Hx, Hy, Hc.
    split.
    + intros g Hg. injection Hg as <-. simpl. auto.
    + intros Hout. exfalso. apply Hout. auto.
  - split.
    + intros g Hg. discriminate Hg.
    + intros _. exists (e :: errs). split; [discriminate | reflexivity].
Qed.

Lemma GridCoordinate_init_bounds_witness :
  (within_unit 0.25%float /\ within_unit 0.5%float /\ within_unit 0.75%float)
  /\ exists errs, errs <> []
       /\ GridCoordinate.init "M23" (Some 1.5%float) None 0.75%float None
          = ValidationError errs.
Proof.
  split.
  - apply (proj1 (GridCoordinate_init_bounds "M23" (Some 0.25%float) None
                    0.75%float None)
                 (GridCoordinate.make "M23" 0.25%float 0.5%float 0.75%float false)).
    reflexivity.
  - apply (proj2 (GridCoordinate_init_bounds "M23" (Some 1.5%float) None
                    0.75%float None)).
    intros [[_ H] _]. vm_compute in H. discriminate H.
Defined.

(** C9: a [GridCoordinate] built from a cell and a valid confidence
    alone has [offset_x = 0.5], [offset_y = 0.5] and [refined = False]. *)
Theorem GridCoordinate_init_defaults :
  forall (cell : string) (conf : float),
    within_unit conf ->
    GridCoordinate.init cell None None conf None
    = Valid (GridCoordinate.make cell 0.5%float 0.5%float conf false).
Proof.
  intros cell conf Hc. apply ge_le_unit_spec in Hc.
  unfold GridCoordinate.init. simpl field_default.
  unfold refused_fields. simpl. rewrite Hc.
  replace (ge_le_unit 0.5%float) with true by (vm_compute; reflexivity).
  reflexivity.
Qed.

Lemma GridCoordinate_init_defaults_witness :
  GridCoordinate.init "M23" None None 0.75%float None
  = Valid (GridCoordinate.make "M23" 0.5%float 0.5%float 0.75%float false).
Proof.
  apply (GridCoordinate_init_defaults "M23" 0.75%float).
  split; vm_compute; reflexivity.
Defined.

(** C7: a [ScrollState] and a [ScrollParameters] built without an
    explicit maximum have [max_attempts = 15], whatever the other
    arguments are. *)
Theorem max_attempts_default_15 :
  (forall target attempts history last overshoot partially hash,
      ScrollState.max_attempts
        (ScrollState.init target attempts None history last overshoot
                          partially hash) = 15)
  /\ (forall direction pixels target,
      ScrollParameters.max_attempts
        (ScrollParameters.init direction pixels target None) = 15).
Proof.
  split; intros; reflexivity.
Qed.

(** ** [load_scenario] *)

Lemma missing_fields_record (fields : list string) (m : list (string * json)) :
  missing_fields fields (JObject m)
  = Some (filter (fun f => negb (has_field f m)) fields).
Proof.
  induction fields as [|f fields IH]; simpl.
  - reflexivity.
  - rewrite IH. unfold has_field.
    now destruct (existsb (fun kv => String.eqb f (fst kv)) m).
Qed.

(** C8, as the code has it: [load_scenario] requires the keys [name],
    [requirements] and [url] of a record, and no list of steps.  A record
    with the three keys is returned as it is; a record that lacks one of
    them and a file that is not valid JSON each end in an error line and
    [sys.exit(1)]. *)
Theorem load_scenario_required_keys :
  forall m : list (string * json),
    (has_field "name" m = true /\ has_field "requirements" m = true
     /\ has_field "url" m = true ->
     load_scenario (Document (JObject m)) = Scenario (JObject m))
    /\ (has_field "name" m = false \/ has_field "requirements" m = false
        \/ has_field "url" m = false ->
        exists missing, missing <> []
          /\ missing = filter (fun f => negb (has_field f m)) required_fields
          /\ load_scenario (Document (JObject m))
             = SysExit 1 (ErrorLoadingScenario (ValueError missing)))
    /\ load_scenario Malformed = SysExit 1 InvalidJSON.
Proof.
  intros m.
  unfold load_scenario, load_scenario_try.
  rewrite missing_fields_record.
  unfold required_fields. simpl filter.
  repeat split.
  - intros (Hn & Hr & Hu). now rewrite Hn, Hr, Hu.
  - intros H.
    destruct (has_field "name" m), (has_field "requirements" m),
      (has_field "url" m); simpl;
      try (destruct H as [H|[H|H]]; discriminate H);
      eexists; (split; [|split; reflexivity]); discriminate.
Qed.

Lemma load_scenario_required_keys_witness :
  load_scenario (Document (JObject scenario_without_steps))
  = Scenario (JObject scenario_without_steps).
Proof.
  apply (proj1 (load_scenario_required_keys scenario_without_steps)).
  repeat split; reflexivity.
Defined.

(** C8, as the claim states it, fails: a record with a name, the
    requirements and a URL but without steps is loaded, not refused. *)
Lemma load_scenario_accepts_record_without_steps :
  has_field "steps" scenario_without_steps = false
  /\ load_scenario (Document (JObject scenario_without_steps))
     = Scenario (JObject scenario_without_steps).
Proof.
  split; reflexivity.
Qed.

(** ** [run_test] *)

Ltac run_test_unfold :=
  cbv [run_test try_finally try_except try_block finally_block except_clauses
       try_outcome handled_outcome try_frame handler release start
       bind ret raise invoke emit print print_data when set_browser_controller
       set_coordinator truthy vars log browser_controller coordinator
       fst snd].

(** An event is in a trace that is written out. *)
Ltac in_trace := simpl; repeat first [left; reflexivity | right].

(** A case analysis on whatever call or flag the goal is stuck on: for
    the handlers and the [finally] block, where every combination
    counts. *)
Ltac next_call :=
  match goal with
  | |- context [match ?o with Ok _ => _ | Raise _ => _ end] =>
      is_var o; destruct o as [?|?]
  | |- context [match ?e with TimeoutError => _ | _ => _ end] =>
      is_var e; destruct e
  end; simpl.

Ltac every_case tac := run_test_unfold; simpl; repeat next_call; tac.

(** One call of the [try] block: it returns and the block goes on, or it
    raises and the block is over, where [tac] has to decide the goal. *)
Ltac on_call o tac := destruct o as [?|?]; simpl; [ | tac ].

(** Every path through the [try] block, once the arguments and the
    collaborators are split into their fields: [tac] has to decide the
    goal at the end of each path. *)
Ltac try_paths po bk t dl bc bs mb sm wc ci pn nav gp pp px ex ps sc mk pg gr pr ds pd tac :=
  run_test_unfold; simpl;
  destruct bk; simpl;
  on_call dl tac; on_call bc tac; on_call bs tac; on_call mb tac;
  on_call sm tac; on_call wc tac; on_call ci tac; on_call pn tac;
  on_call nav tac;
  (destruct po; simpl;
   [ on_call gp tac; on_call pp tac; tac
   | on_call px tac;
     (destruct (wait_for ex t) eqn:?; simpl; [ | tac ]);
     on_call ps tac; on_call sc tac; on_call mk tac; on_call pg tac;
     on_call gr tac; on_call pr tac; on_call ds tac; on_call pd tac;
     match goal with
     | |- context [attr_status ?ts] => destruct (attr_status ts) eqn:?
     end;
     simpl; tac ]).

(** A handler and the [finally] block do the same in every frame: they
    leave the variables alone and add their events to the log. *)
Lemma except_clauses_frame (a : run_args) (w : collaborators) (e : exn) (fr : frame) :
  except_clauses a w e fr
  = (Frame (vars fr) (log fr ++ log (fst (except_clauses a w e start)))%list,
     snd (except_clauses a w e start)).
Proof.
  destruct fr as [v l], w; destruct e; every_case ltac:(idtac);
    rewrite <- ?app_assoc, ?app_nil_r; reflexivity.
Qed.

Lemma finally_block_frame (w : collaborators) (fr : frame) :
  finally_block w fr
  = (Frame (vars fr)
           (log fr ++ log (fst (finally_block w (Frame (vars fr) []))))%list,
     snd (finally_block w (Frame (vars fr) []))).
Proof.
  destruct fr as [[[[]|] [[]|]] l], w; every_case ltac:(idtac);
    rewrite <- ?app_assoc, ?app_nil_r; reflexivity.
Qed.

(** [run_test] by its three parts. *)
Lemma run_test_parts (a : run_args) (w : collaborators) :
  run_test a w
  = ((log (try_frame a w) ++ log (fst (handler a w))
       ++ log (fst (release a w)))%list,
     match snd (release a w) with
     | Ok _ => snd (handler a w)
     | Raise e => Raise e
     end).
Proof.
  unfold run_test, try_finally, try_except, handler, release, try_outcome, try_frame.
  destruct (try_block a w start) as [fr [code|e]]; simpl.
  - rewrite finally_block_frame.
    destruct (finally_block w _) as [fr2 [[]|e2]]; simpl; reflexivity.
  - rewrite except_clauses_frame.
    destruct (except_clauses a w e start) as [frh oh]; simpl.
    rewrite finally_block_frame. simpl.
    destruct (finally_block w _) as [fr2 [[]|e2]]; simpl;
      rewrite <- app_assoc; reflexivity.
Qed.

(** The variables the [try] block leaves say how far it got. *)
Lemma try_frame_vars (a : run_args) (w : collaborators) :
  (truthy (browser_controller (vars (try_frame a w))) = true
   <-> controller_constructed w)
  /\ (truthy (coordinator (vars (try_frame a w))) = true
      <-> coordinator_constructed w).
Proof.
  destruct a as [rq u po hl od rf t ms bk].
  destruct w as [dl bc bs mb sm wc ci pn nav gp pp px ex ps sc mk pg gr pr ds pd
                 ph lg cl st].
  try_paths po bk t dl bc bs mb sm wc ci pn nav gp pp px ex ps sc mk pg gr pr ds pd
    ltac:(unfold coordinator_constructed, controller_constructed, returns;
          simpl; intuition congruence).
Qed.

(** What the [finally] block does, by how far the [try] block got. *)
Lemma release_cases (a : run_args) (w : collaborators) :
  (~ controller_constructed w
   /\ log (fst (release a w)) = [] /\ snd (release a w) = Ok tt)
  \/ (controller_constructed w /\ ~ coordinator_constructed w
      /\ log (fst (release a w)) = [Called BrowserStop]
      /\ snd (release a w) = browser_controller_stop w)
  \/ (coordinator_constructed w
      /\ (exists e, coordinator_cleanup w = Raise e /\ snd (release a w) = Raise e)
      /\ log (fst (release a w)) = [Called CoordinatorCleanup])
  \/ (coordinator_constructed w /\ returns (coordinator_cleanup w)
      /\ log (fst (release a w)) = [Called CoordinatorCleanup; Called BrowserStop]
      /\ snd (release a w) = browser_controller_stop w).
Proof.
  destruct (try_frame_vars a w) as (Hbc & Hco).
  unfold release, finally_block, bind, when, invoke, emit, ret.
  destruct (vars (try_frame a w)) as [[[]|] [[]|]]; simpl in *.
  - assert (Hc : coordinator_constructed w) by tauto.
    destruct (coordinator_cleanup w) as [[]|e] eqn:Hcl; simpl.
    + right; right; right.
      destruct (browser_controller_stop w) as [[]|e]; simpl;
        (split; [exact Hc|]); (split; [exact I|]); split; reflexivity.
    + right; right; left.
      split; [exact Hc|]. split; [|reflexivity]. exists e. split; reflexivity.
  - right; left.
    assert (Hb : controller_constructed w) by tauto.
    assert (Hn : ~ coordinator_constructed w)
      by (intros H; apply Hco in H; discriminate H).
    destruct (browser_controller_stop w) as [[]|e]; simpl;
      (split; [exact Hb|]); (split; [exact Hn|]); split; reflexivity.
  - exfalso. assert (H : coordinator_constructed w) by tauto.
    destruct H as (H & _). apply Hbc in H. discriminate H.
  - left. split; [|split; reflexivity].
    intros H. apply Hbc in H. discriminate H.
Qed.

(** The [try] block and the handlers release nothing. *)
Lemma try_frame_no_release (a : run_args) (w : collaborators) :
  filter is_release (log (try_frame a w)) = [].
Proof.
  destruct a as [rq u po hl od rf t ms bk].
  destruct w as [dl bc bs mb sm wc ci pn nav gp pp px ex ps sc mk pg gr pr ds pd
                 ph lg cl st].
  try_paths po bk t dl bc bs mb sm wc ci pn nav gp pp px ex ps sc mk pg gr pr ds pd
    ltac:(reflexivity).
Qed.

Lemma handler_no_release (a : run_args) (w : collaborators) :
  filter is_release (log (fst (handler a w))) = [].
Proof.
  unfold handler. destruct (try_outcome a w) as [code|e]; [reflexivity|].
  destruct a, w, e; every_case ltac:(reflexivity).
Qed.

(** What the handlers make of the outcome of the [try] block. *)
Lemma handler_outcome (a : run_args) (w : collaborators) :
  snd (handler a w)
  = match try_outcome a w with
    | Ok code => Ok code
    | Raise TimeoutError => Ok 2
    | Raise KeyboardInterrupt => Ok 130
    | Raise (Exception _) =>
        match print_error_during_execution w with
        | Raise e => Raise e
        | Ok _ =>
            match logger_exception w with
            | Raise e => Raise e
            | Ok _ => Ok 1
            end
        end
    | Raise (BaseException name) => Raise (BaseException name)
    end.
Proof.
  unfold handler. destruct (try_outcome a w) as [code|e]; [reflexivity|].
  destruct a, w, e; every_case ltac:(reflexivity).
Qed.

Lemma filter_is_release_app (xs ys : list event) :
  filter is_release (xs ++ ys) = (filter is_release xs ++ filter is_release ys)%list.
Proof.
  apply filter_app.
Qed.

(** The release calls of a run are those of its [finally] block. *)
Lemma run_test_release_calls (a : run_args) (w : collaborators) :
  filter is_release (fst (run_test a w)) = log (fst (release a w)).
Proof.
  rewrite run_test_parts. simpl.
  rewrite !filter_app, try_frame_no_release, handler_no_release. simpl.
  destruct (release_cases a w)
    as [(_ & -> & _)|[(_ & _ & -> & _)|[(_ & _ & ->)|(_ & _ & -> & _)]]];
    reflexivity.
Qed.

Lemma releases_of_release_calls (trace : list event) :
  releases trace = releases (filter is_release trace)
  /\ cleanups trace = cleanups (filter is_release trace).
Proof.
  unfold releases, cleanups.
  induction trace as [|ev trace (IH1 & IH2)]; [split; reflexivity|].
  destruct ev as [[]|l]; simpl; rewrite ?IH1, ?IH2; split; reflexivity.
Qed.

(** The browser controller is never stopped twice, and the coordinator
    never cleaned up twice, whatever happens. *)
Lemma run_test_releases_at_most_once :
  forall (a : run_args) (w : collaborators),
    (releases (fst (run_test a w)) <= 1)%nat
    /\ (cleanups (fst (run_test a w)) <= 1)%nat.
Proof.
  intros a w.
  destruct (releases_of_release_calls (fst (run_test a w))) as (-> & ->).
  rewrite run_test_release_calls.
  destruct (release_cases a w)
    as [(_ & -> & _)|[(_ & _ & -> & _)|[(_ & _ & ->)|(_ & _ & -> & _)]]];
    unfold releases, cleanups; simpl; lia.
Qed.

(** When the coordinator's cleanup returns, a browser controller that
    was constructed is stopped exactly once, on every path. *)
Lemma run_test_releases_once_when_cleanup_returns :
  forall (a : run_args) (w : collaborators),
    returns (initialize_debug_logger w) ->
    returns (BrowserController_init w) ->
    returns (coordinator_cleanup w) ->
    releases (fst (run_test a w)) = 1%nat.
Proof.
  intros a w Hdl Hbc Hcl.
  destruct (releases_of_release_calls (fst (run_test a w))) as (-> & _).
  rewrite run_test_release_calls.
  assert (Hb : controller_constructed w) by (split; assumption).
  destruct (release_cases a w)
    as [(Hn & _)|[(_ & _ & -> & _)|[(_ & (e & He & _) & _)|(_ & _ & -> & _)]]];
    try reflexivity.
  - contradiction.
  - rewrite He in Hcl. contradiction.
Qed.

(** C5, at the failing input: the test finishes in time, then
    [coordinator.cleanup()] raises; the coordinator was cleaned up once,
    the browser controller that was started is never stopped, and the
    exception leaves [run_test]. *)
Theorem run_test_cleanup_failure_skips_stop :
  In (Called BrowserStart)
     (fst (run_test (default_args "log in" "https://example.test") cleanup_raises))
  /\ cleanups
       (fst (run_test (default_args "log in" "https://example.test") cleanup_raises))
     = 1%nat
  /\ releases
       (fst (run_test (default_args "log in" "https://example.test") cleanup_raises))
     = 0%nat
  /\ snd (run_test (default_args "log in" "https://example.test") cleanup_raises)
     = Raise (Exception "RuntimeError").
Proof.
  vm_compute. repeat split. in_trace.
Qed.

(** C4, at the failing input: the test is still running when the timeout
    of 300 expires, and [coordinator.cleanup()] then raises.  The timeout
    is caught and reported, and no result is presented; but the browser
    controller that was started is never stopped, and [run_test] does not
    return 2: the exception of the cleanup leaves it. *)
Theorem run_test_timeout_cleanup_failure_keeps_browser :
  execution_times_out (default_args "log in" "https://example.test")
                      timeout_then_cleanup_raises
  /\ In (Called BrowserStart)
        (fst (run_test (default_args "log in" "https://example.test")
                       timeout_then_cleanup_raises))
  /\ In (Printed (TimedOutAfter 300))
        (fst (run_test (default_args "log in" "https://example.test")
                       timeout_then_cleanup_raises))
  /\ existsb reports_result
       (fst (run_test (default_args "log in" "https://example.test")
                      timeout_then_cleanup_raises)) = false
  /\ releases
       (fst (run_test (default_args "log in" "https://example.test")
                      timeout_then_cleanup_raises)) = 0%nat
  /\ snd (run_test (default_args "log in" "https://example.test")
                   timeout_then_cleanup_raises)
     = Raise (Exception "RuntimeError").
Proof.
  split.
  - unfold execution_times_out, setup_succeeds. simpl. repeat split.
  - vm_compute. repeat split; in_trace.
Qed.

(** The [except] clauses and the [finally] block, read off the outcome
    of the [try] block: a code that [run_test] returns is the code the
    block returned, or the code of the clause that caught its exception. *)
Lemma run_test_code_of_try_outcome :
  forall (a : run_args) (w : collaborators) (code : Z),
    snd (run_test a w) = Ok code ->
    match try_outcome a w with
    | Ok c => code = c
    | Raise TimeoutError => code = 2
    | Raise KeyboardInterrupt => code = 130
    | Raise (Exception _) => code = 1
    | Raise (BaseException _) => False
    end.
Proof.
  intros a w code. rewrite run_test_parts. simpl.
  destruct (snd (release a w)); [|discriminate].
  rewrite handler_outcome.
  destruct (try_outcome a w) as [c|[| |name|name]]; try congruence.
  destruct (print_error_during_execution w); [|discriminate].
  destruct (logger_exception w); [|discriminate]. congruence.
Qed.

Lemma wait_for_times_out {A : Type} (aw : awaited A) (t : Z) :
  t < elapsed aw -> wait_for aw t = Raise TimeoutError.
Proof.
  intros H. unfold wait_for. apply Z.ltb_lt in H.
  now rewrite H, orb_true_r.
Qed.

Lemma wait_for_in_time {A : Type} (aw : awaited A) (t : Z) :
  0 < t -> elapsed aw <= t -> wait_for aw t = result aw.
Proof.
  intros Hpos Hin. unfold wait_for.
  apply Z.leb_gt in Hpos. apply Z.ltb_ge in Hin. now rewrite Hpos, Hin.
Qed.

(** The two ways in which the [try] block reaches a [return]. *)
Lemma try_outcome_returns :
  forall (a : run_args) (w : collaborators) (c : Z),
    try_outcome a w = Ok c <->
    (c = 0 /\ plan_generated a w)
    \/ (exists ts s,
          execution_finishes a w ts /\ reporting_succeeds w
          /\ attr_status ts = Some s
          /\ c = if String.eqb s "completed" then 0 else 1).
Proof.
  intros [rq u po hl od rf t ms bk]
         [dl bc bs mb sm wc ci pn nav gp pp px ex ps sc mk pg gr pr ds pd ph lg cl st]
         c.
  try_paths po bk t dl bc bs mb sm wc ci pn nav gp pp px ex ps sc mk pg gr pr ds pd
    ltac:(unfold plan_generated, execution_finishes, reporting_succeeds,
            setup_succeeds, returns;
          simpl;
          split;
          [ intros H;
            first [ discriminate H
                  | injection H as <-;
                    first [ left; tauto
                          | right;
                            match goal with
                            | Hw : wait_for _ _ = Ok ?ts,
                              Hs : attr_status ?ts = Some ?s |- _ =>
                                exists ts, s; solve [intuition auto]
                            end ] ]
          | intros [(-> & Hplan)|(ts' & s' & (Hpo & Hsetup & Hpr & Hwait) & Hrep
                                  & Hs' & ->)];
            first [ reflexivity
                  | exfalso; solve [intuition congruence]
                  | match goal with
                    | Hw : wait_for ?x ?y = Ok ?t1, Hw' : wait_for ?x ?y = Ok ?t2 |- _ =>
                        rewrite Hw in Hw'; injection Hw' as <-
                    end;
                    match goal with
                    | Hs : attr_status ?ts = Some ?s1,
                      Hs2 : attr_status ?ts = Some ?s2 |- _ =>
                        rewrite Hs in Hs2; injection Hs2 as <-
                    end;
                    reflexivity ] ]).
Qed.


(** What does hold on the timeout path: when the test is started and
    runs for longer than the timeout, [run_test] prints the timeout
    error, presents no summary and no report, and cleans up the
    coordinator; whenever it returns, it returns 2 and has stopped the
    browser controller exactly once, as the last thing it did; and it
    does return 2 when the two cleanup calls return. *)
Lemma run_test_timeout :
  forall (a : run_args) (w : collaborators),
    execution_times_out a w ->
    In (Printed (TimedOutAfter (timeout a))) (fst (run_test a w))
    /\ existsb reports_result (fst (run_test a w)) = false
    /\ cleanups (fst (run_test a w)) = 1%nat
    /\ (forall code, snd (run_test a w) = Ok code ->
        code = 2
        /\ releases (fst (run_test a w)) = 1%nat
        /\ last (fst (run_test a w)) (Printed Banner) = Called BrowserStop)
    /\ (returns (coordinator_cleanup w) -> returns (browser_controller_stop w) ->
        snd (run_test a w) = Ok 2).
Proof.
  intros [rq u po hl od rf t ms bk]
         [dl bc bs mb sm wc ci pn nav gp pp px ex ps sc mk pg gr pr ds pd ph lg cl st]
         (Hpo & Hsetup & Hpx & Hlate).
  unfold setup_succeeds in Hsetup. simpl in Hpo, Hsetup, Hpx, Hlate. subst po.
  destruct Hsetup as (H1 & H2 & H3 & H4 & H5 & H6 & H7 & H8 & H9).
  destruct dl; [|contradiction]. destruct bc; [|contradiction].
  destruct bs; [|contradiction]. destruct mb; [|contradiction].
  destruct sm; [|contradiction]. destruct wc; [|contradiction].
  destruct ci; [|contradiction]. destruct pn; [|contradiction].
  destruct nav; [|contradiction]. destruct px; [|contradiction].
  destruct (run_test _ _) as [trace res] eqn:E. revert E.
  run_test_unfold. cbn [timeout coordinator_execute_test_from_requirements].
  rewrite (wait_for_times_out ex t Hlate).
  destruct bk, cl as [?|ecl], st as [?|est]; simpl;
    intros E; injection E as <- <-;
    (split; [in_trace|]); (split; [reflexivity|]); (split; [reflexivity|]);
    (split; [intros code Hc | intros Hcl Hst]);
    try discriminate; try contradiction; try reflexivity;
    injection Hc as <-; auto.
Qed.




(** ** The Visual Locator *)

(** C3: a locate call issues at most one refinement request; when the
    initial confidence is below the threshold and the candidate is not
    marked refined, it issues exactly one, every coordinate it returns
    has [refined = true], and it returns one, with the merged answer,
    whenever the oracle answers the refinement with a candidate, whatever
    the confidence of that answer. *)
Theorem locate_refines_exactly_once :
  forall (threshold : float)
         (merge : GridCoordinate.t -> GridCoordinate.t -> GridCoordinate.t)
         (oracle : VisualLocator.request -> VisualLocator.oracle_response)
         (description context : string),
    (VisualLocator.refinements
       (fst (VisualLocator.locate threshold merge oracle description context))
     <= 1)%nat
    /\ forall c : GridCoordinate.t,
        oracle (VisualLocator.InitialRequest description context)
        = VisualLocator.Candidate c ->
        PrimFloat.ltb (GridCoordinate.confidence c) threshold = true ->
        GridCoordinate.refined c = false ->
        VisualLocator.refinements
          (fst (VisualLocator.locate threshold merge oracle description context))
        = 1%nat
        /\ (forall g,
              snd (VisualLocator.locate threshold merge oracle description context)
              = inl g ->
              GridCoordinate.refined g = true)
        /\ (forall r,
              oracle (VisualLocator.RefinementRequest description c)
              = VisualLocator.Candidate r ->
              snd (VisualLocator.locate threshold merge oracle description context)
              = inl (VisualLocator.mark_refined (merge c r))).
Proof.
  intros threshold merge oracle description context.
  unfold VisualLocator.locate, VisualLocator.refinements. split.
  - destruct (oracle (VisualLocator.InitialRequest description context)) as [c| | |];
      try (simpl; lia).
    destruct (PrimFloat.ltb (GridCoordinate.confidence c) threshold
              && negb (GridCoordinate.refined c))%bool;
      [|simpl; lia].
    destruct (oracle (VisualLocator.RefinementRequest description c));
      simpl; lia.
  - intros c Hinit Hlow Hfresh.
    rewrite Hinit, Hlow, Hfresh. simpl andb. cbv iota.
    destruct (oracle (VisualLocator.RefinementRequest description c)) as [r| | |];
      simpl; (split; [reflexivity|]); split;
      try (intros g Hg; discriminate Hg);
      try (intros r' Hr'; discriminate Hr').
    + intros g Hg. injection Hg as <-. reflexivity.
    + intros r' Hr'. injection Hr' as <-. reflexivity.
Qed.

(** The locator hands on the bounds of [GridCoordinate]: when the
    oracle's candidates are within bounds and merging keeps them, so is
    every coordinate [locate] returns. *)
Lemma locate_keeps_bounds :
  forall (threshold : float)
         (merge : GridCoordinate.t -> GridCoordinate.t -> GridCoordinate.t)
         (oracle : VisualLocator.request -> VisualLocator.oracle_response)
         (description context : string),
    (forall q c, oracle q = VisualLocator.Candidate c -> within_bounds c) ->
    (forall c r, within_bounds c -> within_bounds r -> within_bounds (merge c r)) ->
    forall g,
      snd (VisualLocator.locate threshold merge oracle description context) = inl g ->
      within_bounds g.
Proof.
  intros threshold merge oracle description context Horacle Hmerge g.
  unfold VisualLocator.locate.
  destruct (oracle (VisualLocator.InitialRequest description context))
    as [c| | |] eqn:Hfirst; try discriminate.
  destruct (PrimFloat.ltb (GridCoordinate.confidence c) threshold
            && negb (GridCoordinate.refined c))%bool.
  - destruct (oracle (VisualLocator.RefinementRequest description c))
      as [r| | |] eqn:Hsecond; try discriminate.
    simpl. intros Hg. injection Hg as <-.
    exact (Hmerge c r (Horacle _ c Hfirst) (Horacle _ r Hsecond)).
  - simpl. intros Hg. injection Hg as <-. exact (Horacle _ c Hfirst).
Qed.

Lemma locate_refines_exactly_once_witness :
  VisualLocator.refinements
    (fst (VisualLocator.locate VisualLocator.default_threshold
            VisualLocator.take_refined (unsure_oracle 0.25%float)
            "Login button" "screenshot-1"))
  = 1%nat
  /\ snd (VisualLocator.locate VisualLocator.default_threshold
            VisualLocator.take_refined (unsure_oracle 0.25%float)
            "Login button" "screenshot-1")
     = inl (GridCoordinate.make "M23" 0.25%float 0.75%float 0.25%float true).
Proof.
  destruct (proj2 (locate_refines_exactly_once
                     VisualLocator.default_threshold VisualLocator.take_refined
                     (unsure_oracle 0.25%float) "Login button" "screenshot-1")
                  (GridCoordinate.make "M23" 0.5%float 0.5%float 0.5%float false)
                  eq_refl eq_refl eq_refl)
    as (Hone & _ & Hmerged).
  split.
  - exact Hone.
  - apply (Hmerged (GridCoordinate.make "M23" 0.25%float 0.75%float 0.25%float false)).
    reflexivity.
Defined.

(** ** The Scroll Controller *)

Section ScrollLoop.

Variable visibility : nat -> VisibilityResult.t.
Variable suggested_pixels : nat -> option Z.
Variable direction_threshold : float.
Variable default_distance : Z.

(** The loop invariant: the history of the state is the list of actions
    performed, and the attempt counter is its length. *)
Lemma scroll_loop_counts :
  forall (remaining query : nat) (st : ScrollState.t) (previous : option Z)
         (performed : list ScrollAction.t),
    ScrollState.scroll_history st = performed ->
    ScrollState.attempts st = Z.of_nat (List.length performed) ->
    forall ph done res,
      ScrollController.scroll_loop visibility suggested_pixels direction_threshold
        default_distance remaining query st previous performed
      = (ph, done, res) ->
      (List.length done <= List.length performed + remaining)%nat
      /\ ScrollResult.attempts res = Some (Z.of_nat (List.length done))
      /\ ScrollResult.scroll_history res
         = Some (map ScrollController.action_record done)
      /\ (ph = ScrollController.Exhausted ->
          List.length done = (List.length performed + remaining)%nat
          /\ ScrollResult.success res = false)
      /\ (ph = ScrollController.Found -> ScrollResult.success res = true)
      /\ (ph = ScrollController.Found \/ ph = ScrollController.Exhausted).
Proof.
  induction remaining as [|remaining IH];
    intros query st previous performed Hhist Hcount ph done res Hrun;
    simpl in Hrun.
  - injection Hrun as <- <- <-. simpl. rewrite Hhist, Hcount.
    repeat split; auto; try lia; discriminate.
  - destruct (VisibilityResult.status (visibility query)) eqn:Hstatus.
    + injection Hrun as <- <- <-. simpl. rewrite Hhist, Hcount.
      repeat split; auto; try lia; discriminate.
    + apply IH in Hrun.
      * rewrite length_app in Hrun. simpl in Hrun.
        destruct Hrun as (H1 & H2 & H3 & H4 & H5 & H6).
        split; [lia|]. split; [exact H2|]. split; [exact H3|].
        split; [|split; assumption].
        intros He. destruct (H4 He). split; [lia | assumption].
      * simpl. now rewrite Hhist.
      * simpl. rewrite Hcount, length_app. simpl. lia.
    + apply IH in Hrun.
      * rewrite length_app in Hrun. simpl in Hrun.
        destruct Hrun as (H1 & H2 & H3 & H4 & H5 & H6).
        split; [lia|]. split; [exact H2|]. split; [exact H3|].
        split; [|split; assumption].
        intros He. destruct (H4 He). split; [lia | assumption].
      * simpl. now rewrite Hhist.
      * simpl. rewrite Hcount, length_app. simpl. lia.
Qed.

End ScrollLoop.

(** C6, as the model of the controller has it: a scroll-to-element
    request with a maximum of [max_attempts] performs at most
    [max_attempts] scroll actions, and none when the maximum is zero or
    negative; the [attempts] of its result is the number of actions
    performed, the history of its result is the record of those actions,
    one by one; and a request that ends Exhausted has performed exactly
    that many and reports failure. *)
Theorem scroll_attempts_bounded :
  forall (visibility : nat -> VisibilityResult.t)
         (suggested_pixels : nat -> option Z)
         (direction_threshold : float) (default_distance : Z)
         (target : string) (params : ScrollParameters.t)
         (ph : ScrollController.phase) (performed : list ScrollAction.t)
         (res : ScrollResult.t),
    ScrollController.scroll_to_element visibility suggested_pixels
      direction_threshold default_distance target params
    = (ph, performed, res) ->
    Z.of_nat (List.length performed) <= Z.max 0 (ScrollParameters.max_attempts params)
    /\ ScrollResult.attempts res = Some (Z.of_nat (List.length performed))
    /\ ScrollResult.scroll_history res
       = Some (map ScrollController.action_record performed)
    /\ (ph = ScrollController.Exhausted ->
        Z.of_nat (List.length performed)
        = Z.max 0 (ScrollParameters.max_attempts params)
        /\ ScrollResult.success res = false)
    /\ (ph = ScrollController.Found \/ ph = ScrollController.Exhausted).
Proof.
  intros visibility suggested_pixels direction_threshold default_distance
         target params ph performed res Hrun.
  unfold ScrollController.scroll_to_element in Hrun. simpl in Hrun.
  apply scroll_loop_counts in Hrun; [|reflexivity|reflexivity].
  simpl in Hrun. destruct Hrun as (H1 & H2 & H3 & H4 & _ & H6).
  split; [lia|]. split; [exact H2|]. split; [exact H3|].
  split; [|exact H6].
  intros He. destruct (H4 He). split; [lia | assumption].
Qed.

Lemma scroll_attempts_bounded_witness :
  fst (fst scenario_B) = ScrollController.Exhausted
  /\ ScrollResult.attempts (snd scenario_B) = Some 15
  /\ ScrollResult.success (snd scenario_B) = false
  /\ Z.of_nat (List.length (snd (fst scenario_B))) = 15.
Proof.
  assert (Hphase : fst (fst scenario_B) = ScrollController.Exhausted)
    by (vm_compute; reflexivity).
  destruct (scroll_attempts_bounded never_visible (fun _ => None) 0.5%float 300
              "Footer link"
              (ScrollParameters.init None None (Some "Footer link") None)
              (fst (fst scenario_B)) (snd (fst scenario_B)) (snd scenario_B))
    as (_ & Hattempts & _ & Hexhausted & _).
  { unfold scenario_B.
    destruct (ScrollController.scroll_to_element _ _ _ _ _ _) as [[ph done] res].
    reflexivity. }
  destruct (Hexhausted Hphase) as (Hlen & Hfail).
  split; [exact Hphase|].
  split; [rewrite Hattempts, Hlen; reflexivity|].
  split; [exact Hfail | exact Hlen].
Defined.

(** C6, as the claim states it, fails: a request with the maximum -1
    ends Exhausted at once, and the number of actions it performed, zero,
    is not at most its [max_attempts]. *)
Lemma scroll_negative_maximum_exhausts_at_once :
  fst (fst negative_maximum) = ScrollController.Exhausted
  /\ snd (fst negative_maximum) = []
  /\ ScrollResult.attempts (snd negative_maximum) = Some 0
  /\ ~ (Z.of_nat (List.length (snd (fst negative_maximum)))
        <= ScrollParameters.max_attempts
             (ScrollParameters.init None None (Some "Footer link") (Some (-1)))).
Proof.
  split; [reflexivity|]. split; [reflexivity|]. split; [reflexivity|].
  simpl. lia.
Qed.
(** ** The Step Scheduler and the Execution Coordinator *)

Section CoordinatorFacts.

Import Coordinator.

Lemma mem_In (id : UUID) (ids : list UUID) : mem id ids = true <-> In id ids.
Proof.
  unfold mem. rewrite existsb_exists. split.
  - intros (x & Hx & Heq). apply N.eqb_eq in Heq. now subst.
  - intros H. exists id. split; [assumption | apply N.eqb_refl].
Qed.

Lemma mem_not_In (id : UUID) (ids : list UUID) : mem id ids = false <-> ~ In id ids.
Proof.
  rewrite <- mem_In. destruct (mem id ids); split; congruence.
Qed.

Lemma In_add (x id : UUID) (ids : list UUID) :
  In x (add id ids) <-> x = id \/ In x ids.
Proof.
  unfold add. destruct (mem id ids) eqn:E.
  - apply mem_In in E. split; [auto | intros [->|H]; assumption].
  - rewrite in_app_iff. simpl. intuition.
Qed.

Lemma In_add_all (x : UUID) (new ids : list UUID) :
  In x (add_all new ids) <-> In x new \/ In x ids.
Proof.
  unfold add_all. revert ids.
  induction new as [|n new IH]; intros ids; simpl.
  - tauto.
  - rewrite IH, In_add. intuition.
Qed.

Lemma least_numbered_In (candidates : list TestStep.t) (s : TestStep.t) :
  least_numbered candidates = Some s -> In s candidates.
Proof.
  revert s. induction candidates as [|c candidates IH]; intros s; simpl.
  - discriminate.
  - destruct (least_numbered candidates) as [s'|].
    + destruct (TestStep.step_number s' <? TestStep.step_number c);
        intros H; injection H as <-; auto.
    + intros H; injection H as <-; auto.
Qed.

(** The scheduler only hands out steps of the plan that are runnable. *)
Lemma next_runnable_sound (st : TestState.t) (s : TestStep.t) :
  next_runnable st = Some s ->
  In s (TestPlan.steps (TestState.test_plan st)) /\ runnable st s = true.
Proof.
  unfold next_runnable. intros H.
  apply least_numbered_In, filter_In in H. exact H.
Qed.

Lemma runnable_spec (st : TestState.t) (s : TestStep.t) :
  runnable st s = true ->
  (forall d, In d (TestStep.dependencies s) -> In d (TestState.completed_steps st))
  /\ ~ In (TestStep.step_id s) (TestState.completed_steps st)
  /\ ~ In (TestStep.step_id s) (TestState.failed_steps st)
  /\ ~ In (TestStep.step_id s) (TestState.skipped_steps st).
Proof.
  unfold runnable, resolved.
  rewrite andb_true_iff, negb_true_iff, !orb_false_iff, forallb_forall.
  intros (Hdeps & (Hc & Hf) & Hs).
  rewrite mem_not_In in Hc, Hf, Hs.
  repeat split; auto. intros d Hd. apply mem_In, Hdeps, Hd.
Qed.

(** With unique identities, a step of the plan is known by its identity. *)
Lemma unique_step (steps : list TestStep.t) (s s' : TestStep.t) :
  NoDup (map TestStep.step_id steps) ->
  In s steps -> In s' steps ->
  TestStep.step_id s = TestStep.step_id s' -> s = s'.
Proof.
  induction steps as [|x steps IH]; simpl; intros Hnd Hs Hs' Heq.
  - contradiction.
  - inversion Hnd as [|? ? Hnotin Hnd']; subst.
    destruct Hs as [->|Hs], Hs' as [->|Hs'].
    + reflexivity.
    + elim Hnotin. rewrite Heq. now apply in_map.
    + elim Hnotin. rewrite <- Heq. now apply in_map.
    + now apply IH.
Qed.

(** The cascade only reaches identities that are neither completed nor
    failed: such a step would have had its dependencies completed, and
    nothing the cascade starts from is. *)
Lemma blocked_closure_unexecuted (st : TestState.t) :
  dependencies_completed st ->
  forall (rounds : nat) (blocked : list UUID),
    (forall x, In x blocked -> ~ In x (TestState.completed_steps st)) ->
    forall x,
      In x (blocked_closure rounds (TestPlan.steps (TestState.test_plan st)) blocked) ->
      In x blocked
      \/ (~ In x (TestState.completed_steps st)
          /\ ~ In x (TestState.failed_steps st)).
Proof.
  intros Hdeps. induction rounds as [|rounds IH]; intros blocked Hclean x Hx.
  - left. exact Hx.
  - simpl in Hx.
    set (fresh := filter _ _) in Hx.
    assert (Hfresh : forall y, In y (map TestStep.step_id fresh) ->
                ~ In y (TestState.completed_steps st)
                /\ ~ In y (TestState.failed_steps st)).
    { intros y Hy. apply in_map_iff in Hy. destruct Hy as (s & <- & Hs).
      apply filter_In in Hs. destruct Hs as (Hs & Hdep).
      apply andb_true_iff in Hdep. destruct Hdep as (Hdep & _).
      unfold depends_on_any in Hdep. apply existsb_exists in Hdep.
      destruct Hdep as (d & Hd & Hblocked). apply mem_In in Hblocked.
      assert (Hnot : ~ (In (TestStep.step_id s) (TestState.completed_steps st)
                        \/ In (TestStep.step_id s) (TestState.failed_steps st))).
      { intros Hexec. apply (Hclean d Hblocked). exact (Hdeps s Hs Hexec d Hd). }
      tauto. }
    apply IH in Hx.
    + destruct Hx as [Hx|Hx]; [|right; exact Hx].
      apply In_add_all in Hx. destruct Hx as [Hx|Hx]; [right; auto | left; exact Hx].
    + intros y Hy. apply In_add_all in Hy. destruct Hy as [Hy|Hy].
      * apply (Hfresh y Hy).
      * apply (Hclean y Hy).
Qed.

Lemma transitive_dependents_unexecuted (st : TestState.t) (s : TestStep.t) :
  dependencies_completed st ->
  ~ In (TestStep.step_id s) (TestState.completed_steps st) ->
  forall x,
    In x (transitive_dependents (TestState.test_plan st) (TestStep.step_id s)) ->
    x <> TestStep.step_id s
    /\ ~ In x (TestState.completed_steps st)
    /\ ~ In x (TestState.failed_steps st).
Proof.
  intros Hdeps Hnew x Hx. unfold transitive_dependents in Hx.
  apply filter_In in Hx. destruct Hx as (Hx & Hne).
  apply negb_true_iff, N.eqb_neq in Hne. split; [exact Hne|].
  apply (blocked_closure_unexecuted st Hdeps) in Hx.
  - destruct Hx as [[Hx|[]]|Hx]; [congruence | exact Hx].
  - intros y [<-|[]]. exact Hnew.
Qed.

Variable evaluation : TestStep.t -> nat -> bool.

(** Executing a runnable step of a plan with unique identities keeps the
    invariant. *)
Lemma execute_step_invariant (plan : TestPlan.t) (st : TestState.t) (s : TestStep.t) :
  unique_ids plan ->
  run_invariant plan st ->
  In s (TestPlan.steps (TestState.test_plan st)) ->
  runnable st s = true ->
  run_invariant plan (execute_step evaluation st s).
Proof.
  intros Huniq (Hplan & (Hcf & Hcs & Hfs) & Hdeps) Hs Hrun.
  destruct (runnable_spec st s Hrun) as (Hready & Hnc & Hnf & Hns).
  assert (Hself : forall s', In s' (TestPlan.steps (TestState.test_plan st)) ->
             TestStep.step_id s' = TestStep.step_id s ->
             forall d, In d (TestStep.dependencies s') ->
               In d (TestState.completed_steps st)).
  { intros s' Hs' Heq. rewrite Hplan in Hs, Hs'.
    rewrite (unique_step _ s' s Huniq Hs' Hs Heq). exact Hready. }
  unfold execute_step.
  destruct (attempt evaluation _ s 0).
  - split; [exact Hplan|]. split.
    + unfold pairwise_disjoint, disjoint. simpl. repeat split.
      * intros id Hin Hf. apply In_add in Hin. destruct Hin as [->|Hin];
          [exact (Hnf Hf) | exact (Hcf id Hin Hf)].
      * intros id Hin Hk. apply In_add in Hin. destruct Hin as [->|Hin];
          [exact (Hns Hk) | exact (Hcs id Hin Hk)].
      * exact Hfs.
    + unfold dependencies_completed. simpl. intros s' Hs' Hexec d Hd.
      apply In_add. right.
      destruct Hexec as [Hexec|Hexec].
      * apply In_add in Hexec. destruct Hexec as [Heq|Hexec].
        -- exact (Hself s' Hs' Heq d Hd).
        -- exact (Hdeps s' Hs' (or_introl Hexec) d Hd).
      * exact (Hdeps s' Hs' (or_intror Hexec) d Hd).
  - split; [exact Hplan|]. split.
    + unfold pairwise_disjoint, disjoint. simpl. repeat split.
      * intros id Hc Hin. apply In_add in Hin. destruct Hin as [->|Hin];
          [exact (Hnc Hc) | exact (Hcf id Hc Hin)].
      * intros id Hc Hin. destruct (TestStep.optional s).
        -- exact (Hcs id Hc Hin).
        -- apply In_add_all in Hin. destruct Hin as [Hin|Hin].
           ++ apply (transitive_dependents_unexecuted st s Hdeps Hnc) in Hin.
              tauto.
           ++ exact (Hcs id Hc Hin).
      * intros id Hf Hin. apply In_add in Hf.
        destruct (TestStep.optional s).
        -- destruct Hf as [->|Hf]; [exact (Hns Hin) | exact (Hfs id Hf Hin)].
        -- apply In_add_all in Hin. destruct Hin as [Hin|Hin].
           ++ apply (transitive_dependents_unexecuted st s Hdeps Hnc) in Hin.
              destruct Hf as [->|Hf]; tauto.
           ++ destruct Hf as [->|Hf]; [exact (Hns Hin) | exact (Hfs id Hf Hin)].
    + unfold dependencies_completed. simpl. intros s' Hs' Hexec d Hd.
      destruct Hexec as [Hexec|Hexec].
      * exact (Hdeps s' Hs' (or_introl Hexec) d Hd).
      * apply In_add in Hexec. destruct Hexec as [Heq|Hexec].
        -- exact (Hself s' Hs' Heq d Hd).
        -- exact (Hdeps s' Hs' (or_intror Hexec) d Hd).
Qed.

Lemma run_invariant_kept (plan : TestPlan.t) (iterations : nat) :
  unique_ids plan ->
  forall st, run_invariant plan st ->
    run_invariant plan (run evaluation iterations st).
Proof.
  intros Huniq. induction iterations as [|iterations IH]; intros st Hinv; simpl.
  - exact Hinv.
  - destruct (next_runnable st) as [s|] eqn:Hnext; [|exact Hinv].
    apply next_runnable_sound in Hnext. destruct Hnext as (Hs & Hrun).
    apply IH. now apply execute_step_invariant.
Qed.

Lemma run_invariant_init (plan : TestPlan.t) :
  run_invariant plan (TestState.init plan).
Proof.
  split; [reflexivity|]. split.
  - repeat split; intros id [].
  - intros s _ [[]|[]].
Qed.

(** The collections only grow. *)
Lemma execute_step_grows (st : TestState.t) (s : TestStep.t) (id : UUID) :
  (In id (TestState.completed_steps st) ->
   In id (TestState.completed_steps (execute_step evaluation st s)))
  /\ (In id (TestState.failed_steps st) ->
      In id (TestState.failed_steps (execute_step evaluation st s)))
  /\ (In id (TestState.skipped_steps st) ->
      In id (TestState.skipped_steps (execute_step evaluation st s))).
Proof.
  unfold execute_step.
  destruct (attempt evaluation _ s 0); simpl.
  - repeat split; auto. intros H. apply In_add. auto.
  - repeat split; auto.
    + intros H. apply In_add. auto.
    + intros H. destruct (TestStep.optional s); [exact H|].
      apply In_add_all. auto.
Qed.

Lemma run_grows (iterations : nat) (st : TestState.t) (id : UUID) :
  (In id (TestState.completed_steps st) ->
   In id (TestState.completed_steps (run evaluation iterations st)))
  /\ (In id (TestState.failed_steps st) ->
      In id (TestState.failed_steps (run evaluation iterations st)))
  /\ (In id (TestState.skipped_steps st) ->
      In id (TestState.skipped_steps (run evaluation iterations st))).
Proof.
  revert st. induction iterations as [|iterations IH]; intros st; simpl.
  - auto.
  - destruct (next_runnable st) as [s|]; [|auto].
    destruct (IH (execute_step evaluation st s)) as (H1 & H2 & H3).
    destruct (execute_step_grows st s id) as (G1 & G2 & G3).
    auto.
Qed.

Lemma execute_step_plan (st : TestState.t) (s : TestStep.t) :
  TestState.test_plan (execute_step evaluation st s) = TestState.test_plan st.
Proof.
  unfold execute_step. now destruct (attempt evaluation _ s 0).
Qed.

(** What executing one step enters. *)
Lemma execute_step_records (st : TestState.t) (s : TestStep.t) :
  (attempt evaluation (Z.to_nat (TestStep.max_retries s)) s 0 = true ->
   In (TestStep.step_id s)
      (TestState.completed_steps (execute_step evaluation st s)))
  /\ (attempt evaluation (Z.to_nat (TestStep.max_retries s)) s 0 = false ->
      In (TestStep.step_id s)
         (TestState.failed_steps (execute_step evaluation st s))
      /\ (TestStep.optional s = false ->
          forall id,
            In id (transitive_dependents (TestState.test_plan st)
                                         (TestStep.step_id s)) ->
            In id (TestState.skipped_steps (execute_step evaluation st s)))).
Proof.
  unfold execute_step.
  destruct (attempt evaluation _ s 0); simpl.
  - split; [|discriminate]. intros _. apply In_add. auto.
  - split; [discriminate|]. intros _. split.
    + apply In_add. auto.
    + intros -> id Hid. apply In_add_all. auto.
Qed.

(** A step the coordinator has executed is entered where its outcome
    says, and so is everything the failure of a required step blocks. *)
Lemma executed_recorded (plan : TestPlan.t) (iterations : nat) :
  forall st, TestState.test_plan st = plan ->
    forall s passed, In (s, passed) (executed evaluation iterations st) ->
      (passed = true ->
       In (TestStep.step_id s)
          (TestState.completed_steps (run evaluation iterations st)))
      /\ (passed = false ->
          In (TestStep.step_id s)
             (TestState.failed_steps (run evaluation iterations st))
          /\ (TestStep.optional s = false ->
              forall id, In id (transitive_dependents plan (TestStep.step_id s)) ->
                In id (TestState.skipped_steps (run evaluation iterations st)))).
Proof.
  induction iterations as [|iterations IH]; intros st Hplan s passed Hin;
    simpl in *.
  - contradiction.
  - destruct (next_runnable st) as [s0|] eqn:Hnext; [|contradiction].
    destruct Hin as [Heq|Hin].
    + injection Heq as -> <-.
      destruct (execute_step_records st s) as (Hpass & Hfail).
      rewrite Hplan in Hfail.
      split.
      * intros H. apply run_grows. auto.
      * intros H. destruct (Hfail H) as (Hf & Hskip). split.
        -- apply run_grows. exact Hf.
        -- intros Hreq id Hid. apply run_grows. auto.
    + apply IH; [|exact Hin]. now rewrite execute_step_plan.
Qed.

(** In a state whose collections are pairwise disjoint, the collection
    that holds an identity is the only one. *)
Lemma one_category (st : TestState.t) (id : UUID) :
  pairwise_disjoint st ->
  (In id (TestState.completed_steps st) ->
   categories st id = 1%nat /\ category st id = Some COMPLETED)
  /\ (In id (TestState.failed_steps st) ->
      categories st id = 1%nat /\ category st id = Some FAILED)
  /\ (In id (TestState.skipped_steps st) ->
      categories st id = 1%nat /\ category st id = Some SKIPPED).
Proof.
  intros (Hcf & Hcs & Hfs). unfold categories, category.
  destruct (mem id (TestState.completed_steps st)) eqn:Ec;
    destruct (mem id (TestState.failed_steps st)) eqn:Ef;
    destruct (mem id (TestState.skipped_steps st)) eqn:Es;
    repeat match goal with
           | H : mem _ _ = true |- _ => apply mem_In in H
           | H : mem _ _ = false |- _ => apply mem_not_In in H
           end;
    simpl; repeat split; intros;
    try reflexivity; try contradiction; exfalso; eauto.
Qed.

End CoordinatorFacts.

(** C1, as the model of the coordinator has it: at every point of a
    test run over a plan in which no two steps share an identity,
    [completed_steps], [failed_steps] and [skipped_steps] are pairwise
    disjoint, and every step that has reached a terminal state is in
    exactly one of them, the one its outcome names: a step that was
    executed and passed is completed, one that was executed and failed is
    failed, and every step the failure of a required step blocks is
    skipped (a blocked step is entered as skipped). *)
Theorem run_keeps_outcomes_disjoint :
  forall (evaluation : TestStep.t -> nat -> bool) (plan : TestPlan.t)
         (iterations : nat),
    Coordinator.unique_ids plan ->
    Coordinator.pairwise_disjoint
      (Coordinator.run evaluation iterations (TestState.init plan))
    /\ (forall s passed,
          In (s, passed)
             (Coordinator.executed evaluation iterations (TestState.init plan)) ->
          Coordinator.categories
            (Coordinator.run evaluation iterations (TestState.init plan))
            (TestStep.step_id s) = 1%nat
          /\ Coordinator.category
               (Coordinator.run evaluation iterations (TestState.init plan))
               (TestStep.step_id s)
             = Some (if passed then COMPLETED else FAILED))
    /\ (forall s blocked,
          In (s, false)
             (Coordinator.executed evaluation iterations (TestState.init plan)) ->
          TestStep.optional s = false ->
          In blocked (Coordinator.transitive_dependents plan (TestStep.step_id s)) ->
          Coordinator.categories
            (Coordinator.run evaluation iterations (TestState.init plan))
            blocked = 1%nat
          /\ Coordinator.category
               (Coordinator.run evaluation iterations (TestState.init plan))
               blocked
             = Some SKIPPED).
Proof.
  intros evaluation plan iterations Huniq.
  destruct (run_invariant_kept evaluation plan iterations Huniq
              (TestState.init plan) (run_invariant_init plan))
    as (_ & Hdisj & _).
  split; [exact Hdisj|]. split.
  - intros s passed Hin.
    destruct (executed_recorded evaluation plan iterations (TestState.init plan)
                eq_refl s passed Hin) as (Hpass & Hfail).
    destruct (one_category _ (TestStep.step_id s) Hdisj) as (Hc & Hf & _).
    destruct passed.
    + apply Hc, Hpass. reflexivity.
    + apply Hf, Hfail. reflexivity.
  - intros s blocked Hin Hreq Hblocked.
    destruct (executed_recorded evaluation plan iterations (TestState.init plan)
                eq_refl s false Hin) as (_ & Hfail).
    destruct (Hfail eq_refl) as (_ & Hskip).
    destruct (one_category _ blocked Hdisj) as (_ & _ & Hs).
    apply Hs, Hskip; assumption.
Qed.

Lemma run_keeps_outcomes_disjoint_witness :
  Coordinator.pairwise_disjoint (Coordinator.execute_plan step_1_fails scenario_A)
  /\ TestState.completed_steps (Coordinator.execute_plan step_1_fails scenario_A)
     = [2%N]
  /\ TestState.failed_steps (Coordinator.execute_plan step_1_fails scenario_A)
     = [1%N]
  /\ TestState.skipped_steps (Coordinator.execute_plan step_1_fails scenario_A)
     = [3%N].
Proof.
  split.
  - apply (proj1 (run_keeps_outcomes_disjoint step_1_fails scenario_A 3%nat
                    ltac:(unfold Coordinator.unique_ids; simpl;
                          repeat constructor; simpl; intuition discriminate))).
  - repeat split; reflexivity.
Defined.

(** C1, as the claim states it, fails: in the plan whose third step
    carries the identity of the first and depends on the second, the
    first step completes, the second fails and blocks the third, and the
    identity of the first and third is both completed and skipped. *)
Lemma run_overlaps_on_shared_identity :
  TestState.completed_steps
    (Coordinator.execute_plan step_2_fails shared_identity_plan) = [1%N]
  /\ TestState.failed_steps
       (Coordinator.execute_plan step_2_fails shared_identity_plan) = [2%N]
  /\ TestState.skipped_steps
       (Coordinator.execute_plan step_2_fails shared_identity_plan) = [1%N]
  /\ ~ Coordinator.pairwise_disjoint
         (Coordinator.execute_plan step_2_fails shared_identity_plan).
Proof.
  split; [reflexivity|]. split; [reflexivity|]. split; [reflexivity|].
  intros (_ & H & _). apply (H 1%N); simpl; auto.
Qed.
(** ** The enums and the other models of [core.types] *)

Lemma enum_by_value_sound {E : Type} (members : list E) (value : E -> string)
    (s : string) (m : E) :
  enum_by_value members value s = Some m -> value m = s /\ In m members.
Proof.
  unfold enum_by_value. intros H. apply find_some in H.
  destruct H as (Hin & Heq). apply String.eqb_eq in Heq. auto.
Qed.

(** X1: in each of the five str enums, looking a member up by its value
    gives that member back, so no two members share a value and none is
    an alias; and a lookup that succeeds returns a member with the value
    asked for. *)
Theorem enums_round_trip_by_value :
  (forall m, enum_by_value TestStatus_members TestStatus_value
               (TestStatus_value m) = Some m)
  /\ (forall m, enum_by_value ActionType_members ActionType_value
                  (ActionType_value m) = Some m)
  /\ (forall m, enum_by_value ConfidenceLevel_members ConfidenceLevel_value
                  (ConfidenceLevel_value m) = Some m)
  /\ (forall m, enum_by_value ScrollDirection_members ScrollDirection_value
                  (ScrollDirection_value m) = Some m)
  /\ (forall m, enum_by_value VisibilityStatus_members VisibilityStatus_value
                  (VisibilityStatus_value m) = Some m)
  /\ (forall s m, enum_by_value TestStatus_members TestStatus_value s = Some m ->
                  TestStatus_value m = s)
  /\ (forall s m, enum_by_value ActionType_members ActionType_value s = Some m ->
                  ActionType_value m = s)
  /\ (forall s m, enum_by_value ConfidenceLevel_members ConfidenceLevel_value s
                  = Some m -> ConfidenceLevel_value m = s)
  /\ (forall s m, enum_by_value ScrollDirection_members ScrollDirection_value s
                  = Some m -> ScrollDirection_value m = s)
  /\ (forall s m, enum_by_value VisibilityStatus_members VisibilityStatus_value s
                  = Some m -> VisibilityStatus_value m = s).
Proof.
  repeat split;
    try (intros m; destruct m; reflexivity);
    intros s m H; apply (enum_by_value_sound _ _ _ _ H).
Qed.

Lemma enums_round_trip_by_value_witness :
  TestStatus_value COMPLETED = "completed"
  /\ enum_by_value ActionType_members ActionType_value "scroll_to_top"
     = Some SCROLL_TO_TOP.
Proof.
  destruct enums_round_trip_by_value
    as (_ & Haction & _ & _ & _ & Hstatus & _).
  split.
  - apply (Hstatus "completed" COMPLETED). reflexivity.
  - exact (Haction SCROLL_TO_TOP).
Defined.

Lemma check_confidence_spec {A : Type} (field : string) (x : float) (a : A) :
  (within_unit x -> check_confidence field x a = Valid a)
  /\ (~ within_unit x -> check_confidence field x a = ValidationError [field]).
Proof.
  unfold check_confidence, refused_fields. simpl.
  destruct (ge_le_unit x) eqn:E; simpl.
  - apply ge_le_unit_spec in E. split; [reflexivity | tauto].
  - split; [|reflexivity].
    intros H. apply ge_le_unit_spec in H. congruence.
Qed.

(** X2: [ActionResult], [EvaluationResult], [ExecutionJournal] and
    [VisibilityResult] are constructed exactly when their confidence
    field is within [0.0, 1.0]: a confidence within the range gives the
    instance with the arguments and the defaults as its fields, the
    confidence passed among them, and a confidence outside the range (a
    NaN too) is refused with that one field named. *)
Theorem models_confidence_bounds :
  (forall uuid4 now id ok action shot ms err conf ts,
      within_unit conf ->
      ActionResult.init uuid4 now id ok action shot ms err conf ts
      = Valid (ActionResult.make (field_default uuid4 id) ok action shot ms err
                                 conf (field_default now ts)))
  /\ (forall uuid4 now id ok action shot ms err conf ts,
      ~ within_unit conf ->
      ActionResult.init uuid4 now id ok action shot ms err conf ts
      = ValidationError ["confidence"])
  /\ (forall id ok conf expected actual dev sug shot,
      within_unit conf ->
      EvaluationResult.init id ok conf expected actual dev sug shot
      = Valid (EvaluationResult.make id ok conf expected actual
                                     (field_default [] dev)
                                     (field_default [] sug) shot))
  /\ (forall id ok conf expected actual dev sug shot,
      ~ within_unit conf ->
      EvaluationResult.init id ok conf expected actual dev sug shot
      = ValidationError ["confidence"])
  /\ (forall now ts sc ref act grid expected actual conf before after ms ok cmd,
      within_unit conf ->
      ExecutionJournal.init now ts sc ref act grid expected actual conf before
                            after ms ok cmd
      = Valid (ExecutionJournal.make (field_default now ts) sc ref act grid
                                     expected actual conf before after ms ok
                                     cmd))
  /\ (forall now ts sc ref act grid expected actual conf before after ms ok cmd,
      ~ within_unit conf ->
      ExecutionJournal.init now ts sc ref act grid expected actual conf before
                            after ms ok cmd
      = ValidationError ["agent_confidence"])
  /\ (forall status coords pct dir conf notes,
      within_unit (field_default 0%float conf) ->
      VisibilityResult_init status coords pct dir conf notes
      = Valid (VisibilityResult.make status coords pct dir
                                     (field_default 0%float conf)
                                     (field_default "" notes)))
  /\ (forall status coords pct dir conf notes,
      ~ within_unit (field_default 0%float conf) ->
      VisibilityResult_init status coords pct dir conf notes
      = ValidationError ["direction_confidence"]).
Proof.
  repeat match goal with
         | |- _ /\ _ => split
         end;
    intros; apply check_confidence_spec; assumption.
Qed.

Lemma models_confidence_bounds_witness :
  EvaluationResult.init 7%N true 0.75%float "shown" "shown" None None None
  = Valid (EvaluationResult.make 7%N true 0.75%float "shown" "shown" [] [] None)
  /\ VisibilityResult_init NOT_VISIBLE None None (Some DOWN) (Some 1.5%float) None
     = ValidationError ["direction_confidence"].
Proof.
  destruct models_confidence_bounds
    as (_ & _ & Heval & _ & _ & _ & _ & Hvis).
  split.
  - apply (Heval 7%N true 0.75%float "shown" "shown" None None None).
    split; reflexivity.
  - apply Hvis. intros [_ H]. vm_compute in H. discriminate H.
Defined.

(** ** More about [run_test] *)

(** X3: when and how often [run_test] releases.  [coordinator.cleanup()]
    is called once if the coordinator was constructed and never
    otherwise; [browser_controller.stop()] is called once if the
    controller was constructed and the cleanup, where there was a
    coordinator, returned, and never otherwise.  In particular a failure
    before the controller exists releases nothing. *)
Theorem run_test_release_characterisation :
  forall (a : run_args) (w : collaborators),
    (cleanups (fst (run_test a w)) = 1%nat <-> coordinator_constructed w)
    /\ (cleanups (fst (run_test a w)) = 0%nat <-> ~ coordinator_constructed w)
    /\ (releases (fst (run_test a w)) = 1%nat <-> stop_reached w)
    /\ (releases (fst (run_test a w)) = 0%nat <-> ~ stop_reached w).
Proof.
  intros a w.
  destruct (releases_of_release_calls (fst (run_test a w))) as (-> & ->).
  rewrite run_test_release_calls.
  assert (Hsub : coordinator_constructed w -> controller_constructed w)
    by (intros (H & _); exact H).
  unfold stop_reached.
  destruct (release_cases a w)
    as [(Hn & -> & _)|[(Hb & Hn & -> & _)|[(Hc & (e & He & _) & ->)|(Hc & Hcl & -> & _)]]];
    unfold releases, cleanups; simpl.
  - intuition discriminate.
  - intuition discriminate.
  - rewrite He. simpl. intuition discriminate.
  - intuition discriminate.
Qed.

Lemma run_test_release_characterisation_witness :
  releases (fst (run_test (default_args "log in" "https://example.test")
                          cleanup_raises)) = 0%nat.
Proof.
  apply (proj2 (proj2 (proj2 (run_test_release_characterisation
                                (default_args "log in" "https://example.test")
                                cleanup_raises)))).
  intros (_ & H). apply H. unfold coordinator_constructed, controller_constructed.
  simpl. tauto.
Defined.

(** X4: what leaves [run_test] as an exception.  [run_test] raises [e]
    exactly when [coordinator.cleanup()] was called and raised [e]
    (whatever the [try] statement had returned or raised), or
    [browser_controller.stop()] was reached and raised [e], or both
    returned where they were called and either the [try] block raised
    [e], an exception that is no [Exception] (a cancellation, say), or
    it raised an [Exception] and the handler that caught it raised [e],
    from printing the error line or else from logging it. *)
Theorem run_test_raises_iff :
  forall (a : run_args) (w : collaborators) (e : exn),
    snd (run_test a w) = Raise e <->
    (coordinator_constructed w /\ coordinator_cleanup w = Raise e)
    \/ (stop_reached w /\ browser_controller_stop w = Raise e)
    \/ ((coordinator_constructed w -> returns (coordinator_cleanup w))
        /\ (stop_reached w -> returns (browser_controller_stop w))
        /\ ((exists name, e = BaseException name) /\ try_outcome a w = Raise e
            \/ (exists name, try_outcome a w = Raise (Exception name))
               /\ handler_raises w e)).
Proof.
  intros a w e. rewrite run_test_parts. simpl.
  assert (Hsub : coordinator_constructed w -> controller_constructed w)
    by (intros (H & _); exact H).
  assert (Hhandled :
            snd (handler a w) = Raise e <->
            ((exists name, e = BaseException name) /\ try_outcome a w = Raise e
             \/ (exists name, try_outcome a w = Raise (Exception name))
                /\ handler_raises w e)).
  { rewrite handler_outcome. unfold handler_raises, returns.
    destruct (try_outcome a w) as [code|[| |name|name]].
    - split; [discriminate|].
      intros [(_ & H)|((n & H) & _)]; discriminate H.
    - split; [discriminate|].
      intros [((n & ->) & H)|((n & H) & _)]; discriminate H.
    - split; [discriminate|].
      intros [((n & ->) & H)|((n & H) & _)]; discriminate H.
    - destruct (print_error_during_execution w) as [[]|e1].
      + destruct (logger_exception w) as [[]|e2].
        * split; [discriminate|].
          intros [((n & ->) & H)|(_ & [H|(_ & H)])]; discriminate H.
        * split.
          -- intros H. injection H as ->. right. split; [eauto|]. right. auto.
          -- intros [((n & ->) & H)|(_ & [H|(_ & H)])];
               [discriminate H | discriminate H | congruence].
      + split.
        * intros H. injection H as ->. right. split; [eauto|]. left. reflexivity.
        * intros [((n & ->) & H)|(_ & [H|(H & _)])];
            [discriminate H | congruence | contradiction].
    - split.
      + intros H. injection H as <-. left. split; [eauto | reflexivity].
      + intros [(_ & H)|((n & H) & _)]; [exact H | discriminate H]. }
  unfold stop_reached.
  destruct (release_cases a w)
    as [(Hn & _ & ->)|[(Hb & Hn & _ & ->)|[(Hc & (e' & He & ->) & _)|(Hc & Hcl & _ & ->)]]].
  - rewrite Hhandled. clear Hhandled. intuition.
  - destruct (browser_controller_stop w) as [[]|est]; simpl.
    + rewrite Hhandled. clear Hhandled. intuition (try discriminate).
    + clear Hhandled. split.
      * intros H. injection H as ->. right. left.
        split; [|reflexivity]. split; [exact Hb | intros H; contradiction].
      * intros [(H & _)|[(_ & H)|(_ & H & _)]].
        -- contradiction.
        -- congruence.
        -- exfalso. apply H. split; [exact Hb | intros H'; contradiction].
  - clear Hhandled. rewrite He. simpl. split.
    + intros H. injection H as ->. left. split; [exact Hc | reflexivity].
    + intros [(_ & H)|[((_ & H) & _)|(H & _)]];
        [congruence | exfalso; exact (H Hc) | exfalso; exact (H Hc)].
  - destruct (coordinator_cleanup w) as [[]|ecl]; [|contradiction].
    destruct (browser_controller_stop w) as [[]|est]; simpl.
    + rewrite Hhandled. clear Hhandled. intuition (try discriminate).
    + clear Hhandled. split.
      * intros H. injection H as ->. right. left.
        split; [|reflexivity]. split; [exact (Hsub Hc) | intros _; exact I].
      * intros [(_ & H)|[(_ & H)|(_ & H & _)]].
        -- discriminate H.
        -- congruence.
        -- exfalso. apply H. split; [exact (Hsub Hc) | intros _; exact I].
Qed.

Lemma run_test_raises_iff_witness :
  snd (run_test (default_args "log in" "https://example.test") cleanup_raises)
  = Raise (Exception "RuntimeError").
Proof.
  apply (proj2 (run_test_raises_iff (default_args "log in" "https://example.test")
                                    cleanup_raises (Exception "RuntimeError"))).
  left. unfold coordinator_constructed, controller_constructed. simpl. tauto.
Defined.

Lemma filter_none {A : Type} (p : A -> bool) (xs : list A) :
  filter p xs = [] -> filter (fun x => negb (p x)) xs = xs.
Proof.
  induction xs as [|x xs IH]; simpl; [reflexivity|].
  destruct (p x); simpl; [discriminate|].
  intros H. now rewrite IH.
Qed.

(** X5: in every run, everything else happens before the release calls:
    the trace is its other events followed by its release calls, and
    these are nothing, the cleanup, the stop, or the cleanup followed by
    the stop. *)
Theorem run_test_releases_come_last :
  forall (a : run_args) (w : collaborators),
    fst (run_test a w)
    = (filter (fun ev => negb (is_release ev)) (fst (run_test a w))
       ++ filter is_release (fst (run_test a w)))%list
    /\ (filter is_release (fst (run_test a w)) = []
        \/ filter is_release (fst (run_test a w)) = [Called CoordinatorCleanup]
        \/ filter is_release (fst (run_test a w)) = [Called BrowserStop]
        \/ filter is_release (fst (run_test a w))
           = [Called CoordinatorCleanup; Called BrowserStop]).
Proof.
  intros a w. rewrite run_test_release_calls. split.
  - rewrite run_test_parts. simpl.
    rewrite !filter_app.
    rewrite (filter_none _ _ (try_frame_no_release a w)).
    rewrite (filter_none _ _ (handler_no_release a w)).
    destruct (release_cases a w)
      as [(_ & -> & _)|[(_ & _ & -> & _)|[(_ & _ & ->)|(_ & _ & -> & _)]]];
      simpl; rewrite ?app_nil_r, <- ?app_assoc; reflexivity.
  - destruct (release_cases a w)
      as [(_ & -> & _)|[(_ & _ & -> & _)|[(_ & _ & ->)|(_ & _ & -> & _)]]];
      auto.
Qed.




(** X7: when the run has a positive timeout, the coordinator hands back
    a [TestState] of [core.types] within it, and every other call
    returns, the prints of data included, [run_test] returns 0 if the
    state's status is [COMPLETED] and 1 for each of the five other
    statuses: the comparison of the str enum with "completed" singles out
    that one member. *)
Theorem run_test_core_status :
  forall (a : run_args) (w : collaborators) (s : TestState.t),
    plan_only a = false ->
    setup_succeeds w ->
    returns (print_executing_test w) ->
    reporting_succeeds w ->
    returns (coordinator_cleanup w) ->
    returns (browser_controller_stop w) ->
    0 < timeout a ->
    elapsed (coordinator_execute_test_from_requirements w) <= timeout a ->
    result (coordinator_execute_test_from_requirements w) = Ok (of_TestState s) ->
    snd (run_test a w) = Ok (code_of_status (TestState.status s))
    /\ (snd (run_test a w) = Ok 0 <-> TestState.status s = COMPLETED).
Proof.
  intros a w s Hpo Hsetup Hpx Hreport Hcl Hst Hpos Hintime Hres.
  assert (Hfin : execution_finishes a w (of_TestState s)).
  { split; [exact Hpo|]. split; [exact Hsetup|]. split; [exact Hpx|].
    rewrite wait_for_in_time by assumption. exact Hres. }
  assert (Htry : try_outcome a w
                 = Ok (if String.eqb (TestStatus_value (TestState.status s))
                                     "completed" then 0 else 1)).
  { apply try_outcome_returns. right.
    exists (of_TestState s), (TestStatus_value (TestState.status s)).
    split; [exact Hfin|]. split; [exact Hreport|].
    split; reflexivity. }
  assert (Hrun : snd (run_test a w)
                 = Ok (if String.eqb (TestStatus_value (TestState.status s))
                                     "completed" then 0 else 1)).
  { rewrite run_test_parts. simpl. rewrite handler_outcome, Htry.
    destruct (release_cases a w)
      as [(_ & _ & ->)|[(_ & _ & _ & ->)|[(_ & (e & He & _) & _)|(_ & _ & _ & ->)]]].
    - reflexivity.
    - destruct (browser_controller_stop w); [reflexivity | contradiction].
    - rewrite He in Hcl. contradiction.
    - destruct (browser_controller_stop w); [reflexivity | contradiction]. }
  rewrite Hrun. unfold code_of_status.
  destruct (TestState.status s); simpl;
    (split; [reflexivity|]); split; intros H;
    first [reflexivity | discriminate H].
Qed.

Lemma run_test_core_status_witness :
  snd (run_test (default_args "log in" "https://example.test")
                (smooth_run 10 (of_TestState failed_core_state)))
  = Ok 1.
Proof.
  apply (run_test_core_status (default_args "log in" "https://example.test")
                              (smooth_run 10 (of_TestState failed_core_state))
                              failed_core_state);
    try reflexivity; try exact I.
  - unfold setup_succeeds. simpl. tauto.
  - unfold reporting_succeeds. simpl. tauto.
  - simpl. lia.
Defined.

(** X8: whenever [run_test] returns, the exit code is 0, 1, 2 or 130. *)
Theorem run_test_exit_code_range :
  forall (a : run_args) (w : collaborators) (code : Z),
    snd (run_test a w) = Ok code ->
    code = 0 \/ code = 1 \/ code = 2 \/ code = 130.
Proof.
  intros a w code Hret.
  pose proof (run_test_code_of_try_outcome a w code Hret) as Hcode.
  destruct (try_outcome a w) as [c|[| |name|name]] eqn:T; auto.
  - subst c. apply try_outcome_returns in T.
    destruct T as [(-> & _)|(ts & s & _ & _ & _ & ->)]; auto.
    destruct (String.eqb s "completed"); auto.
  - contradiction.
Qed.

Lemma run_test_exit_code_range_witness :
  2 = 0 \/ 2 = 1 \/ 2 = 2 \/ 2 = 130.
Proof.
  apply (run_test_exit_code_range (default_args "log in" "https://example.test")
                                  (smooth_run 301 completed_state) 2).
  reflexivity.
Defined.
(** ** More about [load_scenario] *)

Lemma missing_fields_none (fields : list string) (v : json) :
  missing_fields fields v = Some [] <->
  forall f, In f fields -> py_in f v = Some true.
Proof.
  induction fields as [|f fields IH]; simpl.
  - split; [intros _ g [] | reflexivity].
  - destruct (py_in f v) as [[|]|] eqn:Hf.
    + destruct (missing_fields fields v) as [more|] eqn:Hm.
      * split.
        -- intros H. injection H as ->. intros g [<-|Hg]; [assumption|].
           now apply IH.
        -- intros H.
           assert (Hm' : Some more = Some []) by (apply IH; auto).
           exact Hm'.
      * split; [discriminate|].
        intros H.
        assert (Hm' : @None (list string) = Some []) by (apply IH; auto).
        discriminate Hm'.
    + split.
      * destruct (missing_fields fields v); discriminate.
      * intros H. specialize (H f (or_introl eq_refl)). congruence.
    + split; [discriminate|].
      intros H. specialize (H f (or_introl eq_refl)). congruence.
Qed.

(** [load_scenario] on a file that parses: the document comes back
    exactly when each required name is [in] it. *)
Lemma load_scenario_document (v : json) :
  load_scenario (Document v) = Scenario v <->
  forall f, In f required_fields -> py_in f v = Some true.
Proof.
  unfold load_scenario, load_scenario_try.
  rewrite <- missing_fields_none.
  destruct (missing_fields required_fields v) as [[|m ms]|];
    split; intros H; try discriminate H; reflexivity.
Qed.

(** X9: [load_scenario] returns a scenario only for a file that parses,
    returns the parsed document unchanged, and does so exactly when each
    of [name], [requirements] and [url] is [in] the document; when it
    ends in [sys.exit], the status is 1, never another; and an exception
    leaves it exactly when the file is missing or cannot be read and the
    print of the handler, which shows the path or the error, raises. *)
Theorem load_scenario_accepts_iff :
  forall (file : scenario_file),
    (forall v, load_scenario file = Scenario v <->
               file = Document v
               /\ forall f, In f required_fields -> py_in f v = Some true)
    /\ (forall code line, load_scenario file = SysExit code line -> code = 1)
    /\ (forall e, load_scenario file = Uncaught e <->
                  file = Missing (Raise e) \/ file = Unreadable (Raise e)).
Proof.
  intros file. split; [|split].
  - intros v. split.
    + intros H.
      destruct file as [[]|[]| |d]; try discriminate H.
      assert (d = v) as ->.
      { unfold load_scenario in H.
        destruct (load_scenario_try (Document d)) as [x|[]] eqn:T;
          try discriminate H.
        injection H as <-. unfold load_scenario_try in T.
        destruct (missing_fields required_fields d) as [[|m ms]|];
          try discriminate T. now injection T as <-. }
      split; [reflexivity | now apply load_scenario_document].
    + intros (-> & H). now apply load_scenario_document.
  - intros code line. unfold load_scenario.
    destruct (load_scenario_try file) as [x|x]; [discriminate|].
    destruct (handler_print file); intros H;
      first [discriminate H | now injection H as <- _].
  - intros e. split.
    + unfold load_scenario, load_scenario_try, handler_print.
      destruct file as [[u|raised]|[u|raised]| |d];
        try (destruct (missing_fields required_fields d) as [[|m ms]|]);
        intros H; try discriminate H; injection H as <-; auto.
    + intros [->| ->]; reflexivity.
Qed.

Lemma load_scenario_accepts_iff_witness :
  Document (JObject scenario_without_steps)
  = Document (JObject scenario_without_steps)
  /\ forall f, In f required_fields ->
               py_in f (JObject scenario_without_steps) = Some true.
Proof.
  apply (proj1 (proj1 (load_scenario_accepts_iff
                         (Document (JObject scenario_without_steps)))
                      (JObject scenario_without_steps))).
  reflexivity.
Defined.

Lemma json_eq_str_In (f : string) (items : list json) :
  existsb (json_eq_str f) items = true <-> In (JString f) items.
Proof.
  rewrite existsb_exists. split.
  - intros (v & Hin & Heq). destruct v; try discriminate Heq.
    simpl in Heq. apply String.eqb_eq in Heq. now subst.
  - intros H. exists (JString f). split; [assumption|].
    simpl. apply String.eqb_refl.
Qed.

(** X10: [load_scenario] does not check that the document is a record.
    A JSON list that holds the three names as strings is accepted, and so
    is a JSON string that contains the three names; null, a boolean and a
    number are refused, with the error line of a [TypeError]. *)
Theorem load_scenario_non_records :
  (forall items,
      In (JString "name") items -> In (JString "requirements") items ->
      In (JString "url") items ->
      load_scenario (Document (JArray items)) = Scenario (JArray items))
  /\ (forall s,
      str_contains "name" s = true -> str_contains "requirements" s = true ->
      str_contains "url" s = true ->
      load_scenario (Document (JString s)) = Scenario (JString s))
  /\ (forall v,
      match v with
      | JNull | JBool _ | JInt _ | JFloat _ =>
          load_scenario (Document v) = SysExit 1 (ErrorLoadingScenario TypeError)
      | _ => True
      end).
Proof.
  split; [|split].
  - intros items Hn Hr Hu.
    apply load_scenario_document.
    intros f [<-|[<-|[<-|[]]]]; simpl; f_equal; now apply json_eq_str_In.
  - intros s Hn Hr Hu.
    apply load_scenario_document.
    intros f [<-|[<-|[<-|[]]]]; simpl; f_equal; assumption.
  - intros v. destruct v; reflexivity || exact I.
Qed.

Lemma load_scenario_non_records_witness :
  load_scenario (Document (JArray [JString "url"; JString "name";
                                   JString "requirements"]))
  = Scenario (JArray [JString "url"; JString "name"; JString "requirements"]).
Proof.
  apply (proj1 load_scenario_non_records); simpl; auto.
Defined.

(** ** [test_api_connection] *)

(** [try ... except Exception] in general. *)
Lemma tcatch_outcome {L A : Type} (m : traced L A) (h : exn -> traced L A) :
  snd (tcatch m h)
  = match snd m with
    | Ok a => Ok a
    | Raise e => if is_Exception e then snd (h e) else Raise e
    end.
Proof.
  destruct m as [lines [a|e]]; simpl; [reflexivity|].
  destruct (is_Exception e); [|reflexivity].
  now destruct (h e).
Qed.

Lemma tcatch_trace {L A : Type} (m : traced L A) (h : exn -> traced L A) :
  fst (tcatch m h)
  = (fst m ++ match snd m with
              | Ok _ => []
              | Raise e => if is_Exception e then fst (h e) else []
              end)%list.
Proof.
  destruct m as [lines [a|e]]; simpl; [now rewrite app_nil_r|].
  destruct (is_Exception e); [|now rewrite app_nil_r].
  now destruct (h e).
Qed.

Lemma tbind_say_outcome {L A : Type} (l : L) (m : traced L A) :
  snd (tbind (tsay l) (fun _ => m)) = snd m
  /\ fst (tbind (tsay l) (fun _ => m)) = l :: fst m.
Proof.
  now destruct m.
Qed.

(** Every path through the [try] statement of [test_api_connection]. *)
Ltac api_success_paths pm pu tac :=
  match goal with
  | response : json |- _ =>
      destruct (py_getitem response "content") as [content|?] eqn:Hcontent;
      simpl; [ | tac ];
      destruct (py_contains api_marker content) as [[|]|?] eqn:Hfound;
      simpl; [ | tac | tac ];
      destruct (py_getitem response "model") as [model|?] eqn:Hmodel;
      simpl; [ | tac ];
      destruct pm as [?|?]; simpl; [ | tac ];
      destruct (py_getitem response "usage") as [usage|?] eqn:Husage;
      simpl; [ | tac ];
      destruct (py_getitem usage "total_tokens") as [tokens|?] eqn:Htokens;
      simpl; [ | tac ];
      destruct pu as [?|?]; simpl; [ | tac ];
      tac
  end.

Ltac api_paths imp ini call pm pu tac :=
  unfold test_api_try, tbind, tlift, tsay, tcall, tret; simpl;
  destruct imp as [?|?]; simpl; [ | tac ];
  destruct ini as [?|?]; simpl; [ | tac ];
  destruct call as [response|?]; simpl; [ | tac ];
  api_success_paths pm pu tac.

(** What the [try] statement returns. *)
Lemma test_api_try_returns (w : api_collaborators) :
  (snd (test_api_try w) = Ok 0 <-> api_answers_well w)
  /\ (forall code, snd (test_api_try w) = Ok code -> code = 0 \/ code = 1).
Proof.
  destruct w as [imp ini call pm pu pf].
  unfold api_answers_well, api_responds. simpl.
  api_paths imp ini call pm pu
    ltac:(split;
          [ split;
            [ intros H;
              first [ discriminate H
                    | split; [exact I|]; split; [exact I|];
                      do 5 eexists; repeat split;
                      first [reflexivity | eassumption] ]
            | intros (H3 & H4
                      & (r & c & m & us & tk
                         & (H1 & H2 & E1)
                         & E2 & E3 & E4 & E5 & E6));
              simpl in *;
              try contradiction; try discriminate;
              try (injection E1 as <-);
              try congruence;
              try (rewrite Hcontent in E2; injection E2 as <-);
              try congruence;
              try (rewrite Husage in E5; injection E5 as <-); congruence ]
          | intros code H; first [discriminate H | injection H as <-; auto] ]).
Qed.

(** X11: [test_api_connection] returns 0 exactly when the client was
    imported and constructed, the call returned, the response's
    [content] contains the marker, the response has a [model] and a
    [usage] with [total_tokens], and the two lines that show them were
    printed; it returns nothing but 0 and 1; and an exception leaves it
    only if no [except Exception] catches it, or if it is what printing
    the failure line raised, in the handler. *)
Theorem test_api_connection_codes :
  forall w : api_collaborators,
    (snd (test_api_connection w) = Ok 0 <-> api_answers_well w)
    /\ (forall code, snd (test_api_connection w) = Ok code ->
                     code = 0 \/ code = 1)
    /\ (forall e, snd (test_api_connection w) = Raise e ->
                  (is_Exception e = false /\ snd (test_api_try w) = Raise e)
                  \/ ((exists caught, snd (test_api_try w) = Raise caught
                                      /\ is_Exception caught = true)
                      /\ print_api_test_failed w = Raise e)).
Proof.
  intros w.
  destruct (test_api_try_returns w) as (Hzero & Hcodes).
  unfold test_api_connection.
  destruct (tbind_say_outcome TestingConnection
              (tcatch (test_api_try w) (api_test_failed w))) as (-> & _).
  rewrite tcatch_outcome.
  unfold api_test_failed, tbind, tcall, tsay, tret.
  destruct (snd (test_api_try w)) as [code|caught] eqn:Htry.
  - split; [exact Hzero|]. split; [exact Hcodes | discriminate].
  - destruct (is_Exception caught) eqn:Hcaught.
    + destruct (print_api_test_failed w) as [[]|raised]; simpl.
      * split; [|split].
        -- rewrite <- Hzero. split; discriminate.
        -- intros code H. injection H as <-. auto.
        -- discriminate.
      * split; [|split].
        -- rewrite <- Hzero. split; discriminate.
        -- discriminate.
        -- intros e H. injection H as <-. right. split; [eauto | reflexivity].
    + split; [|split].
      * rewrite <- Hzero. split; discriminate.
      * discriminate.
      * intros e H. injection H as <-. left. auto.
Qed.

Lemma test_api_connection_codes_witness :
  snd (test_api_connection (answering full_response)) = Ok 0.
Proof.
  apply (proj1 (test_api_connection_codes (answering full_response))).
  unfold api_answers_well, api_responds. simpl. repeat split.
  exists full_response, (JString "API test successful"), (JString "gpt-4o-mini"),
    (JObject [("total_tokens", JInt 12)]), (JInt 12).
  repeat split; reflexivity.
Defined.

Lemma py_getitem_raises_Exception (obj : json) (key : string) (e : exn) :
  py_getitem obj key = Raise e -> is_Exception e = true.
Proof.
  unfold py_getitem. destruct obj; try (intros H; injection H as <-; reflexivity).
  destruct (dict_get key members); intros H;
    [discriminate H | injection H as <-; reflexivity].
Qed.

(** X12: success and failure in one run.  Whenever the line of success
    was printed and an [Exception] is raised after it, [test_api_connection]
    goes on to the line of failure and, if that line can be printed,
    returns 1; and a response of the API whose [content] contains the
    marker but that has no [model] is such a case. *)
Theorem test_api_connection_success_then_failure :
  forall (w : api_collaborators) (e : exn),
    (In ConnectionSuccessful (fst (test_api_try w)) ->
     snd (test_api_try w) = Raise e ->
     is_Exception e = true ->
     returns (print_api_test_failed w) ->
     snd (test_api_connection w) = Ok 1
     /\ exists before between,
         fst (test_api_connection w)
         = (before ++ ConnectionSuccessful :: between
            ++ [ApiTestFailed e; PleaseCheck])%list)
    /\ (forall response content,
          api_responds w response ->
          py_getitem response "content" = Ok content ->
          py_contains api_marker content = Ok true ->
          py_getitem response "model" = Raise e ->
          In ConnectionSuccessful (fst (test_api_try w))
          /\ snd (test_api_try w) = Raise e
          /\ is_Exception e = true).
Proof.
  intros w e. split.
  - intros Hin Hraise Hexc Hprint.
    unfold test_api_connection.
    destruct (tbind_say_outcome TestingConnection
                (tcatch (test_api_try w) (api_test_failed w))) as (-> & ->).
    rewrite tcatch_outcome, tcatch_trace, Hraise, Hexc.
    unfold api_test_failed, tbind, tcall, tsay, tret.
    destruct (print_api_test_failed w) as [[]|]; [|contradiction]. simpl.
    split; [reflexivity|].
    apply in_split in Hin. destruct Hin as (l1 & l2 & ->).
    exists (TestingConnection :: l1), l2.
    simpl. now rewrite <- app_assoc.
  - intros response content (Himp & Hini & Hcall) Hcontent Hfound Hmodel.
    destruct w as [imp ini call pm pu pf]. simpl in *.
    destruct imp; [|contradiction]. destruct ini; [|contradiction].
    subst call.
    unfold test_api_try, tbind, tlift, tsay, tcall, tret. simpl.
    rewrite Hcontent. simpl. rewrite Hfound. simpl. rewrite Hmodel. simpl.
    split; [auto|]. split; [reflexivity|].
    exact (py_getitem_raises_Exception _ _ _ Hmodel).
Qed.

Lemma test_api_connection_success_then_failure_witness :
  snd (test_api_connection (answering response_without_model)) = Ok 1.
Proof.
  destruct (test_api_connection_success_then_failure
              (answering response_without_model) (Exception "KeyError"))
    as (Hthen & Hcase).
  destruct (Hcase response_without_model (JString "API test successful")
                  (conj I (conj I eq_refl))
                  eq_refl eq_refl eq_refl)
    as (Hin & Hraise & Hexc).
  exact (proj1 (Hthen Hin Hraise Hexc I)).
Defined.
(** ** [get_interactive_requirements] *)

Lemma read_lines_app (stdin : list keyboard) :
  forall (n : nat) (lines : list string),
    read_lines stdin n lines = (lines ++ lines_from stdin n)%list.
Proof.
  unfold read_lines.
  induction stdin as [|k stdin IH]; intros n lines; simpl.
  - now rewrite app_nil_r.
  - destruct k as [line|e]; [|simpl; now rewrite app_nil_r].
    destruct (String.eqb line "").
    + destruct n as [|n]; simpl.
      * rewrite IH, <- app_assoc. reflexivity.
      * now rewrite app_nil_r.
    + rewrite IH, <- app_assoc. reflexivity.
Qed.

(** The exception that ends the loop is one that its [except] clause
    does not catch. *)
Lemma input_loop_raises (stdin : list keyboard) :
  forall (n : nat) (lines : list string) (e : exn),
    snd (input_loop stdin n lines) = Some e -> ends_input e = false.
Proof.
  induction stdin as [|k stdin IH]; intros n lines e; simpl.
  - discriminate.
  - destruct k as [line|e'].
    + destruct (String.eqb line "").
      * destruct n as [|n]; simpl; [apply IH | discriminate].
      * apply IH.
    + simpl. destruct (ends_input e') eqn:E; [discriminate|].
      intros H. now injection H as <-.
Qed.

Lemma has_blank_pair_cons_text (line : string) (lines : list string) :
  String.eqb line "" = false ->
  has_blank_pair (line :: lines) = has_blank_pair lines.
Proof.
  intros H. destruct lines as [|b lines]; simpl; [reflexivity|].
  now rewrite H.
Qed.

Lemma has_blank_pair_cons2 (a b : string) (lines : list string) :
  has_blank_pair (a :: b :: lines)
  = (String.eqb a "" && String.eqb b "" || has_blank_pair (b :: lines))%bool.
Proof. reflexivity. Qed.

Lemma lines_from_spec (stdin : list keyboard) :
  forall n : nat,
    (exists rest, typed_lines stdin = (lines_from stdin n ++ rest)%list)
    /\ has_blank_pair (match n with
                       | O => lines_from stdin n
                       | S _ => "" :: lines_from stdin n
                       end) = false
    /\ (lines_from stdin n = typed_lines stdin
        \/ exists rest,
            typed_lines stdin = (lines_from stdin n ++ "" :: rest)%list
            /\ (match n with O => False | S _ => lines_from stdin n = [] end
                \/ exists pre, lines_from stdin n = (pre ++ [""])%list)).
Proof.
  induction stdin as [|k stdin IH]; intros n.
  - simpl. split; [exists []; reflexivity|]. split; [now destruct n | now left].
  - destruct k as [line|e];
      [|simpl; split; [exists []; reflexivity|];
        split; [now destruct n | now left]].
    simpl. destruct (String.eqb line "") eqn:Hline.
    + apply String.eqb_eq in Hline. subst line.
      destruct n as [|n]; simpl.
      * destruct (IH 1%nat) as ((rest & Hrest) & Hpair & Hstop).
        split; [exists rest; now rewrite Hrest|]. split; [exact Hpair|].
        destruct Hstop as [Hall|(r & Hr & Hend)].
        -- left. now rewrite Hall.
        -- right. exists r. split; [now rewrite Hr|]. right.
           destruct Hend as [Hnil|(pre & Hpre)].
           ++ exists []. now rewrite Hnil.
           ++ exists ("" :: pre). now rewrite Hpre.
      * split; [eexists; reflexivity|]. split; [reflexivity|].
        right. exists (typed_lines stdin). split; [reflexivity | now left].
    + destruct (IH 0%nat) as ((rest & Hrest) & Hpair & Hstop).
      split; [exists rest; now rewrite Hrest|]. split.
      * destruct n as [|n].
        -- now rewrite has_blank_pair_cons_text.
        -- rewrite has_blank_pair_cons2, Hline, andb_false_r, orb_false_l.
           now rewrite has_blank_pair_cons_text.
      * destruct Hstop as [Hall|(r & Hr & [[]|(pre & Hpre)])].
        -- left. now rewrite Hall.
        -- right. exists r. split; [now rewrite Hr|]. right.
           exists (line :: pre). now rewrite Hpre.
Qed.

(** X13: the input loop of [get_interactive_requirements] collects the
    lines as they were typed, up to the end of the input, an interrupt,
    or the second of two blank lines in a row, whichever comes first: the
    lines collected are a prefix of the lines typed, no two blank lines
    in a row are among them (a single blank line is kept), and when
    lines are left over, the collected ones end with a blank line and the
    first one left over is blank. *)
Theorem read_lines_until_two_blank_lines :
  forall stdin : list keyboard,
    (exists rest, typed_lines stdin = (read_lines stdin 0 [] ++ rest)%list)
    /\ has_blank_pair (read_lines stdin 0 []) = false
    /\ (read_lines stdin 0 [] = typed_lines stdin
        \/ exists pre rest,
            read_lines stdin 0 [] = (pre ++ [""])%list
            /\ typed_lines stdin = (read_lines stdin 0 [] ++ "" :: rest)%list).
Proof.
  intros stdin. rewrite read_lines_app. simpl.
  destruct (lines_from_spec stdin 0) as (Hprefix & Hpair & Hstop).
  split; [exact Hprefix|]. split; [exact Hpair|].
  destruct Hstop as [Hall|(rest & Hrest & [[]|(pre & Hpre)])].
  - now left.
  - right. exists pre, rest. auto.
Qed.

Lemma lstrip_empty (s : string) : lstrip s = "" <-> all_space s = true.
Proof.
  induction s as [|c s IH]; simpl.
  - tauto.
  - destruct (isspace c); simpl; [exact IH | split; discriminate].
Qed.

Lemma rstrip_empty (s : string) : rstrip s = "" <-> all_space s = true.
Proof.
  induction s as [|c s IH]; simpl.
  - tauto.
  - destruct (rstrip s) eqn:E.
    + destruct (isspace c); simpl.
      * split; [intros _; now apply IH | reflexivity].
      * split; discriminate.
    + split; [discriminate|].
      intros H. apply andb_true_iff in H. destruct H as (_ & H).
      apply IH in H. discriminate H.
Qed.

Lemma lstrip_keeps_space_free_head (s : string) :
  lstrip s = "" \/ exists c rest, lstrip s = String c rest /\ isspace c = false.
Proof.
  induction s as [|c s IH]; simpl.
  - now left.
  - destruct (isspace c) eqn:E; [exact IH|]. right. eauto.
Qed.

Lemma rstrip_head (c : ascii) (rest : string) :
  isspace c = false -> exists kept, rstrip (String c rest) = String c kept.
Proof.
  intros H. simpl. destruct (rstrip rest); rewrite ?H; eauto.
Qed.

Lemma rstrip_idempotent (s : string) : rstrip (rstrip s) = rstrip s.
Proof.
  induction s as [|c s IH]; simpl; [reflexivity|].
  destruct (rstrip s) as [|d kept] eqn:E.
  - destruct (isspace c) eqn:Hc; simpl; [reflexivity | now rewrite Hc].
  - simpl in IH. simpl. destruct (rstrip kept) eqn:E'.
    + destruct (isspace d); [discriminate IH|]. now rewrite IH.
    + now rewrite IH.
Qed.

Lemma py_strip_empty (s : string) : py_strip s = "" <-> all_space s = true.
Proof.
  unfold py_strip. rewrite rstrip_empty.
  destruct (lstrip_keeps_space_free_head s) as [H|(c & rest & H & Hc)].
  - rewrite H. simpl. apply lstrip_empty in H. rewrite H. tauto.
  - rewrite H. simpl. rewrite Hc. simpl.
    split; [discriminate|].
    intros Hall. apply lstrip_empty in Hall. congruence.
Qed.

Lemma py_strip_stripped (s : string) :
  lstrip (py_strip s) = py_strip s /\ rstrip (py_strip s) = py_strip s.
Proof.
  unfold py_strip. split; [|apply rstrip_idempotent].
  destruct (lstrip_keeps_space_free_head s) as [H|(c & rest & H & Hc)].
  - rewrite H. reflexivity.
  - rewrite H. destruct (rstrip_head c rest Hc) as (kept & ->).
    simpl. now rewrite Hc.
Qed.

Lemma all_space_app (a b : string) :
  all_space (a ++ b) = (all_space a && all_space b)%bool.
Proof.
  induction a as [|c a IH]; simpl; [reflexivity|].
  now rewrite IH, andb_assoc.
Qed.

Lemma all_space_join (lines : list string) :
  all_space (String.concat newline lines) = forallb all_space lines.
Proof.
  induction lines as [|l lines IH]; [reflexivity|].
  destruct lines as [|l' lines].
  - simpl. now rewrite andb_true_r.
  - change (String.concat newline (l :: l' :: lines))
      with (l ++ newline ++ String.concat newline (l' :: lines)).
    rewrite !all_space_app, IH. reflexivity.
Qed.

(** X14: [get_interactive_requirements] exits with status 1 exactly when
    the input loop ends without an exception and every collected line is
    white space only (no line at all included), and with no other status;
    the requirements it returns are the collected lines joined by
    newlines and stripped: not empty, without white space at either end,
    and the URL is the prompt's answer; an exception leaves it when
    [input()] raises one that is neither [EOFError] nor
    [KeyboardInterrupt], or when the prompt raises, and in no other
    case. *)
Theorem get_interactive_requirements_result :
  forall (stdin : list keyboard) (prompt_url : outcome string),
    (get_interactive_requirements stdin prompt_url = Exits 1 <->
     snd (input_loop stdin 0 []) = None
     /\ forallb all_space (read_lines stdin 0 []) = true)
    /\ (forall code, get_interactive_requirements stdin prompt_url = Exits code ->
                     code = 1)
    /\ (forall requirements url,
          get_interactive_requirements stdin prompt_url
          = Returns (requirements, url) ->
          prompt_url = Ok url
          /\ requirements
             = py_strip (String.concat newline (read_lines stdin 0 []))
          /\ requirements <> ""
          /\ lstrip requirements = requirements
          /\ rstrip requirements = requirements)
    /\ (forall e, get_interactive_requirements stdin prompt_url = Raises e <->
                  snd (input_loop stdin 0 []) = Some e
                  \/ (snd (input_loop stdin 0 []) = None
                      /\ forallb all_space (read_lines stdin 0 []) = false
                      /\ prompt_url = Raise e))
    /\ (forall e, snd (input_loop stdin 0 []) = Some e -> ends_input e = false).
Proof.
  intros stdin prompt_url.
  pose proof (input_loop_raises stdin 0 []) as Hraises.
  unfold get_interactive_requirements, read_lines in *.
  destruct (input_loop stdin 0 []) as [lines [raised|]]; simpl in *.
  - split; [split; [discriminate | intros (H & _); discriminate H]|].
    split; [discriminate|]. split; [discriminate|].
    split; [|exact Hraises].
    intros e. split.
    + intros H. injection H as <-. now left.
    + intros [H|(H & _)]; [now injection H as <- | discriminate H].
  - pose proof (all_space_join lines) as Hjoin.
    destruct (String.eqb (py_strip (String.concat newline lines)) "") eqn:E.
    + apply String.eqb_eq in E. apply py_strip_empty in E.
      rewrite Hjoin in E.
      split; [split; auto|].
      split; [intros code H; now injection H as <-|].
      split; [discriminate|].
      split; [|exact Hraises].
      intros e. split; [discriminate|].
      intros [H|(_ & H & _)]; [discriminate H | congruence].
    + apply String.eqb_neq in E.
      assert (Hn : forallb all_space lines = false).
      { destruct (forallb all_space lines) eqn:F; [|reflexivity].
        exfalso. apply E, py_strip_empty. congruence. }
      split.
      { split; [destruct prompt_url; discriminate|].
        intros (_ & H). congruence. }
      split; [destruct prompt_url; discriminate|].
      split.
      { destruct prompt_url as [url|e]; [|discriminate].
        intros r u H. injection H as <- <-.
        destruct (py_strip_stripped (String.concat newline lines)). auto. }
      split; [|exact Hraises].
      intros e. destruct prompt_url as [url|e'].
      * split; [discriminate|]. intros [H|(_ & _ & H)]; discriminate H.
      * split.
        -- intros H. injection H as <-. right. auto.
        -- intros [H|(_ & _ & H)]; [discriminate H | now injection H as <-].
Qed.

Lemma get_interactive_requirements_result_witness :
  get_interactive_requirements
    [Ok "  Log in as admin"; Ok ""; Ok "Check the dashboard "; Ok "";
     Ok ""; Ok "ignored"]
    (Ok "https://example.test")
  = Returns ("Log in as admin" ++ newline ++ newline ++ "Check the dashboard",
             "https://example.test")
  /\ Ok "https://example.test" = Ok "https://example.test".
Proof.
  split; [reflexivity|].
  apply (proj1 (proj2 (proj2 (get_interactive_requirements_result
           [Ok "  Log in as admin"; Ok ""; Ok "Check the dashboard ";
            Ok ""; Ok ""; Ok "ignored"]
           (Ok "https://example.test"))))
         ("Log in as admin" ++ newline ++ newline ++ "Check the dashboard")
         "https://example.test").
  reflexivity.
Defined.
(** ** [process_plan_file] *)

Lemma dict_get_has_field (key : string) (members : list (string * json)) :
  has_field key members = true <-> exists v, dict_get key members = Some v.
Proof.
  unfold has_field. induction members as [|[k v] members IH]; simpl.
  - split; [discriminate | intros (v & H); discriminate H].
  - destruct (dict_get key members) as [later|].
    + split; [eauto|]. intros _. apply orb_true_iff. right. apply IH. eauto.
    + destruct (String.eqb key k); simpl.
      * split; eauto.
      * rewrite IH. tauto.
Qed.

Lemma build_scenario_ok (file_path generated : string)
    (extracted scenario : list (string * json)) :
  build_scenario file_path generated extracted = Ok scenario ->
  exists url requirements,
    dict_get "url" extracted = Some url
    /\ dict_get "requirements" extracted = Some requirements
    /\ scenario
       = [("name", dict_get_default "name" (JString "Extracted Test") extracted);
          ("description",
           dict_get_default "description"
             (JString "Test extracted from document") extracted);
          ("url", url);
          ("requirements", requirements);
          ("expected_outcomes", JArray []);
          ("tags", JArray [JString "generated"; JString "from_document"]);
          ("timeout", JInt 300);
          ("source_document", JString file_path);
          ("generated_at", JString generated)].
Proof.
  unfold build_scenario, py_getitem.
  destruct (dict_get "url" extracted) as [url|]; [|discriminate].
  destruct (dict_get "requirements" extracted) as [requirements|]; [|discriminate].
  intros H. injection H as <-. eauto.
Qed.

(** The prints of the handlers on a path that has left the [try]
    block: each returns, or raises one of the four kinds of exception. *)
Ltac plan_handlers :=
  repeat match goal with
         | |- context [match ?o with Ok _ => _ | Raise _ => _ end] =>
             is_var o; destruct o as [[]|[| |?|?]]; simpl
         end.

(** Case analysis on one call of a run of [process_plan_file]: it
    returns, or raises one of the four kinds of exception, which ends
    the run but for the handlers. *)
Ltac plan_call o fin :=
  destruct o as [?|[| |?|?]]; simpl; [ | plan_handlers; fin .. ].

(** Every path through [process_plan_file]. *)
Ltac plan_paths run ber fe pnf pp imp ini rd gc sl au mk wr pg ar fin :=
  unfold process_plan_file, plan_try, plan_failed, after_extraction,
    or_return_1, tcatch, tbind, tlift, tsay, tret, tcall;
  simpl;
  (destruct fe as [[|]|[| |?|?]]; simpl;
   [ | plan_call pnf fin; fin | fin .. ]);
  plan_call pp fin;
  plan_call imp fin; plan_call ini fin; plan_call rd fin; plan_call gc fin;
  (match goal with
   | |- context [extract_json ?w ?r] =>
       destruct (extract_json w r) as [?|[| |?|?]] eqn:Hextract; simpl;
       [ | plan_handlers; fin .. ]
   end);
  (match goal with
   | |- context [py_truthy ?v] =>
       destruct (py_truthy v) eqn:Htruthy; simpl;
       [ | (destruct ber; simpl; [fin|]); plan_call au fin ]
   end);
  (match goal with
   | |- context [has_lower ?v] =>
       destruct (has_lower v) as [?|[| |?|?]] eqn:Hname; simpl;
       [ | plan_handlers; fin .. ]
   end);
  plan_call mk fin;
  (match goal with
   | |- context [build_scenario ?p ?g ?x] =>
       destruct (build_scenario p g x) as [?|[| |?|?]] eqn:Hbuild; simpl;
       [ | plan_handlers; fin .. ]
   end);
  plan_call wr fin;
  plan_call pg fin;
  try (destruct ber; simpl);
  try (plan_call ar fin;
       match goal with
       | |- context [String.eqb ?a "y"] => destruct (String.eqb a "y"); simpl
       end);
  try match goal with
      | |- context [run ?r] => destruct (run r) as [?|[| |?|?]] eqn:Hrun; simpl
      end;
  plan_handlers;
  fin.

(** X15: every scenario [process_plan_file] writes is one that
    [load_scenario] accepts: it has a name, requirements and a URL; its
    timeout is 300 and it names the document it came from; and in berserk
    mode, where nobody is asked, its URL is never empty. *)
Theorem process_plan_file_writes_loadable_scenarios :
  forall (run : run_request -> outcome Z) (file_path : string) (berserk : bool)
         (w : plan_collaborators) (scenario : list (string * json)),
    In (WroteScenario scenario) (fst (process_plan_file run file_path berserk w)) ->
    load_scenario (Document (JObject scenario)) = Scenario (JObject scenario)
    /\ dict_get "timeout" scenario = Some (JInt 300)
    /\ dict_get "source_document" scenario = Some (JString file_path)
    /\ (berserk = true ->
        exists url, dict_get "url" scenario = Some url /\ py_truthy url = true).
Proof.
  intros run file_path berserk
         [fe pnf pp imp ini rd per gc sl au ga mk wr pg ar pe] sc.
  plan_paths run berserk fe pnf pp imp ini rd gc sl au mk wr pg ar
    ltac:(intros Hin; simpl in Hin;
          repeat match goal with
                 | H : _ \/ _ |- _ => destruct H
                 end;
          try contradiction; try discriminate;
          match goal with
          | H : WroteScenario _ = WroteScenario _ |- _ => injection H as <-
          end;
          apply build_scenario_ok in Hbuild;
          destruct Hbuild as (url & req & Hurl & Hreq & ->);
          (split; [reflexivity|]); (split; [reflexivity|]); (split; [reflexivity|]);
          intros Hb;
          first [ discriminate Hb
                | exists url; (split; [reflexivity|]);
                  unfold dict_get_default in Htruthy; rewrite Hurl in Htruthy;
                  exact Htruthy ]).
Qed.

Lemma process_plan_file_writes_loadable_scenarios_witness :
  load_scenario (Document (JObject sample_written_scenario))
  = Scenario (JObject sample_written_scenario).
Proof.
  apply (process_plan_file_writes_loadable_scenarios
           (fun _ => Ok 0) "requirements.md" false sample_plan_world
           sample_written_scenario).
  simpl. auto 10.
Defined.

Lemma split_here {A : Type} (x : A) (l : list A) : x :: l = ([] ++ x :: l)%list.
Proof. reflexivity. Qed.

Lemma split_later {A : Type} (c x : A) (l before later : list A) :
  l = (before ++ x :: later)%list -> c :: l = ((c :: before) ++ x :: later)%list.
Proof. intros ->. reflexivity. Qed.

(** X16: every test [process_plan_file] runs is run after the scenario
    was written (the write returned, and its event comes before the
    run's), on the requirements and the URL of that scenario, not
    plan-only, headless, with the html report, a timeout of 300, at most
    50 steps and no output directory, whatever the command line said; and
    the function returns what that run returns, goes to its handler when
    the run raises an [Exception], where it returns 1 if the error line
    could be printed, and lets any other exception pass. *)
Theorem process_plan_file_run_request :
  forall (run : run_request -> outcome Z) (file_path : string) (berserk : bool)
         (w : plan_collaborators) (r : run_request),
    In (RanTest r) (fst (process_plan_file run file_path berserk w)) ->
    rr_plan_only r = false /\ rr_headless r = true /\ rr_output_dir r = None
    /\ rr_report_format r = "html" /\ rr_timeout r = 300 /\ rr_max_steps r = 50
    /\ rr_berserk r = berserk
    /\ returns (write_scenario w)
    /\ (exists scenario before later,
          fst (process_plan_file run file_path berserk w)
          = (before ++ WroteScenario scenario :: later)%list
          /\ In (RanTest r) later
          /\ dict_get "requirements" scenario = Some (rr_requirements r)
          /\ dict_get "url" scenario = Some (rr_url r))
    /\ snd (process_plan_file run file_path berserk w)
       = match run r with
         | Ok code => Ok code
         | Raise e =>
             if is_Exception e
             then match print_error_processing w with
                  | Ok _ => Ok 1
                  | Raise raised => Raise raised
                  end
             else Raise e
         end.
Proof.
  intros run file_path berserk
         [fe pnf pp imp ini rd per gc sl au ga mk wr pg ar pe] r.
  plan_paths run berserk fe pnf pp imp ini rd gc sl au mk wr pg ar
    ltac:(intros Hin; simpl in Hin;
          repeat match goal with
                 | H : _ \/ _ |- _ => destruct H
                 end;
          try contradiction; try discriminate;
          match goal with
          | H : RanTest _ = RanTest _ |- _ => injection H as <-
          end;
          apply build_scenario_ok in Hbuild;
          destruct Hbuild as (url & req & Hurl & Hreq & ->);
          simpl;
          do 7 (split; [reflexivity|]);
          (split; [exact I|]);
          (split;
           [ eexists; eexists; eexists;
             split;
             [ repeat first [apply split_here | apply split_later]
             | split; [simpl; auto 6 | split; reflexivity] ]
           | ]);
          unfold dict_get_default in *; simpl in *; rewrite ?Hrun;
          reflexivity).
Qed.

Lemma process_plan_file_run_request_witness :
  snd (process_plan_file (fun _ => Ok 2) "requirements.md" false sample_plan_world)
  = Ok 2.
Proof.
  apply (process_plan_file_run_request
           (fun _ => Ok 2) "requirements.md" false sample_plan_world
           (sample_run_request false)).
  simpl. auto 12.
Defined.

(** X17: in berserk mode [process_plan_file] never asks anything; and
    when it finds no usable URL in berserk mode it returns 1 without
    having written a scenario or run a test. *)
Theorem process_plan_file_berserk_never_asks :
  forall (run : run_request -> outcome Z) (file_path : string) (berserk : bool)
         (w : plan_collaborators),
    (berserk = true ->
     existsb is_prompt (fst (process_plan_file run file_path berserk w)) = false)
    /\ (In NoUrlInBerserkMode (fst (process_plan_file run file_path berserk w)) ->
        berserk = true
        /\ snd (process_plan_file run file_path berserk w) = Ok 1
        /\ existsb is_wrote_scenario
             (fst (process_plan_file run file_path berserk w)) = false
        /\ existsb is_ran_test
             (fst (process_plan_file run file_path berserk w)) = false).
Proof.
  intros run file_path berserk
         [fe pnf pp imp ini rd per gc sl au ga mk wr pg ar pe].
  plan_paths run berserk fe pnf pp imp ini rd gc sl au mk wr pg ar
    ltac:(split;
          [ intros Hb; first [discriminate Hb | reflexivity]
          | intros Hin; simpl in Hin;
            repeat match goal with
                   | H : _ \/ _ |- _ => destruct H
                   end;
            try contradiction; try discriminate;
            repeat split; reflexivity ]).
Qed.

(** X18: [process_plan_file] returns 1 for a file that does not exist,
    without touching the planner, if the line that says so could be
    printed; whenever it returns after one of its five error lines, it
    returns 1; and an [Exception] leaves it only when
    [file_path.exists()] raised it, or one of the prints that
    are not inside the [try] statement: the two lines with the path of
    the plan file, and the line of the handler. *)
Theorem process_plan_file_errors :
  forall (run : run_request -> outcome Z) (file_path : string) (berserk : bool)
         (w : plan_collaborators),
    (file_exists w = Ok false -> returns (print_file_not_found w) ->
     process_plan_file run file_path berserk w = ([PlanFileNotFound], Ok 1))
    /\ (forall code,
          snd (process_plan_file run file_path berserk w) = Ok code ->
          existsb is_error_line
                  (fst (process_plan_file run file_path berserk w)) = true ->
          code = 1)
    /\ (forall e,
          snd (process_plan_file run file_path berserk w) = Raise e ->
          is_Exception e = true ->
          file_exists w = Raise e \/ print_file_not_found w = Raise e
          \/ print_processing w = Raise e
          \/ print_error_processing w = Raise e).
Proof.
  intros run file_path berserk
         [fe pnf pp imp ini rd per gc sl au ga mk wr pg ar pe].
  plan_paths run berserk fe pnf pp imp ini rd gc sl au mk wr pg ar
    ltac:(split;
          [ intros Hfe Hprint;
            first [discriminate Hfe | contradiction | reflexivity]
          | split;
            [ intros code H Hline;
              first [ discriminate H | discriminate Hline
                    | injection H as <-; reflexivity ]
            | intros e H Hexc;
              first [ discriminate H
                    | injection H as <-;
                      first [ discriminate Hexc
                            | now left
                            | now (right; left)
                            | now (right; right; left)
                            | now (right; right; right) ] ] ] ]).
Qed.

Lemma process_plan_file_errors_witness :
  process_plan_file (fun _ => Ok 0) "requirements.md" false
    (PlanCollaborators (Ok false) (Ok tt) (Ok tt) (Ok tt) (Ok tt)
       (Ok "As a user I can log in") (Ok tt) (Ok JNull) (fun _ => Ok [])
       (Ok "https://example.test") "2024-01-01T00:00:00" (Ok tt) (Ok tt)
       (Ok tt) (Ok "y") (Ok tt))
  = ([PlanFileNotFound], Ok 1).
Proof.
  apply (proj1 (process_plan_file_errors (fun _ => Ok 0) "requirements.md" false
                  (PlanCollaborators (Ok false) (Ok tt) (Ok tt) (Ok tt) (Ok tt)
                     (Ok "As a user I can log in") (Ok tt) (Ok JNull)
                     (fun _ => Ok []) (Ok "https://example.test")
                     "2024-01-01T00:00:00" (Ok tt) (Ok tt) (Ok tt) (Ok "y")
                     (Ok tt)))).
  - reflexivity.
  - exact I.
Defined.
(** ** [async_main] and [main] *)

(** X19: options of the command line that are never read.  [--url] has
    no effect at all: two command lines that differ only in it behave
    alike.  And in [--plan] mode nothing but [--berserk] and [--debug]
    has an effect: [--plan-only], [--headless], [--timeout],
    [--max-steps], [--format] and [--output] change nothing. *)
Theorem main_unread_options :
  forall (run : run_request -> outcome Z) (w : main_collaborators)
         (ns ns' : namespace),
    (same_but_url ns ns' -> main run ns' w = main run ns w)
    /\ (forall path, runs_tests ns -> ns_requirements ns = false ->
                     ns_plan ns = Some path -> same_for_plan_mode ns ns' ->
                     main run ns' w = main run ns w).
Proof.
  intros run w ns ns'. split.
  - unfold same_but_url. intros ->. destruct ns. reflexivity.
  - intros path (Hv & Ha) Hr Hp (Hr' & Hp' & Ha' & Hv' & Hb' & Hd').
    destruct ns as [rq pl js ta ve ur be po hl de ou fo ti ms].
    destruct ns' as [rq' pl' js' ta' ve' ur' be' po' hl' de' ou' fo' ti' ms'].
    simpl in *. subst.
    unfold main, async_main, override_settings. simpl.
    destruct (get_settings w) as [[dm ll lf lfile bh]|e]; simpl; [|reflexivity].
    destruct de, hl, hl'; reflexivity.
Qed.

Lemma main_unread_options_witness :
  main (fun _ => Ok 0) plan_command_with_options (sample_main_world missing_file)
  = main (fun _ => Ok 0) plan_command (sample_main_world missing_file).
Proof.
  apply (proj2 (main_unread_options (fun _ => Ok 0)
                  (sample_main_world missing_file)
                  plan_command plan_command_with_options)
               "requirements.md").
  - split; reflexivity.
  - reflexivity.
  - reflexivity.
  - repeat split; reflexivity.
Defined.

(** X20: how [main] picks what to do.  With [--version] it prints the
    version and returns 0 without reading the settings or anything else,
    whatever options accompany it; with [--test-api] (and no
    [--version]) it only tests the API connection: it returns the code
    that test returns, and an [Exception] that leaves the test is its
    fatal error, after which it returns 1 if that line could be printed;
    without any input mode it sets up settings, logging and the security
    components, prints the help and returns 1, and runs no test. *)
Theorem main_dispatch :
  forall (run : run_request -> outcome Z) (ns : namespace) (w : main_collaborators),
    (ns_version ns = true -> main run ns w = ([ShowedVersion], Returns 0))
    /\ (ns_version ns = false -> ns_test_api ns = true ->
        fst (async_main run ns w)
        = [TestedApi (fst (test_api_connection (api w)))]
        /\ (forall code,
              snd (test_api_connection (api w)) = Ok code ->
              main run ns w
              = ([TestedApi (fst (test_api_connection (api w)))], Returns code))
        /\ (forall e,
              snd (test_api_connection (api w)) = Raise e ->
              is_Exception e = true ->
              fst (main run ns w)
              = [TestedApi (fst (test_api_connection (api w))); FatalError e]
              /\ (returns (print_fatal_error w) ->
                  snd (main run ns w) = Returns 1)))
    /\ (no_input_mode ns -> startup_returns w ->
        snd (main run ns w) = Returns 1
        /\ last (fst (main run ns w)) ShowedVersion = PrintedHelp
        /\ existsb is_called_run_test (fst (main run ns w)) = false).
Proof.
  intros run [rq pl js ta ve ur be po hl de ou fo ti ms] w. simpl.
  split; [|split].
  - intros ->. reflexivity.
  - intros -> ->. unfold main, async_main, mcall. simpl.
    destruct (test_api_connection (api w)) as [lines [code|e]]; simpl.
    + split; [reflexivity|]. split.
      * intros c H. now injection H as <-.
      * discriminate.
    + split; [reflexivity|]. split; [discriminate|].
      intros e' H He. injection H as <-. rewrite He. simpl.
      split; [reflexivity|].
      destruct (print_fatal_error w); [reflexivity | contradiction].
  - intros ((Hv & Ha) & Hr & Hp & Hj) (H1 & H2 & H3 & H4).
    simpl in *. subst.
    destruct w as [gs sl rl ds ap si pu pw sc pf]. simpl in *.
    destruct gs; [|contradiction]. destruct sl; [|contradiction].
    destruct rl; [|contradiction]. destruct ds; [|contradiction].
    repeat split.
Qed.

Lemma main_dispatch_witness :
  main (fun _ => Ok 0) version_and_more (sample_main_world missing_file)
  = ([ShowedVersion], Returns 0).
Proof.
  apply (proj1 (main_dispatch (fun _ => Ok 0) version_and_more
                  (sample_main_world missing_file))).
  reflexivity.
Defined.

(** A path of [main] on which no test is run. *)
Ltac main_quiet :=
  simpl; intros Hin; exfalso;
  simpl in Hin; rewrite ?in_app_iff in Hin; simpl in Hin;
  repeat match goal with
         | H : _ \/ _ |- _ => destruct H
         end;
  try contradiction; discriminate.

Ltac main_call o :=
  destruct o as [?|?]; simpl;
  [ | repeat match goal with
             | |- context [is_Exception ?e] => destruct (is_Exception e); simpl
             end;
      main_quiet .. ].

(** A path of [main] that ends in the call of [run_test]. *)
Ltac main_ran run de hl :=
  destruct de, hl; simpl;
  destruct (run _) as [?|?]; simpl;
  repeat match goal with
         | |- context [is_Exception ?e] => destruct (is_Exception e); simpl
         end;
  intros Hin; rewrite ?in_app_iff in Hin; simpl in Hin;
  repeat match goal with
         | H : _ \/ _ |- _ => destruct H
         end;
  try contradiction; try discriminate;
  match goal with
  | H : CalledRunTest _ = CalledRunTest _ |- _ => injection H as <-
  end;
  simpl;
  repeat (split; [reflexivity|]);
  intros flag Hflag;
  first [ discriminate Hflag | injection Hflag as <-; reflexivity ].

(** X21: the test [main] runs outside [--plan] mode gets its options
    from the command line: plan-only, output directory, report format,
    timeout, step limit and berserk are the parsed ones, and [headless]
    is the parsed flag whenever the parser set one, whatever the
    settings say about the browser. *)
Theorem main_run_request :
  forall (run : run_request -> outcome Z) (ns : namespace) (w : main_collaborators)
         (r : run_request),
    In (CalledRunTest r) (fst (main run ns w)) ->
    rr_plan_only r = ns_plan_only ns
    /\ rr_output_dir r = ns_output ns
    /\ rr_report_format r = ns_format ns
    /\ rr_timeout r = ns_timeout ns
    /\ rr_max_steps r = ns_max_steps ns
    /\ rr_berserk r = ns_berserk ns
    /\ (forall flag, ns_headless ns = Some flag -> rr_headless r = flag).
Proof.
  intros run [rq pl js ta ve ur be po hl de ou fo ti ms]
         [gs sl rl ds ap si pu pw sc pf] r.
  unfold main, async_main, call_run_test, override_settings, subscript, mcall,
    mbind, mret, show_version, ending_of.
  simpl.
  destruct ve; [main_quiet|].
  destruct ta.
  { destruct (test_api_connection ap) as [lines o]. main_call o. main_quiet. }
  destruct gs as [[dm ll lf lfile bh]|?]; simpl;
    [ | repeat match goal with
               | |- context [is_Exception ?e] => destruct (is_Exception e); simpl
               end;
        main_quiet ].
  main_call sl. main_call rl. main_call ds.
  destruct rq; simpl.
  - destruct (get_interactive_requirements si pu) as [[req url]|?|code];
      simpl;
      [ main_ran run de hl
      | repeat match goal with
               | |- context [is_Exception ?e] => destruct (is_Exception e); simpl
               end;
        main_quiet
      | main_quiet ].
  - destruct pl as [path|]; simpl.
    { destruct (process_plan_file run path be pw) as [events o].
      main_call o. main_quiet. }
    destruct js as [path|]; simpl; [|main_quiet].
    destruct (load_scenario sc) as [scenario|code line|e]; simpl;
      [ | main_quiet
        | repeat match goal with
                 | |- context [is_Exception ?e] => destruct (is_Exception e); simpl
                 end;
          main_quiet ].
    destruct (py_getitem scenario "requirements") as [req|e1] eqn:Hreq; simpl;
      [ | repeat match goal with
                 | |- context [is_Exception ?e] => destruct (is_Exception e); simpl
                 end;
          main_quiet ].
    destruct (py_getitem scenario "url") as [url|e2] eqn:Hurl; simpl;
      [ | repeat match goal with
                 | |- context [is_Exception ?e] => destruct (is_Exception e); simpl
                 end;
          main_quiet ].
    main_ran run de hl.
Qed.

Lemma main_run_request_witness :
  rr_timeout (RunRequest (JString "Log in") (JString "https://example.test")
                         false false None "html" 300 50 false)
  = ns_timeout interactive_command.
Proof.
  apply (main_run_request (fun _ => Ok 0) interactive_command
           (sample_main_world missing_file)
           (RunRequest (JString "Log in") (JString "https://example.test") false
                       false None "html" 300 50 false)).
  simpl. auto 10.
Defined.

Lemma load_scenario_exit_code (file : scenario_file) (code : Z)
    (line : load_message) :
  load_scenario file = SysExit code line -> code = 1.
Proof.
  unfold load_scenario.
  destruct (load_scenario_try file) as [x|e]; [discriminate|].
  destruct (handler_print file); intros H;
    first [discriminate H | now injection H as <- _].
Qed.

(** X22: what becomes of a scenario file in [--json-test-plan] mode.  A
    file that [load_scenario] refuses ends the program with exit status
    1, through [sys.exit], which [main] does not intercept; a document
    that [load_scenario] accepts although it is not a record makes [main]
    print the fatal error of a [TypeError] and return 1; in both cases no
    test is run. *)
Theorem main_scenario_file_endings :
  forall (run : run_request -> outcome Z) (ns : namespace) (w : main_collaborators)
         (path : string),
    json_mode ns path ->
    startup_returns w ->
    (forall code line,
        load_scenario (scenario_at_path w) = SysExit code line ->
        snd (main run ns w) = Exits 1
        /\ existsb is_called_run_test (fst (main run ns w)) = false)
    /\ (forall v,
        load_scenario (scenario_at_path w) = Scenario v ->
        is_record v = false ->
        snd (main run ns w) = Returns 1
        /\ last (fst (main run ns w)) ShowedVersion
           = FatalError (Exception "TypeError")
        /\ existsb is_called_run_test (fst (main run ns w)) = false).
Proof.
  intros run [rq pl js ta ve ur be po hl de ou fo ti ms]
         [gs sl rl ds ap si pu pw sc pf] path
         ((Hv & Ha) & Hr & Hp & Hj) (H1 & H2 & H3 & H4).
  simpl in *. subst.
  destruct gs; [|contradiction]. destruct sl; [|contradiction].
  destruct rl; [|contradiction]. destruct ds; [|contradiction].
  unfold main, async_main, subscript, mcall, mbind. simpl. split.
  - intros code line Hload. rewrite Hload.
    rewrite (load_scenario_exit_code _ _ _ Hload). simpl. auto.
  - intros v Hload Hrecord. rewrite Hload. simpl.
    destruct v; try discriminate Hrecord; simpl; auto.
Qed.

Lemma main_scenario_file_endings_witness :
  snd (main (fun _ => Ok 0) json_command
            (sample_main_world
               (Document (JArray [JString "url"; JString "name";
                                  JString "requirements"]))))
  = Returns 1.
Proof.
  apply (proj2 (main_scenario_file_endings (fun _ => Ok 0) json_command
                  (sample_main_world
                     (Document (JArray [JString "url"; JString "name";
                                        JString "requirements"])))
                  "scenario.json"
                  ltac:(repeat split; reflexivity)
                  ltac:(repeat split; exact I))
               (JArray [JString "url"; JString "name"; JString "requirements"]));
    reflexivity.
Defined.

(** X23: [async_main] composed with [run_test].  When the requirements
    and the URL are found as strings (typed in, or in a scenario record)
    and the parser set the headless flag, the last thing [async_main]
    does is to call [run_test] on those two, with plan-only, headless,
    output directory, report format, timeout, step limit and berserk
    from the command line, and it ends as that call ends: it returns the
    exit code [run_test] returns, and what [run_test] raises (after a
    failed cleanup, say) leaves [async_main] too. *)
Theorem async_main_runs_run_test :
  forall (rw : collaborators) (otherwise : run_request -> outcome Z)
         (ns : namespace) (w : main_collaborators)
         (requirements url : string) (flag : bool),
    runs_tests ns ->
    startup_returns w ->
    finds_input ns w requirements url ->
    ns_headless ns = Some flag ->
    last (fst (async_main (run_test_callee rw otherwise) ns w)) ShowedVersion
    = CalledRunTest
        (RunRequest (JString requirements) (JString url) (ns_plan_only ns) flag
                    (ns_output ns) (ns_format ns) (ns_timeout ns)
                    (ns_max_steps ns) (ns_berserk ns))
    /\ snd (async_main (run_test_callee rw otherwise) ns w)
       = match snd (run_test (RunArgs requirements url (ns_plan_only ns) flag
                                      (ns_output ns) (ns_format ns)
                                      (ns_timeout ns) (ns_max_steps ns)
                                      (ns_berserk ns))
                             rw) with
         | Ok code => Returned code
         | Raise e => Raised e (print_fatal_error w)
         end.
Proof.
  intros rw otherwise [rq pl js ta ve ur be po hl de ou fo ti ms]
         [gs sl rl ds ap si pu pw sc pf] requirements url flag
         (Hv & Ha) (H1 & H2 & H3 & H4) Hfound Hflag.
  unfold finds_input in Hfound. simpl in *. subst.
  destruct gs as [[dm ll lf lfile bh]|]; [|contradiction].
  destruct sl; [|contradiction].
  destruct rl; [|contradiction]. destruct ds; [|contradiction].
  unfold async_main, call_run_test, override_settings, subscript, mcall, mbind,
    ending_of.
  simpl.
  destruct Hfound as [(-> & Hread)|(-> & -> & path & members & -> & Hload & Hreq & Hurl)].
  - rewrite Hread. simpl.
    destruct de; simpl; unfold run_test_callee; simpl;
      destruct (snd (run_test _ rw)) as [code|e]; simpl; split; reflexivity.
  - simpl. rewrite Hload. simpl. rewrite Hreq, Hurl. simpl.
    destruct de; simpl; unfold run_test_callee; simpl;
      destruct (snd (run_test _ rw)) as [code|e]; simpl; split; reflexivity.
Qed.

Lemma async_main_runs_run_test_witness :
  snd (async_main
         (run_test_callee cleanup_raises (fun _ => Raise (Exception "TypeError")))
         interactive_command (sample_main_world missing_file))
  = Raised (Exception "RuntimeError") (Ok tt).
Proof.
  apply (proj2 (async_main_runs_run_test cleanup_raises
                  (fun _ => Raise (Exception "TypeError")) interactive_command
                  (sample_main_world missing_file) "Log in"
                  "https://example.test" false
                  ltac:(split; reflexivity)
                  ltac:(repeat split; exact I)
                  ltac:(left; split; reflexivity)
                  eq_refl)).
Defined.
(** ** The prompt templates *)

Lemma append_assoc (a b c : string) : (a ++ b) ++ c = a ++ (b ++ c).
Proof.
  induction a as [|x a IH]; simpl; [reflexivity | now rewrite IH].
Qed.

Lemma append_cancel_l (p a b : string) : p ++ a = p ++ b -> a = b.
Proof.
  induction p as [|x p IH]; simpl; intros H; [exact H|].
  injection H as H. auto.
Qed.

Lemma length_append (a b : string) :
  String.length (a ++ b) = (String.length a + String.length b)%nat.
Proof.
  induction a as [|x a IH]; simpl; [reflexivity | now rewrite IH].
Qed.

Lemma append_cancel_r (s a b : string) : a ++ s = b ++ s -> a = b.
Proof.
  revert b. induction a as [|x a IH]; intros [|y b] H; simpl in H.
  - reflexivity.
  - exfalso. apply (f_equal String.length) in H. simpl in H.
    rewrite length_append in H. lia.
  - exfalso. apply (f_equal String.length) in H. simpl in H.
    rewrite length_append in H. lia.
  - injection H as -> H. f_equal. auto.
Qed.

(** X24: the evaluation prompt determines the expected outcome it was
    built from (two outcomes that give the same prompt are the same),
    whereas the refinement prompt does not delimit its two arguments:
    text that follows the feedback heading inside the plan can be moved
    over to the feedback without changing the prompt. *)
Theorem prompt_templates_delimiting :
  (forall a b : string, result_evaluation a = result_evaluation b -> a = b)
  /\ (forall plan inserted feedback : string,
         test_plan_refinement (plan ++ feedback_heading ++ inserted) feedback
         = test_plan_refinement plan (inserted ++ feedback_heading ++ feedback)).
Proof.
  split.
  - intros a b H. unfold result_evaluation in H.
    apply append_cancel_l in H.
    eapply append_cancel_r. exact H.
  - intros plan inserted feedback.
    unfold test_plan_refinement, feedback_heading.
    rewrite !append_assoc. reflexivity.
Qed.

Lemma prompt_templates_delimiting_witness :
  test_plan_refinement ("1. Open the page" ++ feedback_heading ++ "Skip step 1")
                       "Add a logout step"
  = test_plan_refinement "1. Open the page"
      ("Skip step 1" ++ feedback_heading ++ "Add a logout step").
Proof.
  apply (proj2 prompt_templates_delimiting).
Defined.

